(** * nifinova: the in-memory store, the signal generator, the notification
      sender, the market-data accessor and the HTTP handlers

    A shallow embedding of [server/storage.ts], [server/routes.ts],
    [server/services/{whatsapp,ai-signals,zerodha}.ts] and of the schema
    types of [shared/schema.ts].

    Conventions of the embedding:
    - a JS [Map] is an insertion-ordered association list ([JsMap]): the
      code iterates maps ([Array.from(m.values())]) and takes the first
      match, so the order of the entries is observable;
    - an object stored in a map and mutated through a reference obtained
      from it ([user.isActive = false]) is the entry at its position, which
      is overwritten in place;
    - JS numbers that hold integers are [Z]; the other numbers (prices,
      indicators, [Math.random()] draws) are rationals [Q]. Every finite
      double is a rational, and comparisons, [Math.floor] and [Math.round]
      are those of the code; sums and products are exact here, where the
      code rounds each of them to the nearest double. A bound on a
      computed number is therefore stated closed ([<=]) where rounding
      can reach it;
    - a [Date] is its time value; the accessors and setters that the code
      calls work in the local time of the process, through the offset
      [localTZA] of the host;
    - [async] code is sequential state passing in the monad [M], with
      exceptions ([throw], rejected promises) as the [Throw] result;
    - what the host provides (random draws, the two remote endpoints,
      [decodeURIComponent]) is gathered in a [Host] record. *)

From Stdlib Require Import ZArith QArith Qround Lia Lqa.
From Stdlib Require Import Strings.String Strings.Ascii.
From Stdlib Require DecimalString.
From Stdlib Require Import Sorting.Sorted.
From stdpp Require Import base option list strings.

Close Scope Q_scope.
Local Open Scope Z_scope.
Local Open Scope string_scope.


(** ** JavaScript values and string helpers *)

Module Js.

(** [String.prototype.includes] *)
Fixpoint includes (needle hay : string) : bool :=
  String.prefix needle hay ||
  match hay with
  | EmptyString => false
  | String _ rest => includes needle rest
  end.

Definition is_digit (c : ascii) : bool :=
  let n := nat_of_ascii c in (48 <=? n)%nat && (n <=? 57)%nat.

Definition filter_chars (p : ascii -> bool) (s : string) : string :=
  string_of_list_ascii (List.filter p (list_ascii_of_string s)).

(** [s.replace(/\D/g, '')] *)
Definition strip_non_digits (s : string) : string := filter_chars is_digit s.

Definition all_chars (p : ascii -> bool) (s : string) : bool :=
  forallb p (list_ascii_of_string s).

(** [Number.prototype.toString] on an integer-valued number *)
Definition show (z : Z) : string :=
  DecimalString.NilZero.string_of_int (Z.to_int z).

(** [s.padStart(2, '0')] *)
Definition padStart2 (s : string) : string :=
  match String.length s with
  | O => "00"
  | S O => "0" ++ s
  | _ => s
  end.

(** [Math.floor] and [Math.round] (ties towards +infinity) *)
Definition floor (x : Q) : Z := Qfloor x.
Definition round (x : Q) : Z := Qfloor (x + (1 # 2))%Q.

(** [x > y] and [x < y] on numbers *)
Definition gt (x y : Q) : bool := if Qlt_le_dec y x then true else false.
Definition lt (x y : Q) : bool := gt y x.

(** [Number.prototype.toFixed(2)]: the integer [n] nearest to [100 x]
    (the larger one on a tie), printed with two decimals. *)
Definition toFixed2_nonneg (x : Q) : string :=
  let n := Qfloor (x * 100 + (1 # 2))%Q in
  show (n / 100) ++ "." ++ padStart2 (show (n mod 100)).
Definition toFixed2 (x : Q) : string :=
  if Qlt_le_dec x 0 then "-" ++ toFixed2_nonneg (- x)%Q else toFixed2_nonneg x.

(** The exceptions the modelled code can meet. *)
Inductive Error : Type :=
| TypeError (msg : string)
| URIError (msg : string)
| SyntaxError (msg : string)
| NetworkError (msg : string)
| PlainError (msg : string).

(** Untyped JS values ([any]): request bodies and remote JSON. *)
#[warnings="-register-all"]
Inductive Value : Type :=
| Undefined
| Null
| Bool (b : bool)
| Num (q : Q)
| Str (s : string)
| Arr (items : list Value)
| Obj (fields : list (string * Value))
| Err (e : Error).

(** Property read on an object value; [undefined] elsewhere. *)
Definition field (name : string) (v : Value) : Value :=
  match v with
  | Obj fields =>
      match List.find (fun kv => String.eqb (fst kv) name) fields with
      | Some kv => snd kv
      | None => Undefined
      end
  | _ => Undefined
  end.

(** [v === s] for a string [s] *)
Definition strict_eq_str (v : Value) (s : string) : bool :=
  match v with
  | Str s' => String.eqb s' s
  | _ => false
  end.

(** An un-awaited promise is an object, and every object is truthy. *)
Inductive Promise (A : Type) : Type := Resolved (a : A).
Arguments Resolved {A} a.
Definition promise_truthy {A} (p : Promise A) : bool := true.

(** [Array.prototype.sort(cmp)]. The sort is stable; for a comparator
    that orders consistently, as a difference of numbers does, its result
    is the one of this insertion: an element goes before the later
    elements, up to the first that the comparator does not put before
    it. *)
Fixpoint sort_insert {A} (cmp : A -> A -> Z) (x : A) (l : list A) : list A :=
  match l with
  | nil => cons x nil
  | cons y l' =>
      if (0 <? cmp x y)%Z then cons y (sort_insert cmp x l') else cons x l
  end.

Definition sort {A} (cmp : A -> A -> Z) (l : list A) : list A :=
  List.fold_right (sort_insert cmp) nil l.

End Js.

(** ** [Map]: insertion-ordered, [set] on a present key keeps its place *)

Module JsMap.
Section ops.
Context {K V : Type} `{EqDecision K}.

Fixpoint get (k : K) (m : list (K * V)) : option V :=
  match m with
  | [] => None
  | (k', v) :: m' => if decide (k' = k) then Some v else get k m'
  end.

Fixpoint set (k : K) (v : V) (m : list (K * V)) : list (K * V) :=
  match m with
  | [] => [(k, v)]
  | (k', v') :: m' =>
      if decide (k' = k) then (k, v) :: m' else (k', v') :: set k v m'
  end.

(** [Array.from(m.values())] *)
Definition values (m : list (K * V)) : list V := m.*2.

Definition keys (m : list (K * V)) : list K := m.*1.
End ops.
End JsMap.

(** ** The schema types ([shared/schema.ts])

    [decimal] columns are strings, [integer] and [serial] columns are
    integers, [timestamp] columns are milliseconds since the epoch. *)

Module User.
Record t : Type := mk { id : Z; username : string; password : string }.
End User.

Module InsertUser.
Record t : Type := mk { username : string; password : string }.
End InsertUser.

Module WhatsappUser.
Record t : Type := mk {
  id : Z;
  phoneNumber : string;
  isActive : bool;
  createdAt : Z
}.
(** [user.isActive = b] *)
Definition set_isActive (b : bool) (u : t) : t :=
  mk (id u) (phoneNumber u) b (createdAt u).
End WhatsappUser.

Module InsertTradingSignal.
Record t : Type := mk {
  type : string;
  strikePrice : string;
  targetPrice : string;
  stopLoss : string;
  confidence : Z;
  reasoning : string;
  expiryDate : Z;
  isActive : bool;
  whatsappSent : bool
}.
End InsertTradingSignal.

Module TradingSignal.
Record t : Type := mk {
  id : Z;
  type : string;
  strikePrice : string;
  targetPrice : string;
  stopLoss : string;
  confidence : Z;
  reasoning : string;
  expiryDate : Z;
  isActive : bool;
  whatsappSent : bool;
  createdAt : Z
}.
(** [signal.whatsappSent = b] *)
Definition set_whatsappSent (b : bool) (s : t) : t :=
  mk (id s) (type s) (strikePrice s) (targetPrice s) (stopLoss s)
     (confidence s) (reasoning s) (expiryDate s) (isActive s) b (createdAt s).
End TradingSignal.

Module PortfolioPosition.
Record t : Type := mk {
  id : Z;
  symbol : string;
  type : string;
  strikePrice : string;
  quantity : Z;
  entryPrice : string;
  currentPrice : string;
  pnl : string;
  isActive : bool;
  createdAt : Z
}.
End PortfolioPosition.

Module MarketData.
Record t : Type := mk {
  id : Z;
  symbol : string;
  price : string;
  change : string;
  changePercent : string;
  volume : Z;
  lastUpdated : Z
}.
End MarketData.

Module OptionsChain.
Record t : Type := mk {
  id : Z;
  strikePrice : string;
  callLTP : option string;
  callVolume : option Z;
  putLTP : option string;
  putVolume : option Z;
  expiryDate : Z;
  lastUpdated : Z
}.
End OptionsChain.

Module InsertPortfolioPosition.
Record t : Type := mk {
  symbol : string;
  type : string;
  strikePrice : string;
  quantity : Z;
  entryPrice : string;
  currentPrice : string;
  pnl : string;
  isActive : option bool
}.
End InsertPortfolioPosition.

(** [Partial<PortfolioPosition>]: each property may be absent. (A [null]
    flag, which the column type allows, is not represented.) *)
Module PartialPortfolioPosition.
Record t : Type := mk {
  id : option Z;
  symbol : option string;
  type : option string;
  strikePrice : option string;
  quantity : option Z;
  entryPrice : option string;
  currentPrice : option string;
  pnl : option string;
  isActive : option bool;
  createdAt : option Z
}.

Definition empty : t :=
  mk None None None None None None None None None None.

Definition or_keep {A} (update : option A) (old : A) : A :=
  match update with
  | Some new => new
  | None => old
  end.

(** [Object.assign(position, updates)]: the properties that [updates] has
    are written over those of [position]. *)
Definition assign (position : PortfolioPosition.t) (updates : t)
    : PortfolioPosition.t :=
  PortfolioPosition.mk
    (or_keep (id updates) (PortfolioPosition.id position))
    (or_keep (symbol updates) (PortfolioPosition.symbol position))
    (or_keep (type updates) (PortfolioPosition.type position))
    (or_keep (strikePrice updates) (PortfolioPosition.strikePrice position))
    (or_keep (quantity updates) (PortfolioPosition.quantity position))
    (or_keep (entryPrice updates) (PortfolioPosition.entryPrice position))
    (or_keep (currentPrice updates) (PortfolioPosition.currentPrice position))
    (or_keep (pnl updates) (PortfolioPosition.pnl position))
    (or_keep (isActive updates) (PortfolioPosition.isActive position))
    (or_keep (createdAt updates) (PortfolioPosition.createdAt position)).
End PartialPortfolioPosition.

Module InsertMarketData.
Record t : Type := mk {
  symbol : string;
  price : string;
  change : string;
  changePercent : string;
  volume : Z
}.
End InsertMarketData.

Module InsertOptionsChain.
Record t : Type := mk {
  strikePrice : string;
  callLTP : option string;
  callVolume : option Z;
  putLTP : option string;
  putVolume : option Z;
  expiryDate : Z
}.
End InsertOptionsChain.

(** ** [MemStorage] ([server/storage.ts]) *)

Module MemStorage.

Record t : Type := mk {
  users : list (Z * User.t);
  whatsappUsers : list (Z * WhatsappUser.t);
  tradingSignals : list (Z * TradingSignal.t);
  portfolioPositions : list (Z * PortfolioPosition.t);
  marketData : list (string * MarketData.t);
  optionsChain : list (string * OptionsChain.t);
  currentUserId : Z;
  currentWhatsappUserId : Z;
  currentSignalId : Z;
  currentPositionId : Z;
  currentMarketDataId : Z;
  currentOptionsChainId : Z
}.

Definition with_users (f : list (Z * User.t) -> list (Z * User.t))
    (g : Z -> Z) (st : t) : t :=
  mk (f (users st)) (whatsappUsers st) (tradingSignals st)
     (portfolioPositions st) (marketData st) (optionsChain st)
     (g (currentUserId st)) (currentWhatsappUserId st) (currentSignalId st)
     (currentPositionId st) (currentMarketDataId st) (currentOptionsChainId st).

Definition with_whatsappUsers
    (f : list (Z * WhatsappUser.t) -> list (Z * WhatsappUser.t))
    (g : Z -> Z) (st : t) : t :=
  mk (users st) (f (whatsappUsers st)) (tradingSignals st)
     (portfolioPositions st) (marketData st) (optionsChain st)
     (currentUserId st) (g (currentWhatsappUserId st)) (currentSignalId st)
     (currentPositionId st) (currentMarketDataId st) (currentOptionsChainId st).

Definition with_tradingSignals
    (f : list (Z * TradingSignal.t) -> list (Z * TradingSignal.t))
    (g : Z -> Z) (st : t) : t :=
  mk (users st) (whatsappUsers st) (f (tradingSignals st))
     (portfolioPositions st) (marketData st) (optionsChain st)
     (currentUserId st) (currentWhatsappUserId st) (g (currentSignalId st))
     (currentPositionId st) (currentMarketDataId st) (currentOptionsChainId st).

(** [const id = this.currentUserId++; this.users.set(id, {...insertUser, id})] *)
Definition createUser (insertUser : InsertUser.t) (st : t) : User.t * t :=
  let id := currentUserId st in
  let user := User.mk id (InsertUser.username insertUser)
                      (InsertUser.password insertUser) in
  (user, with_users (JsMap.set id user) Z.succ st).

(** The constructor: empty maps, counters at 1, then the admin user. *)
Definition empty : t := mk [] [] [] [] [] [] 1 1 1 1 1 1.
Definition new : t := snd (createUser (InsertUser.mk "admin" "admin") empty).

Definition getUser (id : Z) (st : t) : option User.t :=
  JsMap.get id (users st).

(** [Array.from(this.users.values()).find(user => user.username === username)];
    [username] comes from [req.body] and is any JS value. *)
Definition getUserByUsername (username : Js.Value) (st : t) : option User.t :=
  List.find (fun user => Js.strict_eq_str username (User.username user))
            (JsMap.values (users st)).

Definition getAllWhatsappUsers (st : t) : list WhatsappUser.t :=
  List.filter WhatsappUser.isActive (JsMap.values (whatsappUsers st)).

Definition addWhatsappUser (phoneNumber : string) (now : Z) (st : t)
    : WhatsappUser.t * t :=
  let id := currentWhatsappUserId st in
  let user := WhatsappUser.mk id phoneNumber true now in
  (user, with_whatsappUsers (JsMap.set id user) Z.succ st).

(** [find] yields the first object whose phone number matches, whatever
    its active flag; the assignment mutates that object, that is, the
    entry at its position. *)
Definition removeWhatsappUser (phoneNumber : string) (st : t) : bool * t :=
  match list_find (fun e : Z * WhatsappUser.t =>
                     WhatsappUser.phoneNumber e.2 = phoneNumber)
                  (whatsappUsers st) with
  | Some (i, (k, user)) =>
      (true,
       with_whatsappUsers
         (fun m => <[i := (k, WhatsappUser.set_isActive false user)]> m)
         (fun n => n) st)
  | None => (false, st)
  end.

Definition createTradingSignal (insertSignal : InsertTradingSignal.t)
    (now : Z) (st : t) : TradingSignal.t * t :=
  let id := currentSignalId st in
  let signal :=
    TradingSignal.mk id
      (InsertTradingSignal.type insertSignal)
      (InsertTradingSignal.strikePrice insertSignal)
      (InsertTradingSignal.targetPrice insertSignal)
      (InsertTradingSignal.stopLoss insertSignal)
      (InsertTradingSignal.confidence insertSignal)
      (InsertTradingSignal.reasoning insertSignal)
      (InsertTradingSignal.expiryDate insertSignal)
      true false now in
  (signal, with_tradingSignals (JsMap.set id signal) Z.succ st).

(** [this.tradingSignals.get(id)], then the flag is set on that object. *)
Definition updateSignalWhatsappSent (id : Z) (st : t) : bool * t :=
  match JsMap.get id (tradingSignals st) with
  | Some signal =>
      (true,
       with_tradingSignals
         (JsMap.set id (TradingSignal.set_whatsappSent true signal))
         (fun n => n) st)
  | None => (false, st)
  end.

Definition getAllPortfolioPositions (st : t) : list PortfolioPosition.t :=
  List.filter PortfolioPosition.isActive (JsMap.values (portfolioPositions st)).

(** [filter] on the active flag, then [sort] with
    [(a, b) => b.createdAt.getTime() - a.createdAt.getTime()]. *)
Definition getAllActiveSignals (st : t) : list TradingSignal.t :=
  Js.sort
    (fun a b => TradingSignal.createdAt b - TradingSignal.createdAt a)
    (List.filter TradingSignal.isActive (JsMap.values (tradingSignals st))).

Definition with_portfolioPositions
    (f : list (Z * PortfolioPosition.t) -> list (Z * PortfolioPosition.t))
    (g : Z -> Z) (st : t) : t :=
  mk (users st) (whatsappUsers st) (tradingSignals st)
     (f (portfolioPositions st)) (marketData st) (optionsChain st)
     (currentUserId st) (currentWhatsappUserId st) (currentSignalId st)
     (g (currentPositionId st)) (currentMarketDataId st)
     (currentOptionsChainId st).

Definition with_marketData
    (f : list (string * MarketData.t) -> list (string * MarketData.t))
    (g : Z -> Z) (st : t) : t :=
  mk (users st) (whatsappUsers st) (tradingSignals st)
     (portfolioPositions st) (f (marketData st)) (optionsChain st)
     (currentUserId st) (currentWhatsappUserId st) (currentSignalId st)
     (currentPositionId st) (g (currentMarketDataId st))
     (currentOptionsChainId st).

Definition with_optionsChain
    (f : list (string * OptionsChain.t) -> list (string * OptionsChain.t))
    (g : Z -> Z) (st : t) : t :=
  mk (users st) (whatsappUsers st) (tradingSignals st)
     (portfolioPositions st) (marketData st) (f (optionsChain st))
     (currentUserId st) (currentWhatsappUserId st) (currentSignalId st)
     (currentPositionId st) (currentMarketDataId st)
     (g (currentOptionsChainId st)).

Definition createPortfolioPosition (insertPosition : InsertPortfolioPosition.t)
    (now : Z) (st : t) : PortfolioPosition.t * t :=
  let id := currentPositionId st in
  let position :=
    PortfolioPosition.mk id
      (InsertPortfolioPosition.symbol insertPosition)
      (InsertPortfolioPosition.type insertPosition)
      (InsertPortfolioPosition.strikePrice insertPosition)
      (InsertPortfolioPosition.quantity insertPosition)
      (InsertPortfolioPosition.entryPrice insertPosition)
      (InsertPortfolioPosition.currentPrice insertPosition)
      (InsertPortfolioPosition.pnl insertPosition)
      true now in
  (position, with_portfolioPositions (JsMap.set id position) Z.succ st).

(** [this.portfolioPositions.get(id)], then [Object.assign] on that
    object: the entry under [id] is the one written. *)
Definition updatePortfolioPosition (id : Z)
    (updates : PartialPortfolioPosition.t) (st : t)
    : option PortfolioPosition.t * t :=
  match JsMap.get id (portfolioPositions st) with
  | Some position =>
      let position' := PartialPortfolioPosition.assign position updates in
      (Some position',
       with_portfolioPositions (JsMap.set id position') (fun n => n) st)
  | None => (None, st)
  end.

Definition getMarketData (symbol : string) (st : t) : option MarketData.t :=
  JsMap.get symbol (marketData st).

Definition updateMarketData (insertData : InsertMarketData.t) (now : Z)
    (st : t) : MarketData.t * t :=
  let id := currentMarketDataId st in
  let data :=
    MarketData.mk id
      (InsertMarketData.symbol insertData)
      (InsertMarketData.price insertData)
      (InsertMarketData.change insertData)
      (InsertMarketData.changePercent insertData)
      (InsertMarketData.volume insertData)
      now in
  (data,
   with_marketData (JsMap.set (InsertMarketData.symbol insertData) data)
     Z.succ st).

(** [x || null] on a string that may be missing: the empty string is
    falsy. *)
Definition string_or_null (x : option string) : option string :=
  match x with
  | Some s => if String.eqb s EmptyString then None else Some s
  | None => None
  end.

(** [x || null] on a number that may be missing: zero is falsy. *)
Definition number_or_null (x : option Z) : option Z :=
  match x with
  | Some n => if (n =? 0)%Z then None else Some n
  | None => None
  end.

(** The key of an option leg: [`${strikePrice}-${expiryDate.getTime()}`]. *)
Definition optionsChainKey (strikePrice : string) (expiryDate : Z) : string :=
  strikePrice ++ "-" ++ Js.show expiryDate.

(** One iteration of the loop of [updateOptionsChain]. *)
Definition updateOptionsChain_one (data : InsertOptionsChain.t) (now : Z)
    (st : t) : OptionsChain.t * t :=
  let id := currentOptionsChainId st in
  let option :=
    OptionsChain.mk id
      (InsertOptionsChain.strikePrice data)
      (string_or_null (InsertOptionsChain.callLTP data))
      (number_or_null (InsertOptionsChain.callVolume data))
      (string_or_null (InsertOptionsChain.putLTP data))
      (number_or_null (InsertOptionsChain.putVolume data))
      (InsertOptionsChain.expiryDate data)
      now in
  let key :=
    optionsChainKey (InsertOptionsChain.strikePrice data)
      (InsertOptionsChain.expiryDate data) in
  (option, with_optionsChain (JsMap.set key option) Z.succ st).

Fixpoint updateOptionsChain (insertData : list InsertOptionsChain.t) (now : Z)
    (st : t) : list OptionsChain.t * t :=
  match insertData with
  | nil => (nil, st)
  | cons data rest =>
      let (option, st1) := updateOptionsChain_one data now st in
      let (results, st2) := updateOptionsChain rest now st1 in
      (cons option results, st2)
  end.

End MemStorage.

(** ** Effects: the world the services act on, and the monad of [async] code *)

Inductive result (A : Type) : Type :=
| Ok (a : A)
| Throw (e : Js.Error).
Arguments Ok {A} a.
Arguments Throw {A} e.

(** The object [sendWhatsAppNotifications] hands to [sendTradingSignal]. *)
Module SignalPayload.
Record t : Type := mk {
  type : string;
  strikePrice : string;
  confidence : Z;
  targetPrice : string;
  stopLoss : string;
  reasoning : string
}.
End SignalPayload.

(** The body of a message request to the messaging API. *)
Module WhatsAppMessage.
Record t : Type := mk {
  messaging_product : string;
  to : string;
  type : string;
  text_body : string
}.
End WhatsAppMessage.

Module ZerodhaQuote.
Record t : Type := mk {
  instrument_token : Z;
  last_price : Q;
  change : Q;
  net_change : Q;
  volume : Q
}.
End ZerodhaQuote.

(** What [fetch] can do: reject, or resolve to a response whose [json()]
    resolves to a body or rejects. *)
Inductive FetchOutcome (B : Type) : Type :=
| Rejected (e : Js.Error)
| Response (ok : bool) (status : Z) (json : result B).
Arguments Rejected {B} e.
Arguments Response {B} ok status json.

(** Ghost events: the calls and the flag writes the properties count. *)
Inductive Event : Type :=
| SendTradingSignal (phoneNumber : string) (signal : SignalPayload.t)
| SendWelcomeMessage (phoneNumber : string)
| SetWhatsappSent (id : Z).

Module WhatsAppConfig.
Record t : Type := mk {
  apiUrl : string;
  accessToken : string;
  phoneNumberId : string
}.
End WhatsAppConfig.

Module ZerodhaConfig.
Record t : Type := mk {
  apiKey : string;
  accessToken : string;
  baseUrl : string
}.
End ZerodhaConfig.

(** The host: the environment variables read by the two service
    constructors, [Math.random] (the n-th draw), the two remote endpoints
    (the n-th [fetch]), [decodeURIComponent] and the time zone of the
    process. The remote market data is typed by the [ZerodhaQuote]
    interface; [None] is an envelope without a [data] property
    ([data.data] is [undefined]). [localTZA t isUTC] is the offset of the
    local time from UTC, in milliseconds (LocalTZA of ECMAScript): at the
    UTC time [t] when [isUTC] holds, at the local time [t] otherwise. *)
Record Host : Type := mkHost {
  whatsappEnv : WhatsAppConfig.t;
  zerodhaEnv : ZerodhaConfig.t;
  random : nat -> Q;
  whatsappFetch : nat -> string -> string -> WhatsAppMessage.t
                  -> FetchOutcome Js.Value;
  zerodhaFetch : nat -> string -> string
                 -> FetchOutcome (option (list (string * ZerodhaQuote.t)));
  decodeURIComponent : string -> result string;
  localTZA : Z -> bool -> Z
}.

Record World : Type := mkWorld {
  storage : MemStorage.t;
  trace : list Event;
  draws : nat;
  fetches : nat;
  now : Z
}.

Definition M (A : Type) : Type := World -> result A * World.

Definition ret {A} (a : A) : M A := fun w => (Ok a, w).

Definition bind {A B} (m : M A) (k : A -> M B) : M B :=
  fun w =>
    match m w with
    | (Ok a, w') => k a w'
    | (Throw e, w') => (Throw e, w')
    end.

Definition throw {A} (e : Js.Error) : M A := fun w => (Throw e, w).

(** [try { m } catch (e) { h e }]: the effects of [m] up to the throw stay. *)
Definition try_catch {A} (m : M A) (h : Js.Error -> M A) : M A :=
  fun w =>
    match m w with
    | (Ok a, w') => (Ok a, w')
    | (Throw e, w') => h e w'
    end.

Notation "'let*' x ':=' m 'in' k" := (bind m (fun x => k))
  (at level 10, x pattern, m at level 100, k at level 200).
Notation "m ';;' k" := (bind m (fun _ => k))
  (at level 100, k at level 200, right associativity).

(** [for (const x of xs) { body x }] *)
Fixpoint for_of {A} (xs : list A) (body : A -> M unit) : M unit :=
  match xs with
  | [] => ret tt
  | x :: xs' => body x ;; for_of xs' body
  end.

Definition emit (e : Event) : M unit :=
  fun w => (Ok tt, mkWorld (storage w) (trace w ++ [e]) (draws w) (fetches w) (now w)).

(** A storage method: a state transformer on the [storage] component. *)
Definition on_storage {A} (f : MemStorage.t -> A * MemStorage.t) : M A :=
  fun w =>
    let (a, st) := f (storage w) in
    (Ok a, mkWorld st (trace w) (draws w) (fetches w) (now w)).

Definition read_storage {A} (f : MemStorage.t -> A) : M A :=
  fun w => (Ok (f (storage w)), w).

(** [new Date()] *)
Definition new_Date : M Z := fun w => (Ok (now w), w).

Section services.
Context (host : Host).

(** [Math.random()] *)
Definition Math_random : M Q :=
  fun w => (Ok (random host (draws w)),
            mkWorld (storage w) (trace w) (S (draws w)) (fetches w) (now w)).

Definition next_fetch {B} (f : nat -> FetchOutcome B) : M (FetchOutcome B) :=
  fun w => (Ok (f (fetches w)),
            mkWorld (storage w) (trace w) (draws w) (S (fetches w)) (now w)).

(** [await fetch(...)], then the [response.ok] test and [response.json()]
    as the callers write them: a rejection and a failed parse are thrown. *)
Definition await_fetch {B} (f : nat -> FetchOutcome B) (what : string) : M B :=
  let* outcome := next_fetch f in
  match outcome with
  | Rejected e => throw e
  | Response ok status json =>
      if negb ok then throw (Js.PlainError (what ++ Js.show status))
      else match json with
           | Ok body => ret body
           | Throw e => throw e
           end
  end.

End services.

(** ** [WhatsAppService] ([services/whatsapp.ts]) *)

Module WhatsAppService.
Section methods.
Context (host : Host).

Let env := whatsappEnv host.

Definition nl : string := String (ascii_of_nat 10) EmptyString.

(** A string is falsy exactly when it is empty. *)
Definition falsy (s : string) : bool := String.eqb s EmptyString.

Definition mock_success : Js.Value :=
  Js.Obj [("success", Js.Bool true); ("mockMode", Js.Bool true)].

Definition error_success (error : Js.Error) : Js.Value :=
  Js.Obj [("success", Js.Bool true); ("error", Js.Err error)].

Definition makeRequest (endpoint : string) (data : WhatsAppMessage.t)
    : M Js.Value :=
  if falsy (WhatsAppConfig.accessToken env)
     || falsy (WhatsAppConfig.phoneNumberId env)
  then ret mock_success
  else
    try_catch
      (await_fetch
         (fun n =>
            whatsappFetch host n
              (WhatsAppConfig.apiUrl env ++ "/"
               ++ WhatsAppConfig.phoneNumberId env ++ "/" ++ endpoint)
              ("Bearer " ++ WhatsAppConfig.accessToken env)
              data)
         "WhatsApp API error: ")
      (fun error => ret (error_success error)).

Definition trading_signal_message (signal : SignalPayload.t) : string :=
  "🚨 *STRONG BUY SIGNAL* 🚨" ++ nl
  ++ "    " ++ nl
  ++ "📈 *" ++ SignalPayload.type signal ++ "* Signal" ++ nl
  ++ "🎯 Strike: " ++ SignalPayload.strikePrice signal ++ nl
  ++ "💪 Confidence: " ++ Js.show (SignalPayload.confidence signal) ++ "%" ++ nl
  ++ nl
  ++ "📊 *Trade Details:*" ++ nl
  ++ "• Target: ₹" ++ SignalPayload.targetPrice signal ++ nl
  ++ "• Stop Loss: ₹" ++ SignalPayload.stopLoss signal ++ nl
  ++ nl
  ++ "💡 *AI Analysis:*" ++ nl
  ++ SignalPayload.reasoning signal ++ nl
  ++ nl
  ++ "⚠️ *Risk Disclaimer:* Trading involves risk. Please trade responsibly." ++ nl
  ++ nl
  ++ "Powered by Nifty AI Trading Assistant".

Definition sendTradingSignal (phoneNumber : string)
    (signal : SignalPayload.t) : M Js.Value :=
  emit (SendTradingSignal phoneNumber signal) ;;
  let cleanPhoneNumber := Js.strip_non_digits phoneNumber in
  let message := trading_signal_message signal in
  let data := WhatsAppMessage.mk "whatsapp" cleanPhoneNumber "text" message in
  makeRequest "messages" data.

Definition welcome_message : string :=
  "🎉 Welcome to Nifty AI Trading Assistant!" ++ nl
  ++ nl
  ++ "You'll now receive strong buy signals (90%+ confidence) directly to your WhatsApp." ++ nl
  ++ nl
  ++ "📱 What you'll get:" ++ nl
  ++ "• High-confidence trading signals" ++ nl
  ++ "• AI-powered analysis" ++ nl
  ++ "• Target & stop-loss levels" ++ nl
  ++ "• Real-time alerts" ++ nl
  ++ nl
  ++ "Stay tuned for profitable opportunities! 💰".

Definition sendWelcomeMessage (phoneNumber : string) : M Js.Value :=
  emit (SendWelcomeMessage phoneNumber) ;;
  let cleanPhoneNumber := Js.strip_non_digits phoneNumber in
  let data :=
    WhatsAppMessage.mk "whatsapp" cleanPhoneNumber "text" welcome_message in
  makeRequest "messages" data.

(** [[6-9]\d{9}$] on what is left of the string *)
Definition mobile_body (s : string) : bool :=
  match s with
  | String c rest =>
      let n := nat_of_ascii c in
      (54 <=? n)%nat && (n <=? 57)%nat
      && Nat.eqb (String.length rest) 9 && Js.all_chars Js.is_digit rest
  | EmptyString => false
  end.

(** [/^(\+91|91)?[6-9]\d{9}$/.test(s)]: the optional group is tried
    with each alternative and without. *)
Definition indian_mobile (s : string) : bool :=
  (String.prefix "+91" s && mobile_body (String.substring 3 (String.length s - 3) s))
  || (String.prefix "91" s && mobile_body (String.substring 2 (String.length s - 2) s))
  || mobile_body s.

(** Declared [async]: a call evaluates to a promise of the boolean. *)
Definition validatePhoneNumber (phoneNumber : string) : Js.Promise bool :=
  let cleanNumber := Js.strip_non_digits phoneNumber in
  Js.Resolved (indian_mobile cleanNumber).

End methods.
End WhatsAppService.

(** ** [Date]

    A time value is a number of milliseconds since the epoch, in UTC. The
    methods that the code calls ([getDay], [getDate], [getMonth],
    [getFullYear], [setDate], [setHours]) read and set it in the local
    time of the process: [LocalTime t] is [t] shifted by the offset of
    the time zone, [UTC] goes back. *)

Module JsDate.

Definition msPerDay : Z := 86400000.

(** Day(t), and WeekDay(t): 1 January 1970 was a Thursday (day 4). *)
Definition dayNumber (t : Z) : Z := t / msPerDay.

Definition weekDay (t : Z) : Z := (dayNumber t + 4) mod 7.

(** The civil date (year, month 1-12, day 1-31) of a day number. *)
Definition civil (dn : Z) : Z * Z * Z :=
  let z := dn + 719468 in
  let era := z / 146097 in
  let doe := z - era * 146097 in
  let yoe := (doe - doe / 1460 + doe / 36524 - doe / 146096) / 365 in
  let doy := doe - (365 * yoe + yoe / 4 - yoe / 100) in
  let mp := (5 * doy + 2) / 153 in
  let d := doy - (153 * mp + 2) / 5 + 1 in
  let m := if (mp <? 10)%Z then mp + 3 else mp - 9 in
  let y := yoe + era * 400 + (if (m <=? 2)%Z then 1 else 0) in
  (y, m, d).

Section local_time.
Context (LocalTZA : Z -> bool -> Z).

Definition LocalTime (t : Z) : Z := t + LocalTZA t true.

Definition UTC (t : Z) : Z := t - LocalTZA t false.

Definition getDay (t : Z) : Z := weekDay (LocalTime t).

Definition getFullYear (t : Z) : Z := (civil (dayNumber (LocalTime t))).1.1.
Definition getMonth (t : Z) : Z := (civil (dayNumber (LocalTime t))).1.2 - 1.
Definition getDate (t : Z) : Z := (civil (dayNumber (LocalTime t))).2.

(** [d.setDate(d.getDate() + n)]: the local date [n] days later, at the
    same local time of day. ([setDate] makes the day from the first of
    the local month plus the date given, less one.) *)
Definition addDays (n : Z) (t : Z) : Z := UTC (LocalTime t + n * msPerDay).

(** [d.setHours(h, m, 0, 0)]: the local day of [d], at [h]:[m] local
    time. *)
Definition setHours (h m : Z) (t : Z) : Z :=
  UTC (dayNumber (LocalTime t) * msPerDay + (h * 60 + m) * 60000).

End local_time.

End JsDate.

(** ** [ZerodhaService] ([services/zerodha.ts]) *)

Module ZerodhaService.
Section methods.
Context (host : Host).

Let env := zerodhaEnv host.

Definition mock_quote : list (string * ZerodhaQuote.t) :=
  [("256265",
    ZerodhaQuote.mk 256265 (198453 # 10) (1562 # 10) (79 # 100) (1234567 # 1))].

Definition Math_max (x y : Q) : Q := if Qlt_le_dec x y then y else x.

(** The two entries [forEach] writes for one strike; the property values
    are evaluated in the order they are written. *)
Definition mock_entries (strike index : Z)
    (data : list (string * ZerodhaQuote.t)) : M (list (string * ZerodhaQuote.t)) :=
  let* r1 := Math_random host in
  let* r2 := Math_random host in
  let* r3 := Math_random host in
  let* r4 := Math_random host in
  let call :=
    ZerodhaQuote.mk (20000000 + strike)
      (Math_max 5 (100 - inject_Z (index * 25) + r1 * 20))%Q
      ((r2 - (1 # 2)) * 10)%Q
      ((r3 - (1 # 2)) * 5)%Q
      (inject_Z (Js.floor (r4 * 500000)%Q + 50000)) in
  let data := JsMap.set (Js.show strike ++ "CE") call data in
  let* r5 := Math_random host in
  let* r6 := Math_random host in
  let* r7 := Math_random host in
  let* r8 := Math_random host in
  let put :=
    ZerodhaQuote.mk (30000000 + strike)
      (Math_max 5 (20 + inject_Z (index * 15) + r5 * 20))%Q
      ((r6 - (1 # 2)) * 10)%Q
      ((r7 - (1 # 2)) * 5)%Q
      (inject_Z (Js.floor (r8 * 400000)%Q + 40000)) in
  ret (JsMap.set (Js.show strike ++ "PE") put data).

Fixpoint mock_chain_loop (strikes : list Z) (index : Z)
    (data : list (string * ZerodhaQuote.t)) : M (list (string * ZerodhaQuote.t)) :=
  match strikes with
  | [] => ret data
  | strike :: rest =>
      let* data' := mock_entries strike index data in
      mock_chain_loop rest (index + 1) data'
  end.

Definition generateMockOptionsChain : M (list (string * ZerodhaQuote.t)) :=
  let strikes := [19750; 19800; 19850; 19900; 19950] in
  mock_chain_loop strikes 0 [].

Definition getMockData (endpoint : string) : M (list (string * ZerodhaQuote.t)) :=
  if Js.includes "quote" endpoint then ret mock_quote
  else if Js.includes "instruments" endpoint then generateMockOptionsChain
  else ret [].

(** The remote body is the [data] property of the envelope; a body that
    cannot be read (a rejected [json()], an envelope that is no object) is
    the [Throw] of the outcome. *)
Definition makeRequest (endpoint : string)
    : M (option (list (string * ZerodhaQuote.t))) :=
  if WhatsAppService.falsy (ZerodhaConfig.apiKey env)
     || WhatsAppService.falsy (ZerodhaConfig.accessToken env)
  then let* mock := getMockData endpoint in ret (Some mock)
  else
    try_catch
      (await_fetch
         (fun n =>
            zerodhaFetch host n (ZerodhaConfig.baseUrl env ++ endpoint)
              ("token " ++ ZerodhaConfig.apiKey env ++ ":"
               ++ ZerodhaConfig.accessToken env))
         "Zerodha API error: ")
      (fun _ => let* mock := getMockData endpoint in ret (Some mock)).

Definition getNiftyQuote : M (option (list (string * ZerodhaQuote.t))) :=
  makeRequest "/quote?i=NSE:NIFTY 50".

(** This week's Thursday as [MMDD]. *)
Definition getExpiryString : M string :=
  let* today := new_Date in
  let thursday :=
    JsDate.addDays (localTZA host)
      (4 - JsDate.getDay (localTZA host) today) today in
  let month :=
    Js.padStart2 (Js.show (JsDate.getMonth (localTZA host) thursday + 1)) in
  let date :=
    Js.padStart2 (Js.show (JsDate.getDate (localTZA host) thursday)) in
  ret (month ++ date).

(** [s.slice(-2)] *)
Definition slice_last2 (s : string) : string :=
  String.substring (String.length s - 2) 2 s.

Definition instrument (strike : Z) (suffix : string) : M string :=
  let* d := new_Date in
  let* expiry := getExpiryString in
  ret ("NFO:NIFTY"
       ++ slice_last2 (Js.show (JsDate.getFullYear (localTZA host) d))
       ++ expiry
       ++ Js.show strike ++ suffix).

(** [strikes.flatMap(strike => [ ...CE, ...PE ])] *)
Fixpoint instruments (strikes : list Z) : M (list string) :=
  match strikes with
  | [] => ret []
  | strike :: rest =>
      let* ce := instrument strike "CE" in
      let* pe := instrument strike "PE" in
      let* more := instruments rest in
      ret (ce :: pe :: more)
  end.

Definition getOptionsChain (strikes : list Z)
    : M (option (list (string * ZerodhaQuote.t))) :=
  let* names := instruments strikes in
  let instrumentsQuery := String.concat "&i=" names in
  makeRequest ("/quote?i=" ++ instrumentsQuery).

End methods.
End ZerodhaService.

(** ** [AISignalsService] ([services/ai-signals.ts]) *)

Module TechnicalIndicators.
Record t : Type := mk {
  rsi : Q;
  sma20 : Q;
  sma50 : Q;
  volume : Q;
  volatility : Q
}.
End TechnicalIndicators.

Inductive Trend : Type := bullish | bearish | sideways.

Module MarketConditions.
Record t : Type := mk {
  trend : Trend;
  strength : Q;
  momentum : Q
}.
End MarketConditions.

(** The arithmetic of the host on the numbers that the portfolio figures
    are computed with: a literal, [x + y], [x * y], [Number(s)] and
    [x.toFixed(2)]. *)
Record Arithmetic : Type := mkArithmetic {
  num : Type;
  literal : Q -> num;
  plus : num -> num -> num;
  times : num -> num -> num;
  Number : string -> num;
  toFixed : num -> string
}.

(** What [getMarketOverview] returns; the numbers of the quote are passed
    through, the profit is a sum of the host. *)
Module MarketOverview.
Record t (num : Type) : Type := mk {
  price : Q;
  change : Q;
  changePercent : Q;
  activeSignals : Z;
  successRate : Q;
  whatsappUsers : Z;
  totalPnl : num;
  activePositions : Z
}.
Arguments mk {num} _ _ _ _ _ _ _ _.
Arguments price {num} _.
Arguments change {num} _.
Arguments changePercent {num} _.
Arguments activeSignals {num} _.
Arguments successRate {num} _.
Arguments whatsappUsers {num} _.
Arguments totalPnl {num} _.
Arguments activePositions {num} _.
End MarketOverview.

Module AISignalsService.
Section methods.
Context (host : Host).

Definition is_bullish (t : Trend) : bool :=
  match t with bullish => true | _ => false end.
Definition is_bearish (t : Trend) : bool :=
  match t with bearish => true | _ => false end.

(** [x || d] on a possibly missing number: [undefined] and [0] are falsy. *)
Definition or_else (x : option Q) (d : Q) : Q :=
  match x with
  | Some q => if Qeq_bool q 0 then d else q
  | None => d
  end.

(** [Object.values(marketData)[0]]; [Object.values(undefined)] throws. *)
Definition first_value (marketData : option (list (string * ZerodhaQuote.t)))
    : M (option ZerodhaQuote.t) :=
  match marketData with
  | None => throw (Js.TypeError "Cannot convert undefined or null to object")
  | Some fields => ret (head (JsMap.values fields))
  end.

(** The indicators are affine in the draws; the sums and products are
    exact (see the conventions), the draws are those of the host. *)
Definition calculateTechnicalIndicators
    (marketData : option (list (string * ZerodhaQuote.t)))
    : M TechnicalIndicators.t :=
  let* q1 := first_value marketData in
  let price := or_else (ZerodhaQuote.last_price <$> q1) (19845 # 1) in
  let* q2 := first_value marketData in
  let volume := or_else (ZerodhaQuote.volume <$> q2) (1000000 # 1) in
  let* r1 := Math_random host in
  let* r2 := Math_random host in
  let* r3 := Math_random host in
  let* r4 := Math_random host in
  ret (TechnicalIndicators.mk
         (45 + r1 * 20)%Q
         (price * ((98 # 100) + r2 * (4 # 100)))%Q
         (price * ((96 # 100) + r3 * (8 # 100)))%Q
         volume
         (15 + r4 * 10)%Q).

Definition analyzeMarketConditions (indicators : TechnicalIndicators.t)
    : M MarketConditions.t :=
  let rsi := TechnicalIndicators.rsi indicators in
  let sma20 := TechnicalIndicators.sma20 indicators in
  let sma50 := TechnicalIndicators.sma50 indicators in
  if Js.gt rsi 55 && Js.gt sma20 sma50 then
    let* r1 := Math_random host in
    let* r2 := Math_random host in
    ret (MarketConditions.mk bullish (60 + r1 * 30)%Q (55 + r2 * 25)%Q)
  else if Js.lt rsi 45 && Js.lt sma20 sma50 then
    let* r1 := Math_random host in
    let* r2 := Math_random host in
    ret (MarketConditions.mk bearish (60 + r1 * 30)%Q (55 + r2 * 25)%Q)
  else
    let* r1 := Math_random host in
    let* r2 := Math_random host in
    ret (MarketConditions.mk sideways (40 + r1 * 20)%Q (40 + r2 * 20)%Q).

Definition generateReasoning (type : string)
    (indicators : TechnicalIndicators.t) (conditions : MarketConditions.t)
    (confidence : Z) : string :=
  let rsi := TechnicalIndicators.rsi indicators in
  let sma20 := TechnicalIndicators.sma20 indicators in
  let sma50 := TechnicalIndicators.sma50 indicators in
  let volume := TechnicalIndicators.volume indicators in
  let volatility := TechnicalIndicators.volatility indicators in
  let trend := MarketConditions.trend conditions in
  let push (c : bool) (r : string) : list string := if c then [r] else [] in
  let reasons : list string :=
    ((if String.eqb type "CALL" then
       push (is_bullish trend) "Strong bullish momentum detected"
       ++ push (Js.lt rsi 50) "RSI oversold recovery pattern"
       ++ push (Js.gt sma20 sma50) "Short-term MA above long-term MA"
       ++ push (Js.gt volume 1500000) "High volume supporting upward move"
     else
       push (is_bearish trend) "Bearish trend continuation expected"
       ++ push (Js.gt rsi 60) "RSI overbought, correction likely"
       ++ push (Js.lt sma20 sma50) "Short-term MA below long-term MA"
       ++ push (Js.gt volatility 25) "High volatility favoring downward move")
    ++ push (90 <? confidence)%Z "Multiple confirmations align"
    ++ push (Js.gt (MarketConditions.strength conditions) 75)
            "Strong directional bias")%list in
  String.concat ", " (take 2 reasons) ++ ". Trade with proper risk management.".

(** Next Thursday, 15:30 local time; a Thursday yields the Thursday a
    week later. *)
Definition getNextThursday : M Z :=
  let* today := new_Date in
  let daysUntilThursday :=
    (4 - JsDate.getDay (localTZA host) today + 7) mod 7 in
  let thursday :=
    JsDate.addDays (localTZA host)
      (if (daysUntilThursday =? 0)%Z then 7 else daysUntilThursday) today in
  ret (JsDate.setHours (localTZA host) 15 30 thursday).

(** [xs[i]]: [undefined] out of range *)
Definition array_get {A} (xs : list A) (i : Z) : option A :=
  if (i <? 0)%Z then None else xs !! Z.to_nat i.

(** [Math.max(60, Math.min(98, c))] *)
Definition clamp (c : Z) : Z := Z.max 60 (Z.min 98 c).

(** The confidence of one signal, [jitter] being its [Math.random()] draw.
    The summands are integer literals and a [Math.floor]: the sum is an
    integer. *)
Definition confidence_of (indicators : TechnicalIndicators.t)
    (conditions : MarketConditions.t) (jitter : Q) : Z :=
  let confidence := 60 in
  let confidence :=
    if Js.gt (MarketConditions.strength conditions) 70
    then confidence + 15 else confidence in
  let confidence :=
    if Js.gt (MarketConditions.momentum conditions) 70
    then confidence + 10 else confidence in
  let confidence :=
    if Js.gt (TechnicalIndicators.volume indicators) 2000000
    then confidence + 5 else confidence in
  let confidence :=
    if Js.lt (TechnicalIndicators.volatility indicators) 20
    then confidence + 10 else confidence in
  let confidence := confidence + (Js.floor (jitter * 20)%Q - 10) in
  clamp confidence.

(** One iteration of the loop of [generateTradingSignals]. *)
Definition generate_one (strikes : list Z)
    (indicators : TechnicalIndicators.t) (conditions : MarketConditions.t)
    (expiryDate : Z) : M InsertTradingSignal.t :=
  let* r := Math_random host in
  let isCall :=
    if is_bullish (MarketConditions.trend conditions)
    then Js.gt r (3 # 10) else Js.gt r (7 # 10) in
  let type := if isCall then "CALL" else "PUT" in
  let len := inject_Z (Z.of_nat (length strikes)) in
  let* r := Math_random host in
  let index :=
    if isCall
    then Js.floor (len * (6 # 10))%Q + Js.floor (r * 2)%Q
    else Js.floor (len * (4 # 10))%Q - Js.floor (r * 2)%Q in
  let strikePrice := array_get strikes index in
  let* jitter := Math_random host in
  let confidence := confidence_of indicators conditions jitter in
  let* r := Math_random host in
  let basePrice := (30 + r * 40)%Q in
  let* r := Math_random host in
  let targetPrice := (basePrice * ((15 # 10) + r * (8 # 10)))%Q in
  let* r := Math_random host in
  let stopLoss := (basePrice * ((4 # 10) + r * (3 # 10)))%Q in
  let reasoning := generateReasoning type indicators conditions confidence in
  match strikePrice with
  | None => throw (Js.TypeError "Cannot read properties of undefined")
  | Some strike =>
      ret (InsertTradingSignal.mk type (Js.show strike)
             (Js.toFixed2 targetPrice) (Js.toFixed2 stopLoss)
             confidence reasoning expiryDate true false)
  end.

Fixpoint generate_loop (n : nat) (strikes : list Z)
    (indicators : TechnicalIndicators.t) (conditions : MarketConditions.t)
    (expiryDate : Z) : M (list InsertTradingSignal.t) :=
  match n with
  | O => ret []
  | S n' =>
      let* signal := generate_one strikes indicators conditions expiryDate in
      let* signals := generate_loop n' strikes indicators conditions expiryDate in
      ret (signal :: signals)
  end.

Definition generateTradingSignals (strikes : list Z) (currentPrice : Q)
    (indicators : TechnicalIndicators.t) (conditions : MarketConditions.t)
    : M (list InsertTradingSignal.t) :=
  let* expiryDate := getNextThursday in
  let* r := Math_random host in
  let numSignals := 1 + Js.floor (r * 3)%Q in
  generate_loop (Z.to_nat numSignals) strikes indicators conditions expiryDate.

Definition payload_of (signal : TradingSignal.t) : SignalPayload.t :=
  SignalPayload.mk (TradingSignal.type signal) (TradingSignal.strikePrice signal)
    (TradingSignal.confidence signal) (TradingSignal.targetPrice signal)
    (TradingSignal.stopLoss signal) (TradingSignal.reasoning signal).

(** [storage.updateSignalWhatsappSent(id)], with the flag write recorded. *)
Definition updateSignalWhatsappSent (id : Z) : M bool :=
  let* found := on_storage (MemStorage.updateSignalWhatsappSent id) in
  (if found : bool then emit (SetWhatsappSent id) else ret tt) ;;
  ret found.

Definition sendWhatsAppNotifications (signal : TradingSignal.t) : M unit :=
  try_catch
    (let* whatsappUsers := read_storage MemStorage.getAllWhatsappUsers in
     for_of whatsappUsers
       (fun user =>
          WhatsAppService.sendTradingSignal host
            (WhatsappUser.phoneNumber user) (payload_of signal) ;;
          ret tt) ;;
     updateSignalWhatsappSent (TradingSignal.id signal) ;;
     ret tt)
    (fun _ => ret tt).

Definition createTradingSignal (signal : InsertTradingSignal.t)
    : M TradingSignal.t :=
  let* createdAt := new_Date in
  on_storage (MemStorage.createTradingSignal signal createdAt).

(** The body of the [for] loop of [generateSignals]. *)
Definition save_and_notify (signal : InsertTradingSignal.t) : M unit :=
  let* savedSignal := createTradingSignal signal in
  if (90 <=? InsertTradingSignal.confidence signal)%Z
  then sendWhatsAppNotifications savedSignal
  else ret tt.

Definition generateSignals : M unit :=
  try_catch
    (let* niftyData := ZerodhaService.getNiftyQuote host in
     let* q := first_value niftyData in
     let currentPrice := or_else (ZerodhaQuote.last_price <$> q) (19845 # 1) in
     let baseStrike := Js.round (currentPrice / 50)%Q * 50 in
     let strikes :=
       [baseStrike - 100; baseStrike - 50; baseStrike;
        baseStrike + 50; baseStrike + 100] in
     let* optionsData := ZerodhaService.getOptionsChain host strikes in
     let* indicators := calculateTechnicalIndicators niftyData in
     let* marketConditions := analyzeMarketConditions indicators in
     let* signals :=
       generateTradingSignals strikes currentPrice indicators marketConditions in
     for_of signals save_and_notify)
    (fun _ => ret tt).

End methods.

Section overview.
Context (host : Host) (arith : Arithmetic).

(** [positions.reduce((sum, pos) => sum + Number(pos.pnl), 0)] *)
Definition totalPnl (positions : list PortfolioPosition.t) : num arith :=
  fold_left
    (fun sum pos => plus arith sum (Number arith (PortfolioPosition.pnl pos)))
    positions (literal arith 0).

Definition mock_overview : MarketOverview.t (num arith) :=
  MarketOverview.mk (198453 # 10) (1562 # 10) (79 # 100) 12 (745 # 10) 8
    (literal arith 12456) 3.

Definition getMarketOverview : M (MarketOverview.t (num arith)) :=
  try_catch
    (let* niftyData := ZerodhaService.getNiftyQuote host in
     let* signals := read_storage MemStorage.getAllActiveSignals in
     let* positions := read_storage MemStorage.getAllPortfolioPositions in
     let* whatsappUsers := read_storage MemStorage.getAllWhatsappUsers in
     let* niftyQuote := first_value niftyData in
     ret (MarketOverview.mk
            (or_else (ZerodhaQuote.last_price <$> niftyQuote) (198453 # 10))
            (or_else (ZerodhaQuote.change <$> niftyQuote) (1562 # 10))
            (or_else (ZerodhaQuote.net_change <$> niftyQuote) (79 # 100))
            (Z.of_nat (length signals))
            (745 # 10)
            (Z.of_nat (length whatsappUsers))
            (totalPnl positions)
            (Z.of_nat (length positions))))
    (fun _ => ret mock_overview).

End overview.
End AISignalsService.

(** ** The HTTP handlers ([server/routes.ts]) *)

Module Routes.

Module Session.
Record t : Type := mk { userId : Z; username : string }.
End Session.

Inductive Body : Type :=
| Message (message : string)
| UserBody (id : Z) (username : string)
| WhatsappUserBody (user : WhatsappUser.t)
| WhatsappUsersBody (users : list WhatsappUser.t)
| MarketBody (data : option (list (string * ZerodhaQuote.t))).

Module Response.
Record t : Type := mk { status : Z; body : Body }.
End Response.

(** [res.json(b)] and [res.status(s).json({ message })] *)
Definition json (b : Body) : Response.t := Response.mk 200 b.
Definition fail (status : Z) (message : string) : Response.t :=
  Response.mk status (Message message).

Section handlers.
Context (host : Host).

(** [const { username, password } = req.body]: destructuring [undefined]
    or [null] throws. *)
Definition destructure (body : Js.Value) : M (Js.Value * Js.Value) :=
  match body with
  | Js.Undefined | Js.Null =>
      throw (Js.TypeError "Cannot destructure property of req.body")
  | _ => ret (Js.field "username" body, Js.field "password" body)
  end.

(** POST /api/auth/login. The second component is [req.session] after the
    handler. *)
Definition login (body : Js.Value) (session : option Session.t)
    : M (Response.t * option Session.t) :=
  try_catch
    (let* (username, password) := destructure body in
     let* user := read_storage (MemStorage.getUserByUsername username) in
     match user with
     | None => ret (fail 401 "Invalid credentials", session)
     | Some user =>
         if negb (Js.strict_eq_str password (User.password user))
         then ret (fail 401 "Invalid credentials", session)
         else
           ret (json (UserBody (User.id user) (User.username user)),
                Some (Session.mk (User.id user) (User.username user)))
     end)
    (fun _ => ret (fail 500 "Login failed", session)).

(** POST /api/auth/logout *)
Definition logout (session : option Session.t)
    : M (Response.t * option Session.t) :=
  ret (json (Message "Logged out successfully"), None).

(** GET /api/auth/me; a user id of 0 is falsy. *)
Definition me (session : option Session.t)
    : M (Response.t * option Session.t) :=
  match session with
  | Some s =>
      if (Session.userId s =? 0)%Z
      then ret (fail 401 "Not authenticated", session)
      else ret (json (UserBody (Session.userId s) (Session.username s)), session)
  | None => ret (fail 401 "Not authenticated", session)
  end.

(** GET /api/market/nifty *)
Definition getNifty : M Response.t :=
  try_catch
    (let* data := ZerodhaService.getNiftyQuote host in
     ret (json (MarketBody data)))
    (fun _ => ret (fail 500 "Failed to fetch Nifty data")).

(** GET /api/market/options-chain *)
Definition getOptionsChain : M Response.t :=
  try_catch
    (let strikes := [19750; 19800; 19850; 19900; 19950] in
     let* data := ZerodhaService.getOptionsChain host strikes in
     ret (json (MarketBody data)))
    (fun _ => ret (fail 500 "Failed to fetch options chain")).

(** GET /api/whatsapp/users *)
Definition getWhatsappUsers : M Response.t :=
  try_catch
    (let* users := read_storage MemStorage.getAllWhatsappUsers in
     ret (json (WhatsappUsersBody users)))
    (fun _ => ret (fail 500 "Failed to fetch WhatsApp users")).

(** [insertWhatsappUserSchema.safeParse(req.body)]: an object whose
    [phoneNumber] is a string. *)
Definition safeParse (body : Js.Value) : option string :=
  match Js.field "phoneNumber" body with
  | Js.Str phoneNumber => Some phoneNumber
  | _ => None
  end.

(** POST /api/whatsapp/users. The validation call is not awaited: the
    guard tests the promise. *)
Definition postWhatsappUser (body : Js.Value) : M Response.t :=
  try_catch
    (match safeParse body with
     | None => ret (fail 400 "Invalid phone number format")
     | Some phoneNumber =>
         if negb (Js.promise_truthy
                    (WhatsAppService.validatePhoneNumber phoneNumber))
         then ret (fail 400 "Invalid phone number format")
         else
           let* existingUsers := read_storage MemStorage.getAllWhatsappUsers in
           if existsb
                (fun user => String.eqb (WhatsappUser.phoneNumber user) phoneNumber)
                existingUsers
           then ret (fail 400 "Phone number already registered")
           else
             let* createdAt := new_Date in
             let* user :=
               on_storage (MemStorage.addWhatsappUser phoneNumber createdAt) in
             WhatsAppService.sendWelcomeMessage host phoneNumber ;;
             ret (json (WhatsappUserBody user))
     end)
    (fun _ => ret (fail 500 "Failed to add WhatsApp user")).

(** DELETE /api/whatsapp/users/:phoneNumber *)
Definition deleteWhatsappUser (phoneNumber : string) : M Response.t :=
  try_catch
    (let* decoded :=
       match decodeURIComponent host phoneNumber with
       | Ok s => ret s
       | Throw e => throw e
       end in
     let* success := on_storage (MemStorage.removeWhatsappUser decoded) in
     if success : bool
     then ret (json (Message "User removed successfully"))
     else ret (fail 404 "User not found"))
    (fun _ => ret (fail 500 "Failed to remove WhatsApp user")).

Inductive Request : Type :=
| PostLogin (body : Js.Value)
| PostLogout
| GetMe
| GetNifty
| GetOptionsChain
| GetWhatsappUsers
| PostWhatsappUser (body : Js.Value)
| DeleteWhatsappUser (phoneNumber : string).

Definition keep_session (session : option Session.t) (m : M Response.t)
    : M (Response.t * option Session.t) :=
  let* r := m in ret (r, session).

Definition handle (req : Request) (session : option Session.t)
    : M (Response.t * option Session.t) :=
  match req with
  | PostLogin body => login body session
  | PostLogout => logout session
  | GetMe => me session
  | GetNifty => keep_session session getNifty
  | GetOptionsChain => keep_session session getOptionsChain
  | GetWhatsappUsers => keep_session session getWhatsappUsers
  | PostWhatsappUser body => keep_session session (postWhatsappUser body)
  | DeleteWhatsappUser phoneNumber =>
      keep_session session (deleteWhatsappUser phoneNumber)
  end.

End handlers.

(** The answers of the read-only handlers below: [res.json(a)], or
    [res.status(s).json({ message })]. *)
Inductive Answer (A : Type) : Type :=
| Json (a : A)
| Failure (status : Z) (message : string).
Arguments Json {A} a.
Arguments Failure {A} status message.

Module PortfolioSummary.
Record t : Type := mk {
  totalPnl : string;
  todayPnl : string;
  activePositions : Z;
  positions : list PortfolioPosition.t
}.
End PortfolioSummary.

Section read_handlers.
Context (host : Host) (arith : Arithmetic).

(** GET /api/market/overview *)
Definition getMarketOverview
    : M (Answer (MarketOverview.t (num arith))) :=
  try_catch
    (let* overview := AISignalsService.getMarketOverview host arith in
     ret (Json overview))
    (fun _ => ret (Failure 500 "Failed to fetch market overview")).

(** GET /api/signals *)
Definition getSignals : M (Answer (list TradingSignal.t)) :=
  try_catch
    (let* signals := read_storage MemStorage.getAllActiveSignals in
     ret (Json signals))
    (fun _ => ret (Failure 500 "Failed to fetch signals")).

(** GET /api/portfolio/positions *)
Definition getPortfolioPositions : M (Answer (list PortfolioPosition.t)) :=
  try_catch
    (let* positions := read_storage MemStorage.getAllPortfolioPositions in
     ret (Json positions))
    (fun _ => ret (Failure 500 "Failed to fetch portfolio positions")).

(** [positions.reduce((sum, pos) => sum + (Number(pos.pnl) * 0.3), 0)] *)
Definition todayPnl (positions : list PortfolioPosition.t) : num arith :=
  fold_left
    (fun sum pos =>
       plus arith sum
         (times arith (Number arith (PortfolioPosition.pnl pos))
            (literal arith (3 # 10))))
    positions (literal arith 0).

(** GET /api/portfolio/summary *)
Definition getPortfolioSummary : M (Answer PortfolioSummary.t) :=
  try_catch
    (let* positions := read_storage MemStorage.getAllPortfolioPositions in
     let totalPnl := AISignalsService.totalPnl arith positions in
     let todayPnl := todayPnl positions in
     ret (Json (PortfolioSummary.mk
                  (toFixed arith totalPnl)
                  (toFixed arith todayPnl)
                  (Z.of_nat (length positions))
                  (take 5 positions))))
    (fun _ => ret (Failure 500 "Failed to fetch portfolio summary")).

End read_handlers.
End Routes.

(** ** The reachable worlds

    The process starts from the constructed store; then requests are
    handled and generation cycles run, one at a time, while the clock
    moves. The read-only routes that [handle] does not dispatch
    (/api/market/overview, /api/signals, /api/portfolio) only consume
    fetches: [reach_reads].

    A step is a whole request or a whole cycle. Where a cycle awaits a
    remote service, the process can serve a request before the cycle
    goes on: the worlds in the middle of a cycle are not among these.
    What is to hold there is stated of the single writes and of the
    single iterations of a cycle, from an arbitrary world. *)

Definition initial (t : Z) : World := mkWorld MemStorage.new [] 0 0 t.

Inductive reachable (host : Host) : World -> Prop :=
| reach_initial (t : Z) : reachable host (initial t)
| reach_request (w : World) (req : Routes.Request)
    (session : option Routes.Session.t) :
    reachable host w -> reachable host (Routes.handle host req session w).2
| reach_cycle (w : World) :
    reachable host w -> reachable host (AISignalsService.generateSignals host w).2
| reach_clock (w : World) (t : Z) :
    reachable host w ->
    reachable host (mkWorld (storage w) (trace w) (draws w) (fetches w) t)
| reach_reads (w : World) (n : nat) :
    reachable host w ->
    reachable host (mkWorld (storage w) (trace w) (draws w) n (now w)).

(** * Vocabulary of the properties *)

Local Open Scope list_scope.

(** [wp m Q w]: run from [w], [m] ends in a result and a world related
    by [Q]. *)
Definition wp {A} (m : M A) (Q : result A -> World -> Prop) (w : World) : Prop :=
  Q (m w).1 (m w).2.

(** [invariant P m]: whatever [m] does and however it ends, a world in
    [P] is taken to a world in [P]. *)
Definition invariant (P : World -> Prop) {A} (m : M A) : Prop :=
  ∀ w, P w → P (m w).2.

(** ** The notification sender *)

Section notification_vocabulary.
Context (host : Host).

Definition credentials_absent : bool :=
  WhatsAppService.falsy (WhatsAppConfig.accessToken (whatsappEnv host))
  || WhatsAppService.falsy (WhatsAppConfig.phoneNumberId (whatsappEnv host)).

(** The [n]-th remote call, for a message request. *)
Definition remote_call (n : nat) (endpoint : string) (data : WhatsAppMessage.t)
    : FetchOutcome Js.Value :=
  whatsappFetch host n
    (WhatsAppConfig.apiUrl (whatsappEnv host) ++ "/"
     ++ WhatsAppConfig.phoneNumberId (whatsappEnv host) ++ "/" ++ endpoint)%string
    ("Bearer " ++ WhatsAppConfig.accessToken (whatsappEnv host))%string
    data.

(** The ways the remote call fails: the fetch is rejected, the response is
    not ok, or its body cannot be read. *)
Inductive remote_failure : FetchOutcome Js.Value -> Js.Error -> Prop :=
| failure_rejected e : remote_failure (Rejected e) e
| failure_status status json :
    remote_failure (Response false status json)
      (Js.PlainError ("WhatsApp API error: " ++ Js.show status)%string)
| failure_body status e : remote_failure (Response true status (Throw e)) e.

(** The values a message request returns, by case: the mock success
    without credentials, the error success when the remote call fails, the
    body of the response when it succeeds. *)
Inductive success_shaped (n : nat) (endpoint : string)
    (data : WhatsAppMessage.t) : Js.Value -> Prop :=
| shaped_mock :
    credentials_absent = true →
    success_shaped n endpoint data WhatsAppService.mock_success
| shaped_error e :
    credentials_absent = false →
    remote_failure (remote_call n endpoint data) e →
    success_shaped n endpoint data (WhatsAppService.error_success e)
| shaped_remote status body :
    credentials_absent = false →
    remote_call n endpoint data = Response true status (Ok body) →
    success_shaped n endpoint data body.

(** The world after a message request: only the count of fetches moves. *)
Definition after_request (w : World) : World :=
  mkWorld (storage w) (trace w) (draws w)
    (if credentials_absent then fetches w else S (fetches w)) (now w).

(** The request [sendTradingSignal] builds. *)
Definition signal_message (phoneNumber : string) (signal : SignalPayload.t)
    : WhatsAppMessage.t :=
  WhatsAppMessage.mk "whatsapp" (Js.strip_non_digits phoneNumber) "text"
    (WhatsAppService.trading_signal_message signal).

Definition after_send (phoneNumber : string) (signal : SignalPayload.t)
    (w : World) : World :=
  mkWorld (storage w) (trace w ++ [SendTradingSignal phoneNumber signal])
    (draws w) (if credentials_absent then fetches w else S (fetches w)) (now w).

End notification_vocabulary.

(** A record of the subscriber map holds the phone number. *)
Definition has_phone (phoneNumber : string) (st : MemStorage.t) : Prop :=
  ∃ id user, (id, user) ∈ MemStorage.whatsappUsers st
             ∧ WhatsappUser.phoneNumber user = phoneNumber.


(** ** A deployment and two scenarios, for the examples

    [decodeURIComponent] on byte strings: an escape [%XX] below 128 is the
    byte itself, and escapes from 128 on must spell one well-formed UTF-8
    sequence, whose bytes they are; anything else is a [URIError]. *)

Module Uri.

Definition hex_digit (c : ascii) : option N :=
  let n := N_of_ascii c in
  if ((48 <=? n) && (n <=? 57))%N then Some (n - 48)%N
  else if ((65 <=? n) && (n <=? 70))%N then Some (n - 55)%N
  else if ((97 <=? n) && (n <=? 102))%N then Some (n - 87)%N
  else None.

Definition escape (s : list ascii) : option (N * list ascii) :=
  match s with
  | "%"%char :: h :: l :: rest =>
      match hex_digit h, hex_digit l with
      | Some a, Some b => Some (16 * a + b, rest)%N
      | _, _ => None
      end
  | _ => None
  end.

Definition within (lo hi b : N) : bool := ((lo <=? b) && (b <=? hi))%N.

(** [n] continuation bytes, the first of them within [lo, hi] *)
Fixpoint continuation (n : nat) (lo hi : N) (s : list ascii)
    : option (list N * list ascii) :=
  match n with
  | O => Some ([], s)
  | S n' =>
      match escape s with
      | Some (b, rest) =>
          if within lo hi b then
            match continuation n' 128 191 rest with
            | Some (bs, rest') => Some (b :: bs, rest')
            | None => None
            end
          else None
      | None => None
      end
  end.

(** For a lead byte: how many continuation bytes, and the range of the
    first one (no overlong form, no surrogate, nothing above U+10FFFF). *)
Definition sequence (lead : N) : option (nat * N * N) :=
  if within 194 223 lead then Some (1%nat, 128, 191)%N
  else if (lead =? 224)%N then Some (2%nat, 160, 191)%N
  else if (lead =? 237)%N then Some (2%nat, 128, 159)%N
  else if within 225 239 lead then Some (2%nat, 128, 191)%N
  else if (lead =? 240)%N then Some (3%nat, 144, 191)%N
  else if within 241 243 lead then Some (3%nat, 128, 191)%N
  else if (lead =? 244)%N then Some (3%nat, 128, 143)%N
  else None.

Fixpoint decode (fuel : nat) (s : list ascii) : option (list ascii) :=
  match fuel, s with
  | _, [] => Some []
  | O, _ :: _ => None
  | S fuel', "%"%char :: _ =>
      match escape s with
      | None => None
      | Some (b, rest) =>
          if (b <? 128)%N then cons (ascii_of_N b) <$> decode fuel' rest
          else
            match sequence b with
            | None => None
            | Some (n, lo, hi) =>
                match continuation n lo hi rest with
                | None => None
                | Some (bs, rest') =>
                    app (List.map ascii_of_N (b :: bs)) <$> decode fuel' rest'
                end
            end
      end
  | S fuel', c :: rest => cons c <$> decode fuel' rest
  end.

Definition decodeURIComponent (s : string) : result string :=
  match decode (String.length s) (list_ascii_of_string s) with
  | Some bytes => Ok (string_of_list_ascii bytes)
  | None => Throw (Js.URIError "URI malformed")
  end.

End Uri.

(** The draws of the example cycle: a bullish market with strong
    conditions, three signals, the second with the lowest jitter. *)
Definition example_draw (n : nat) : Q :=
  if bool_decide (n = 2 ∨ n = 3 ∨ n = 15)%nat then 0%Q else (95 # 100)%Q.

(** No environment variable is set: both services are on their mock
    path, and nothing is reachable. The process runs in UTC. *)
Definition offlineHost : Host :=
  mkHost
    (WhatsAppConfig.mk "https://graph.facebook.com/v17.0" EmptyString EmptyString)
    (ZerodhaConfig.mk EmptyString EmptyString "https://api.kite.trade")
    example_draw
    (fun _ _ _ _ => Rejected (Js.NetworkError "fetch failed"))
    (fun _ _ _ => Rejected (Js.NetworkError "fetch failed"))
    Uri.decodeURIComponent
    (fun _ _ => 0).

(** Credentials are set and both remote services are unreachable. *)
Definition unreachableHost : Host :=
  mkHost
    (WhatsAppConfig.mk "https://graph.facebook.com/v17.0" "token" "1055")
    (ZerodhaConfig.mk "key" "token" "https://api.kite.trade")
    example_draw
    (fun _ _ _ _ => Rejected (Js.NetworkError "fetch failed"))
    (fun _ _ _ => Rejected (Js.NetworkError "fetch failed"))
    Uri.decodeURIComponent
    (fun _ _ => 0).

(** As [offlineHost], in Asia/Kolkata: five hours and a half ahead of
    UTC, without daylight saving. *)
Definition kolkataHost : Host :=
  mkHost
    (WhatsAppConfig.mk "https://graph.facebook.com/v17.0" EmptyString EmptyString)
    (ZerodhaConfig.mk EmptyString EmptyString "https://api.kite.trade")
    example_draw
    (fun _ _ _ _ => Rejected (Js.NetworkError "fetch failed"))
    (fun _ _ _ => Rejected (Js.NetworkError "fetch failed"))
    Uri.decodeURIComponent
    (fun _ _ => 19800000).

(** A time zone whose offset from UTC never changes. *)
Definition fixed_offset (host : Host) (offset : Z) : Prop :=
  ∀ t isUTC, localTZA host t isUTC = offset.

(** The requests are served in order, each without a session. *)
Definition serve (host : Host) (requests : list Routes.Request) (w : World)
    : World :=
  fold_left (fun w req => (Routes.handle host req None w).2) requests w.

Definition subscriber : string := "+919876543210".

Definition subscribe : Routes.Request :=
  Routes.PostWhatsappUser (Js.Obj [("phoneNumber", Js.Str subscriber)]).

(** The path parameter is the one of /api/whatsapp/users/%2B919876543210,
    which the router has decoded once. *)
Definition unsubscribe : Routes.Request :=
  Routes.DeleteWhatsappUser subscriber.

(** A number is added, removed, and added again. *)
Definition resubscribed : World :=
  serve offlineHost [subscribe; unsubscribe; subscribe] (initial 0).

(** ... and removed again. *)
Definition removed_again : World :=
  serve offlineHost [unsubscribe] resubscribed.

(** The inputs of the example run of the generator. *)
Definition example_strikes : list Z := [19750; 19800; 19850; 19900; 19950].

Definition example_indicators : TechnicalIndicators.t :=
  TechnicalIndicators.mk (64 # 1) (20200 # 1) (19050 # 1) (1234567 # 1) (15 # 1).

Definition example_conditions : MarketConditions.t :=
  MarketConditions.mk bullish (885 # 10) (7875 # 100).

(** [Math.random()] yields a number in [0, 1). *)
Definition unit_draws (host : Host) : Prop :=
  ∀ n, (0 <= random host n)%Q ∧ (random host n < 1)%Q.

(** ** The fan-out of a generation cycle *)

(** The record stored for a generated signal, with its notified flag. *)
Definition stored_signal (signal : InsertTradingSignal.t) (id createdAt : Z)
    (whatsappSent : bool) : TradingSignal.t :=
  TradingSignal.mk id
    (InsertTradingSignal.type signal)
    (InsertTradingSignal.strikePrice signal)
    (InsertTradingSignal.targetPrice signal)
    (InsertTradingSignal.stopLoss signal)
    (InsertTradingSignal.confidence signal)
    (InsertTradingSignal.reasoning signal)
    (InsertTradingSignal.expiryDate signal)
    true whatsappSent createdAt.

Definition high_confidence (signal : InsertTradingSignal.t) : bool :=
  (90 <=? InsertTradingSignal.confidence signal)%Z.

(** The call that notifies one subscriber of a stored signal. *)
Definition notification (signal : TradingSignal.t) (user : WhatsappUser.t)
    : Event :=
  SendTradingSignal (WhatsappUser.phoneNumber user)
    (AISignalsService.payload_of signal).

(** The events of one signal stored under [id]: for a confidence of 90 or
    more, one call per subscriber of the list, in order, then one write of
    the flag; nothing below 90. *)
Definition fanout (subscribers : list WhatsappUser.t)
    (signal : InsertTradingSignal.t) (id createdAt : Z) : list Event :=
  if high_confidence signal
  then List.map (notification (stored_signal signal id createdAt false))
         subscribers
       ++ [SetWhatsappSent id]
  else [].

(** The events of a batch whose identifiers are allocated from [id] on. *)
Fixpoint fanouts (subscribers : list WhatsappUser.t)
    (signals : list InsertTradingSignal.t) (id createdAt : Z) : list Event :=
  match signals with
  | [] => []
  | signal :: rest =>
      fanout subscribers signal id createdAt
      ++ fanouts subscribers rest (Z.succ id) createdAt
  end.

(** The store after one signal is saved and, if its confidence is high,
    marked as notified. *)
Definition store_one (signal : InsertTradingSignal.t) (createdAt : Z)
    (st : MemStorage.t) : MemStorage.t :=
  let id := MemStorage.currentSignalId st in
  MemStorage.with_tradingSignals
    (JsMap.set id (stored_signal signal id createdAt (high_confidence signal)))
    Z.succ st.

Definition store_all (signals : list InsertTradingSignal.t) (createdAt : Z)
    (st : MemStorage.t) : MemStorage.t :=
  fold_left (fun st signal => store_one signal createdAt st) signals st.

(** The part of [generateSignals] before its loop: the quote, the ladder
    around its price, the options data, the indicators and the conditions
    of the cycle, and the batch that [generateTradingSignals] returns for
    them. *)
Definition generated_batch (host : Host) : M (list InsertTradingSignal.t) :=
  let* niftyData := ZerodhaService.getNiftyQuote host in
  let* q := AISignalsService.first_value niftyData in
  let currentPrice :=
    AISignalsService.or_else (ZerodhaQuote.last_price <$> q) (19845 # 1) in
  let baseStrike := (Js.round (currentPrice / 50)%Q * 50)%Z in
  let strikes :=
    [baseStrike - 100; baseStrike - 50; baseStrike;
     baseStrike + 50; baseStrike + 100]%Z in
  let* optionsData := ZerodhaService.getOptionsChain host strikes in
  let* indicators :=
    AISignalsService.calculateTechnicalIndicators host niftyData in
  let* marketConditions :=
    AISignalsService.analyzeMarketConditions host indicators in
  AISignalsService.generateTradingSignals host strikes currentPrice
    indicators marketConditions.

(** The events that a computation adds to the trace of [w]. *)
Definition events_of {A} (m : M A) (w : World) : list Event :=
  drop (length (trace w)) (trace (m w).2).

(** In [w'] the store, the trace and the clock are those of [w]. *)
Definition quiet (w w' : World) : Prop :=
  storage w' = storage w ∧ trace w' = trace w ∧ now w' = now w.

(** What a generation cycle that starts in [w] and stores [signals]
    leaves: every signal is stored under the next identifier with its
    notified flag, and the trace grows by the fan-out of each. *)
Definition cycle_outcome (w : World) (signals : list InsertTradingSignal.t)
    (r : result unit) (w' : World) : Prop :=
  r = Ok tt
  ∧ storage w' = store_all signals (now w) (storage w)
  ∧ trace w' = trace w
               ++ fanouts (MemStorage.getAllWhatsappUsers (storage w)) signals
                    (MemStorage.currentSignalId (storage w)) (now w).

(** The writes of the notified flag of signal [id] among some events. *)
Definition is_flag_write (id : Z) (e : Event) : bool :=
  match e with
  | SetWhatsappSent id' => (id' =? id)%Z
  | _ => false
  end.

Definition flag_writes (id : Z) (events : list Event) : nat :=
  length (List.filter (is_flag_write id) events).

Definition is_notification (e : Event) : bool :=
  match e with
  | SendTradingSignal _ _ => true
  | _ => false
  end.

(** ** Entries of an options chain

    The options table of the client looks a strike up by a key that
    includes the strike followed by CE (the call) or PE (the put); a
    response has an entry for the strike when one of the two is there. *)
Definition has_entry (strike : Z)
    (data : option (list (string * ZerodhaQuote.t))) : bool :=
  match data with
  | None => false
  | Some fields =>
      existsb
        (fun key =>
           Js.includes (Js.show strike ++ "CE")%string key
           || Js.includes (Js.show strike ++ "PE")%string key)
        (JsMap.keys fields)
  end.

Definition zerodha_credentials_absent (host : Host) : bool :=
  WhatsAppService.falsy (ZerodhaConfig.apiKey (zerodhaEnv host))
  || WhatsAppService.falsy (ZerodhaConfig.accessToken (zerodhaEnv host)).

(** The statuses of the responses to a list of requests served in order. *)
Fixpoint statuses (host : Host) (requests : list Routes.Request) (w : World)
    : list (option Z) :=
  match requests with
  | [] => []
  | req :: rest =>
      let r := Routes.handle host req None w in
      match r.1 with
      | Ok (response, _) => Some (Routes.Response.status response)
      | Throw _ => None
      end :: statuses host rest r.2
  end.

(** Every stored signal has a confidence between 60 and 98. *)
Definition signals_in_range (st : MemStorage.t) : Prop :=
  Forall (fun e : Z * TradingSignal.t =>
            (60 <= TradingSignal.confidence e.2 <= 98)%Z)
         (MemStorage.tradingSignals st).

(** ** Active subscribers

    The numbers of the active subscribers, in the order of the list; the
    identifiers in use are below the next one to allocate, and no number
    is active twice. *)
Definition active_numbers (st : MemStorage.t) : list string :=
  List.map WhatsappUser.phoneNumber (MemStorage.getAllWhatsappUsers st).

Definition subscribers_wf (st : MemStorage.t) : Prop :=
  Forall (fun id => (id < MemStorage.currentWhatsappUserId st)%Z)
         (JsMap.keys (MemStorage.whatsappUsers st))
  ∧ NoDup (active_numbers st).


(** ** Option legs

    The key under which [updateOptionsChain] files a stored leg. *)
Definition leg_key (option : OptionsChain.t) : string :=
  MemStorage.optionsChainKey (OptionsChain.strikePrice option)
    (OptionsChain.expiryDate option).

(** ** Identifiers

    The records of a map are filed under 1, 2, ... in the order of their
    creation, each under its own identifier, and [next] is the identifier
    that follows the last one. *)
Definition filed_in_order {V} (id_of : V -> Z) (m : list (Z * V)) (next : Z)
    : Prop :=
  JsMap.keys m = seqZ 1 (next - 1)
  ∧ (1 <= next)%Z
  ∧ Forall (fun e : Z * V => id_of e.2 = e.1) m.

Definition identifiers_wf (st : MemStorage.t) : Prop :=
  filed_in_order WhatsappUser.id (MemStorage.whatsappUsers st)
    (MemStorage.currentWhatsappUserId st)
  ∧ filed_in_order TradingSignal.id (MemStorage.tradingSignals st)
      (MemStorage.currentSignalId st).

(** ** The flags of a stored signal

    A stored signal is active, and it is marked as notified only if its
    confidence is 90 or more. *)
Definition signal_wf (signal : TradingSignal.t) : Prop :=
  TradingSignal.isActive signal = true
  ∧ (TradingSignal.whatsappSent signal = true
     -> (90 <= TradingSignal.confidence signal)%Z).

Definition signals_wf (st : MemStorage.t) : Prop :=
  Forall (fun e : Z * TradingSignal.t => signal_wf e.2)
         (MemStorage.tradingSignals st).

(** ** The dormant entities

    No position, no quote and no option leg is stored, and none of their
    identifiers has been allocated. *)
Definition dormant (st : MemStorage.t) : Prop :=
  MemStorage.portfolioPositions st = []
  ∧ MemStorage.marketData st = []
  ∧ MemStorage.optionsChain st = []
  ∧ MemStorage.currentPositionId st = 1%Z
  ∧ MemStorage.currentMarketDataId st = 1%Z
  ∧ MemStorage.currentOptionsChainId st = 1%Z.
(** * Properties *)

(** ** Facts about [JsMap] *)

Section JsMap_facts.
Context {K V : Type} `{EqDecision K}.
Implicit Types (k : K) (v : V) (m : list (K * V)).

Lemma JsMap_get_set_eq k v m : JsMap.get k (JsMap.set k v m) = Some v.
Proof.
  induction m as [|[k' v'] m IH]; simpl.
  - by rewrite decide_True.
  - destruct (decide (k' = k)) as [->|Hne]; simpl.
    + by rewrite decide_True.
    + by rewrite decide_False.
Qed.

Lemma JsMap_get_set_ne k k' v m :
  k ≠ k' → JsMap.get k' (JsMap.set k v m) = JsMap.get k' m.
Proof.
  intros Hne. induction m as [|[k0 v0] m IH]; simpl.
  - by rewrite decide_False.
  - destruct (decide (k0 = k)) as [->|Hk0]; simpl.
    + by rewrite !decide_False.
    + destruct (decide (k0 = k')); [done | apply IH].
Qed.

Lemma JsMap_set_set k v v' m :
  JsMap.set k v' (JsMap.set k v m) = JsMap.set k v' m.
Proof.
  induction m as [|[k0 v0] m IH]; simpl.
  - by rewrite decide_True.
  - destruct (decide (k0 = k)) as [->|Hk0]; simpl.
    + by rewrite decide_True.
    + rewrite decide_False by done. by rewrite IH.
Qed.

Lemma JsMap_set_fresh k v m :
  k ∉ JsMap.keys m → JsMap.set k v m = m ++ [(k, v)].
Proof.
  unfold JsMap.keys. induction m as [|[k0 v0] m IH]; simpl; [done|].
  intros Hk. apply not_elem_of_cons in Hk as [Hne Hk].
  rewrite decide_False by done. by rewrite IH.
Qed.

Lemma JsMap_get_Some_elem_of k v m : JsMap.get k m = Some v → (k, v) ∈ m.
Proof.
  induction m as [|[k0 v0] m IH]; simpl; [done|].
  destruct (decide (k0 = k)) as [->|Hne].
  - intros [= ->]. apply elem_of_cons. by left.
  - intros Hm. apply elem_of_cons. right. by apply IH.
Qed.

End JsMap_facts.

(** ** Reasoning about computations in [M] *)

Lemma wp_ret {A} (a : A) Q w : Q (Ok a) w → wp (ret a) Q w.
Proof. done. Qed.

Lemma wp_throw {A} e (Q : result A → World → Prop) w :
  Q (Throw e) w → wp (throw e) Q w.
Proof. done. Qed.

Lemma wp_bind {A B} (m : M A) (k : A → M B) Q w :
  wp m (λ r w', match r with
                | Ok a => wp (k a) Q w'
                | Throw e => Q (Throw e) w'
                end) w →
  wp (bind m k) Q w.
Proof. unfold wp, bind. by destruct (m w) as [[a|e] w']. Qed.

Lemma wp_try_catch {A} (m : M A) (h : Js.Error → M A) Q w :
  wp m (λ r w', match r with
                | Ok a => Q (Ok a) w'
                | Throw e => wp (h e) Q w'
                end) w →
  wp (try_catch m h) Q w.
Proof. unfold wp, try_catch. by destruct (m w) as [[a|e] w']. Qed.

Lemma wp_mono {A} (m : M A) (Q Q' : result A → World → Prop) w :
  wp m Q w → (∀ r w', Q r w' → Q' r w') → wp m Q' w.
Proof. unfold wp. auto. Qed.

Lemma invariant_wp {A} P (m : M A) (Q : result A → World → Prop) w :
  invariant P m → P w → (∀ r w', P w' → Q r w') → wp m Q w.
Proof. unfold invariant, wp. auto. Qed.

Section invariant_rules.
Context (P : World → Prop).

Lemma invariant_ret {A} (a : A) : invariant P (ret a).
Proof. by intros w. Qed.

Lemma invariant_throw {A} e : invariant P (@throw A e).
Proof. by intros w. Qed.

Lemma invariant_bind {A B} (m : M A) (k : A → M B) :
  invariant P m → (∀ a, invariant P (k a)) → invariant P (bind m k).
Proof.
  intros Hm Hk w Hw. unfold bind. specialize (Hm w Hw).
  destruct (m w) as [[a|e] w']; simpl in *; [by apply Hk | done].
Qed.

Lemma invariant_try_catch {A} (m : M A) (h : Js.Error → M A) :
  invariant P m → (∀ e, invariant P (h e)) → invariant P (try_catch m h).
Proof.
  intros Hm Hh w Hw. unfold try_catch. specialize (Hm w Hw).
  destruct (m w) as [[a|e] w']; simpl in *; [done | by apply Hh].
Qed.

Lemma invariant_for_of {A} (xs : list A) (body : A → M unit) :
  (∀ x, invariant P (body x)) → invariant P (for_of xs body).
Proof.
  intros Hbody. induction xs as [|x xs IH]; simpl.
  - apply invariant_ret.
  - apply invariant_bind; [apply Hbody | intros _; apply IH].
Qed.

Lemma invariant_read_storage {A} (f : MemStorage.t → A) :
  invariant P (read_storage f).
Proof. by intros w. Qed.

Lemma invariant_new_Date : invariant P new_Date.
Proof. by intros w. Qed.

End invariant_rules.

Create HintDb invariant discriminated.

#[local] Hint Resolve invariant_ret invariant_throw invariant_read_storage
  invariant_new_Date : invariant.

(** One step of an invariance proof: a rule for the head construct, or a
    case split on what the computation branches on. *)
Ltac invariant_step :=
  first
    [ solve [auto with invariant]
    | apply invariant_bind; [|intro]
    | apply invariant_try_catch; [|intro]
    | apply invariant_for_of; intro
    | match goal with
      | |- invariant _ (if ?b then _ else _) => destruct b
      | |- invariant _ (match ?x with _ => _ end) => destruct x
      | |- invariant _ (let (_, _) := ?x in _) => destruct x
      end ].

Ltac invariant_auto := repeat invariant_step.

(** ** The notification sender *)

Section notification_sender.
Context (host : Host).

Lemma makeRequest_returns endpoint data w :
  ∃ v, WhatsAppService.makeRequest host endpoint data w = (Ok v, after_request host w)
       ∧ success_shaped host (fetches w) endpoint data v.
Proof.
  unfold WhatsAppService.makeRequest, after_request.
  fold (credentials_absent host).
  destruct (credentials_absent host) eqn:Habsent.
  - exists WhatsAppService.mock_success. split; [by destruct w|].
    by constructor.
  - unfold try_catch, await_fetch, bind, next_fetch; simpl.
    fold (remote_call host (fetches w) endpoint data).
    destruct (remote_call host (fetches w) endpoint data)
      as [e | [] status [body|e]] eqn:Hcall; simpl.
    + eexists; split; [done|]. apply shaped_error; [done|].
      rewrite Hcall. constructor.
    + eexists; split; [done|]. by eapply shaped_remote.
    + eexists; split; [done|]. apply shaped_error; [done|].
      rewrite Hcall. constructor.
    + eexists; split; [done|]. apply shaped_error; [done|].
      rewrite Hcall. constructor.
    + eexists; split; [done|]. apply shaped_error; [done|].
      rewrite Hcall. constructor.
Qed.

(** Without credentials and on a failed remote call the value carries
    [success: true]. *)
Lemma success_shaped_field n endpoint data v :
  success_shaped host n endpoint data v →
  Js.field "success" v = Js.Bool true
  ∨ ∃ status, remote_call host n endpoint data = Response true status (Ok v).
Proof. intros [| |status body]; [by left | by left | right; eauto]. Qed.

Lemma sendTradingSignal_returns phoneNumber signal w :
  ∃ v, WhatsAppService.sendTradingSignal host phoneNumber signal w
       = (Ok v, after_send host phoneNumber signal w)
       ∧ success_shaped host (fetches w) "messages"
           (signal_message phoneNumber signal) v.
Proof.
  unfold WhatsAppService.sendTradingSignal, bind, emit.
  match goal with
  | |- context [WhatsAppService.makeRequest host ?e ?d ?w'] =>
      destruct (makeRequest_returns e d w') as (v & -> & Hv)
  end.
  exists v. split; [done|]. exact Hv.
Qed.

Lemma sendWelcomeMessage_returns phoneNumber w :
  ∃ v, WhatsAppService.sendWelcomeMessage host phoneNumber w
       = (Ok v,
          mkWorld (storage w) (trace w ++ [SendWelcomeMessage phoneNumber])
            (draws w) (if credentials_absent host then fetches w else S (fetches w))
            (now w)).
Proof.
  unfold WhatsAppService.sendWelcomeMessage, bind, emit.
  match goal with
  | |- context [WhatsAppService.makeRequest host ?e ?d ?w'] =>
      destruct (makeRequest_returns e d w') as (v & -> & Hv)
  end.
  by exists v.
Qed.

End notification_sender.


(** Without credentials the call is a mock success; with credentials and
    an unreachable endpoint the rejection comes back inside a success. *)
Example sendTradingSignal_examples :
  let signal :=
    SignalPayload.mk "CALL" "19950" 98 "153.68" "46.58" "Strong bias." in
  (WhatsAppService.sendTradingSignal offlineHost subscriber signal
     (initial 0)).1
  = Ok (Js.Obj [("success", Js.Bool true); ("mockMode", Js.Bool true)])
  ∧ (WhatsAppService.sendTradingSignal unreachableHost subscriber signal
       (initial 0)).1
    = Ok (Js.Obj [("success", Js.Bool true);
                  ("error", Js.Err (Js.NetworkError "fetch failed"))]).
Proof. by split. Qed.

(** ** Removing a subscriber *)

Lemma removeWhatsappUser_unknown phoneNumber st :
  ¬ has_phone phoneNumber st →
  MemStorage.removeWhatsappUser phoneNumber st = (false, st).
Proof.
  intros Hnone. unfold MemStorage.removeWhatsappUser.
  destruct (list_find _ _) as [[i [k user]]|] eqn:Hfind; [|done].
  apply list_find_Some in Hfind as (Hi & Hphone & _).
  destruct Hnone. exists k, user. split; [|done].
  by eapply list_elem_of_lookup_2.
Qed.

(** The first record holding the phone number is found, whatever its
    active flag, and it is the only entry written. *)
Lemma removeWhatsappUser_known phoneNumber st :
  has_phone phoneNumber st →
  ∃ i id user,
    MemStorage.whatsappUsers st !! i = Some (id, user)
    ∧ WhatsappUser.phoneNumber user = phoneNumber
    ∧ (∀ j e, MemStorage.whatsappUsers st !! j = Some e → (j < i)%nat →
              WhatsappUser.phoneNumber e.2 ≠ phoneNumber)
    ∧ MemStorage.removeWhatsappUser phoneNumber st
      = (true,
         MemStorage.with_whatsappUsers
           (λ m, <[i := (id, WhatsappUser.set_isActive false user)]> m)
           (λ n, n) st).
Proof.
  intros (id0 & user0 & Hin & Hphone).
  unfold MemStorage.removeWhatsappUser.
  destruct (list_find _ _) as [[i [k user]]|] eqn:Hfind.
  - apply list_find_Some in Hfind as (Hi & Hp & Hleast).
    exists i, k, user. split_and!; [done | done | | done].
    intros j e Hj Hlt. by eapply Hleast.
  - apply list_find_None in Hfind.
    rewrite Forall_forall in Hfind. by destruct (Hfind _ Hin).
Qed.

(** What a removal leaves alone: the record it finds keeps its
    identifier, its phone number and its creation time, the other records
    of the subscriber map and the other maps are not written. *)
Lemma removeWhatsappUser_frame phoneNumber st :
  let st' := (MemStorage.removeWhatsappUser phoneNumber st).2 in
  MemStorage.users st' = MemStorage.users st
  ∧ MemStorage.tradingSignals st' = MemStorage.tradingSignals st
  ∧ MemStorage.portfolioPositions st' = MemStorage.portfolioPositions st
  ∧ MemStorage.marketData st' = MemStorage.marketData st
  ∧ MemStorage.optionsChain st' = MemStorage.optionsChain st
  ∧ length (MemStorage.whatsappUsers st') = length (MemStorage.whatsappUsers st)
  ∧ ∀ j id user,
      MemStorage.whatsappUsers st !! j = Some (id, user) →
      ∃ active,
        MemStorage.whatsappUsers st' !! j
        = Some (id, WhatsappUser.set_isActive active user)
        ∧ (WhatsappUser.phoneNumber user ≠ phoneNumber →
           active = WhatsappUser.isActive user).
Proof.
  unfold MemStorage.removeWhatsappUser.
  destruct (list_find _ _) as [[i [k found]]|] eqn:Hfind; simpl.
  - apply list_find_Some in Hfind as (Hi & Hphone & _).
    split_and!; try done; [by rewrite length_insert|].
    intros j id user Hj. destruct (decide (i = j)) as [<-|Hne].
    + rewrite Hi in Hj. injection Hj as -> ->. exists false.
      rewrite list_lookup_insert_eq by by eapply lookup_lt_Some.
      by split.
    + exists (WhatsappUser.isActive user).
      rewrite list_lookup_insert_ne by done. rewrite Hj.
      by destruct user.
  - split_and!; try done. intros j id user Hj.
    exists (WhatsappUser.isActive user). rewrite Hj. by destruct user.
Qed.

(** The record that a removal deactivates is the first one that holds the
    number. *)
Lemma removeWhatsappUser_first phoneNumber st j id user :
  MemStorage.whatsappUsers st !! j = Some (id, user) →
  WhatsappUser.phoneNumber user = phoneNumber →
  (∀ i e, MemStorage.whatsappUsers st !! i = Some e → (i < j)%nat →
          WhatsappUser.phoneNumber e.2 ≠ phoneNumber) →
  MemStorage.whatsappUsers (MemStorage.removeWhatsappUser phoneNumber st).2 !! j
  = Some (id, WhatsappUser.set_isActive false user).
Proof.
  intros Hj Hphone Hfirst.
  destruct (removeWhatsappUser_known phoneNumber st)
    as (i & k & u & Hi & Hu & Hleast & ->).
  { exists id, user. split; [by eapply list_elem_of_lookup_2 | done]. }
  assert (i = j) as ->.
  { destruct (Nat.lt_trichotomy i j) as [Hlt|[->|Hgt]]; [|done|].
    - by destruct (Hfirst _ _ Hi Hlt).
    - by destruct (Hleast _ _ Hj Hgt). }
  rewrite Hi in Hj. injection Hj as -> ->. simpl.
  rewrite list_lookup_insert_eq; [done|]. by eapply lookup_lt_Some.
Qed.

(** C7. Removing a subscriber by a phone number that no record of the
    store holds answers 404, and the world, the store in it, is the one
    before the request. *)
Theorem delete_unknown_subscriber_404 (host : Host) (w : World)
    (param phoneNumber : string) :
  decodeURIComponent host param = Ok phoneNumber →
  ¬ has_phone phoneNumber (storage w) →
  Routes.deleteWhatsappUser host param w
  = (Ok (Routes.fail 404 "User not found"), w).
Proof.
  intros Hdecode Hnone.
  unfold Routes.deleteWhatsappUser, try_catch, bind, on_storage.
  rewrite Hdecode. simpl.
  rewrite (removeWhatsappUser_unknown _ _ Hnone). simpl.
  by destruct w.
Qed.

(** C10. Removing a subscriber whose record is already inactive succeeds:
    [removeWhatsappUser] returns [true] and the DELETE handler answers with
    the success message, not 404. *)
Theorem delete_inactive_subscriber_succeeds (host : Host) (w : World)
    (param phoneNumber : string) (id : Z) (user : WhatsappUser.t) :
  decodeURIComponent host param = Ok phoneNumber →
  (id, user) ∈ MemStorage.whatsappUsers (storage w) →
  WhatsappUser.phoneNumber user = phoneNumber →
  WhatsappUser.isActive user = false →
  (MemStorage.removeWhatsappUser phoneNumber (storage w)).1 = true
  ∧ (Routes.deleteWhatsappUser host param w).1
    = Ok (Routes.json (Routes.Message "User removed successfully")).
Proof.
  intros Hdecode Hin Hphone _.
  destruct (removeWhatsappUser_known phoneNumber (storage w))
    as (i & k & u & _ & _ & _ & Hremove); [by exists id, user|].
  split; [by rewrite Hremove|].
  unfold Routes.deleteWhatsappUser, try_catch, bind, on_storage.
  rewrite Hdecode. simpl. by rewrite Hremove.
Qed.

(** ** Computations that only consume draws and fetches

    The market-data accessor and the generator up to its loop read the
    clock, draw random numbers and call the remote endpoint; a property of
    the world that does not depend on the two counters is invariant under
    them. *)

Section host_effects.
Context (host : Host) (P : World → Prop).

Hypothesis P_draws : ∀ st tr d f t d',
  P (mkWorld st tr d f t) → P (mkWorld st tr d' f t).
Hypothesis P_fetches : ∀ st tr d f t f',
  P (mkWorld st tr d f t) → P (mkWorld st tr d f' t).

Lemma invariant_Math_random : invariant P (Math_random host).
Proof. intros [st tr d f t] Hw. by apply (P_draws _ _ d). Qed.

Lemma invariant_next_fetch {B} (f : nat → FetchOutcome B) :
  invariant P (next_fetch f).
Proof. intros [st tr d n t] Hw. by apply (P_fetches _ _ _ n). Qed.

#[local] Hint Resolve invariant_Math_random invariant_next_fetch : invariant.

Lemma invariant_await_fetch {B} (f : nat → FetchOutcome B) what :
  invariant P (await_fetch f what).
Proof. unfold await_fetch. invariant_auto. Qed.

#[local] Hint Resolve invariant_await_fetch : invariant.

Lemma invariant_mock_chain_loop strikes index data :
  invariant P (ZerodhaService.mock_chain_loop host strikes index data).
Proof.
  revert index data. induction strikes as [|strike rest IH]; intros; simpl.
  - invariant_auto.
  - unfold ZerodhaService.mock_entries. invariant_auto.
Qed.

#[local] Hint Resolve invariant_mock_chain_loop : invariant.

Lemma invariant_getMockData endpoint :
  invariant P (ZerodhaService.getMockData host endpoint).
Proof.
  unfold ZerodhaService.getMockData, ZerodhaService.generateMockOptionsChain.
  invariant_auto.
Qed.

#[local] Hint Resolve invariant_getMockData : invariant.

Lemma invariant_zerodha_makeRequest endpoint :
  invariant P (ZerodhaService.makeRequest host endpoint).
Proof. unfold ZerodhaService.makeRequest. invariant_auto. Qed.

#[local] Hint Resolve invariant_zerodha_makeRequest : invariant.

Lemma invariant_instruments strikes :
  invariant P (ZerodhaService.instruments host strikes).
Proof.
  induction strikes as [|strike rest IH]; simpl.
  - invariant_auto.
  - unfold ZerodhaService.instrument, ZerodhaService.getExpiryString.
    invariant_auto.
Qed.

#[local] Hint Resolve invariant_instruments : invariant.

Lemma invariant_getOptionsChain strikes :
  invariant P (ZerodhaService.getOptionsChain host strikes).
Proof. unfold ZerodhaService.getOptionsChain. invariant_auto. Qed.

Lemma invariant_getNiftyQuote : invariant P (ZerodhaService.getNiftyQuote host).
Proof. unfold ZerodhaService.getNiftyQuote. invariant_auto. Qed.

Lemma invariant_first_value marketData :
  invariant P (AISignalsService.first_value marketData).
Proof. unfold AISignalsService.first_value. invariant_auto. Qed.

#[local] Hint Resolve invariant_first_value : invariant.

Lemma invariant_calculateTechnicalIndicators marketData :
  invariant P (AISignalsService.calculateTechnicalIndicators host marketData).
Proof. unfold AISignalsService.calculateTechnicalIndicators. invariant_auto. Qed.

Lemma invariant_analyzeMarketConditions indicators :
  invariant P (AISignalsService.analyzeMarketConditions host indicators).
Proof. unfold AISignalsService.analyzeMarketConditions. invariant_auto. Qed.

Lemma invariant_generate_loop n strikes indicators conditions expiryDate :
  invariant P
    (AISignalsService.generate_loop host n strikes indicators conditions
       expiryDate).
Proof.
  induction n as [|n IH]; simpl.
  - invariant_auto.
  - unfold AISignalsService.generate_one. invariant_auto.
Qed.

#[local] Hint Resolve invariant_generate_loop : invariant.

Lemma invariant_generateTradingSignals strikes currentPrice indicators
    conditions :
  invariant P
    (AISignalsService.generateTradingSignals host strikes currentPrice
       indicators conditions).
Proof.
  unfold AISignalsService.generateTradingSignals,
    AISignalsService.getNextThursday.
  invariant_auto.
Qed.

End host_effects.

(** ** Invariants of the store

    A property of the store that the four writers used by the handlers
    and the generator keep is kept by every handler and by a generation
    cycle; if the constructed store has it, every reachable world has. *)

Section storage_invariant.
Context (host : Host) (S : MemStorage.t → Prop).

Hypothesis S_add : ∀ phoneNumber t st,
  S st → S (MemStorage.addWhatsappUser phoneNumber t st).2.
Hypothesis S_remove : ∀ phoneNumber st,
  S st → S (MemStorage.removeWhatsappUser phoneNumber st).2.
Hypothesis S_create : ∀ signal t st,
  S st → S (MemStorage.createTradingSignal signal t st).2.
Hypothesis S_update : ∀ id st,
  S st → S (MemStorage.updateSignalWhatsappSent id st).2.

Let P : World → Prop := λ w, S (storage w).

Lemma invariant_emit e : invariant P (emit e).
Proof. by intros w. Qed.

Lemma invariant_on_storage {A} (f : MemStorage.t → A * MemStorage.t) :
  (∀ st, S st → S (f st).2) → invariant P (on_storage f).
Proof.
  intros Hf w Hw. unfold on_storage, P in *. specialize (Hf _ Hw).
  by destruct (f (storage w)).
Qed.

(** The computations of the section above touch no store. *)
Lemma store_await_fetch {B} (f : nat → FetchOutcome B) what :
  invariant P (await_fetch f what).
Proof. by apply invariant_await_fetch. Qed.

Lemma store_getOptionsChain strikes :
  invariant P (ZerodhaService.getOptionsChain host strikes).
Proof. by apply invariant_getOptionsChain. Qed.

Lemma store_getNiftyQuote : invariant P (ZerodhaService.getNiftyQuote host).
Proof. by apply invariant_getNiftyQuote. Qed.

Lemma store_calculateTechnicalIndicators marketData :
  invariant P (AISignalsService.calculateTechnicalIndicators host marketData).
Proof. by apply invariant_calculateTechnicalIndicators. Qed.

Lemma store_analyzeMarketConditions indicators :
  invariant P (AISignalsService.analyzeMarketConditions host indicators).
Proof. by apply invariant_analyzeMarketConditions. Qed.

Lemma store_generateTradingSignals strikes currentPrice indicators conditions :
  invariant P
    (AISignalsService.generateTradingSignals host strikes currentPrice
       indicators conditions).
Proof. by apply invariant_generateTradingSignals. Qed.

#[local] Hint Resolve invariant_emit invariant_on_storage
  S_add S_remove S_create S_update invariant_first_value
  store_await_fetch store_getOptionsChain store_getNiftyQuote
  store_calculateTechnicalIndicators store_analyzeMarketConditions
  store_generateTradingSignals : invariant.

Lemma invariant_whatsapp_makeRequest endpoint data :
  invariant P (WhatsAppService.makeRequest host endpoint data).
Proof. unfold WhatsAppService.makeRequest. invariant_auto. Qed.

#[local] Hint Resolve invariant_whatsapp_makeRequest : invariant.

Lemma invariant_sendTradingSignal phoneNumber signal :
  invariant P (WhatsAppService.sendTradingSignal host phoneNumber signal).
Proof. unfold WhatsAppService.sendTradingSignal. invariant_auto. Qed.

Lemma invariant_sendWelcomeMessage phoneNumber :
  invariant P (WhatsAppService.sendWelcomeMessage host phoneNumber).
Proof. unfold WhatsAppService.sendWelcomeMessage. invariant_auto. Qed.

#[local] Hint Resolve invariant_sendTradingSignal
  invariant_sendWelcomeMessage : invariant.

Lemma invariant_sendWhatsAppNotifications signal :
  invariant P (AISignalsService.sendWhatsAppNotifications host signal).
Proof.
  unfold AISignalsService.sendWhatsAppNotifications,
    AISignalsService.updateSignalWhatsappSent.
  invariant_auto.
Qed.

#[local] Hint Resolve invariant_sendWhatsAppNotifications : invariant.

Lemma invariant_save_and_notify signal :
  invariant P (AISignalsService.save_and_notify host signal).
Proof.
  unfold AISignalsService.save_and_notify, AISignalsService.createTradingSignal.
  invariant_auto.
Qed.

#[local] Hint Resolve invariant_save_and_notify : invariant.

Lemma invariant_generateSignals :
  invariant P (AISignalsService.generateSignals host).
Proof. unfold AISignalsService.generateSignals. invariant_auto. Qed.

(** The handlers, the one that adds a subscriber apart. *)
Lemma invariant_handle_but_post req session :
  match req with Routes.PostWhatsappUser _ => False | _ => True end →
  invariant P (Routes.handle host req session).
Proof.
  destruct req; simpl; try done; intros _;
    unfold Routes.login, Routes.logout, Routes.me, Routes.keep_session,
      Routes.getNifty, Routes.getOptionsChain, Routes.getWhatsappUsers,
      Routes.deleteWhatsappUser, Routes.destructure;
    invariant_auto.
Qed.

Lemma invariant_handle req session :
  invariant P (Routes.handle host req session).
Proof.
  destruct req; try by apply invariant_handle_but_post.
  simpl. unfold Routes.keep_session, Routes.postWhatsappUser.
  invariant_auto.
Qed.

Theorem reachable_invariant w :
  S MemStorage.new → reachable host w → S (storage w).
Proof.
  intros Hnew Hreach. induction Hreach as [t|w req session _ IH|w _ IH| |];
    try done.
  - by apply (invariant_handle req session w).
  - by apply (invariant_generateSignals w).
Qed.

End storage_invariant.

(** Witness of C7: on the constructed store no record holds the number,
    so the DELETE request answers 404 and changes nothing. *)
Lemma delete_unknown_subscriber_404_witness :
  decodeURIComponent offlineHost subscriber = Ok subscriber
  ∧ ¬ has_phone subscriber (storage (initial 0))
  ∧ Routes.deleteWhatsappUser offlineHost subscriber (initial 0)
    = (Ok (Routes.fail 404 "User not found"), initial 0).
Proof.
  assert (Hnone : ¬ has_phone subscriber (storage (initial 0))).
  { intros (id & user & Hin & _). simpl in Hin. by apply elem_of_nil in Hin. }
  split; [reflexivity|]. split; [exact Hnone|].
  apply (delete_unknown_subscriber_404 offlineHost (initial 0)
           subscriber subscriber); [reflexivity | exact Hnone].
Defined.

(** Witness of C10: after one subscription and one removal, record 1 is
    inactive; removing the number again succeeds. *)
Lemma delete_inactive_subscriber_succeeds_witness :
  let w := serve offlineHost [subscribe; unsubscribe] (initial 0) in
  let user := WhatsappUser.mk 1 subscriber false 0 in
  (1, user) ∈ MemStorage.whatsappUsers (storage w)
  ∧ (MemStorage.removeWhatsappUser subscriber (storage w)).1 = true
  ∧ (Routes.deleteWhatsappUser offlineHost subscriber w).1
    = Ok (Routes.json (Routes.Message "User removed successfully")).
Proof.
  intros w user.
  assert (Hin : (1, user) ∈ MemStorage.whatsappUsers (storage w)).
  { vm_compute. apply elem_of_cons. by left. }
  split; [exact Hin|].
  apply (delete_inactive_subscriber_succeeds offlineHost w
           subscriber subscriber 1 user);
    [reflexivity | exact Hin | reflexivity | reflexivity].
Defined.

(** ** Login *)

Lemma reachable_users host w :
  reachable host w →
  MemStorage.users (storage w) = [(1, User.mk 1 "admin" "admin")].
Proof.
  apply (reachable_invariant host
           (λ st, MemStorage.users st = [(1, User.mk 1 "admin" "admin")]));
    try done.
  - intros phoneNumber st. unfold MemStorage.removeWhatsappUser.
    by destruct (list_find _ _) as [[i [k user]]|].
  - intros id st. unfold MemStorage.updateSignalWhatsappSent.
    by destruct (JsMap.get _ _).
Qed.

Lemma strict_eq_str_spec v s : Js.strict_eq_str v s = true ↔ v = Js.Str s.
Proof.
  destruct v; simpl; try (split; [done | by intros [=]]).
  rewrite String.eqb_eq. split; [by intros -> | by intros [= ->]].
Qed.

(** C4. In every reachable world, a login request whose body is an object
    succeeds exactly when its user name and its password are both the
    string "admin": it then answers with the seeded user and sets the
    session; with any other pair it answers 401 and [req.session] is what
    it was. The store is not touched. *)
Theorem login_seeded_credentials (host : Host) (w : World)
    (session : option Routes.Session.t) (fields : list (string * Js.Value)) :
  reachable host w →
  Routes.login (Js.Obj fields) session w
  = if Js.strict_eq_str (Js.field "username" (Js.Obj fields)) "admin"
       && Js.strict_eq_str (Js.field "password" (Js.Obj fields)) "admin"
    then (Ok (Routes.json (Routes.UserBody 1 "admin"),
              Some (Routes.Session.mk 1 "admin")), w)
    else (Ok (Routes.fail 401 "Invalid credentials", session), w).
Proof.
  intros Hreach.
  unfold Routes.login, try_catch, bind, Routes.destructure, read_storage,
    MemStorage.getUserByUsername; simpl.
  rewrite (reachable_users host w Hreach); simpl.
  destruct (Js.strict_eq_str _ "admin"); simpl; [|done].
  by destruct (Js.strict_eq_str _ "admin").
Qed.

(** Witness of C4, on the constructed store: the seeded pair logs in, a
    wrong password does not. *)
Lemma login_seeded_credentials_witness :
  reachable offlineHost (initial 0)
  ∧ Routes.login
      (Js.Obj [("username", Js.Str "admin"); ("password", Js.Str "admin")])
      None (initial 0)
    = (Ok (Routes.json (Routes.UserBody 1 "admin"),
           Some (Routes.Session.mk 1 "admin")), initial 0)
  ∧ Routes.login
      (Js.Obj [("username", Js.Str "admin"); ("password", Js.Str "Admin")])
      None (initial 0)
    = (Ok (Routes.fail 401 "Invalid credentials", None), initial 0).
Proof.
  split; [apply reach_initial|]. split.
  - apply (login_seeded_credentials offlineHost (initial 0) None
             [("username", Js.Str "admin"); ("password", Js.Str "admin")]).
    apply reach_initial.
  - apply (login_seeded_credentials offlineHost (initial 0) None
             [("username", Js.Str "admin"); ("password", Js.Str "Admin")]).
    apply reach_initial.
Defined.

(** ** The confidence of the generated signals *)

Lemma clamp_bounds c : (60 ≤ AISignalsService.clamp c ≤ 98)%Z.
Proof. unfold AISignalsService.clamp. lia. Qed.

Lemma confidence_of_bounds indicators conditions jitter :
  (60 ≤ AISignalsService.confidence_of indicators conditions jitter ≤ 98)%Z.
Proof. unfold AISignalsService.confidence_of. apply clamp_bounds. Qed.

(** The confidence of a generated record is the clamped sum, at the third
    draw of its iteration. *)
Lemma generate_one_confidence host strikes indicators conditions expiryDate
    w signal w' :
  AISignalsService.generate_one host strikes indicators conditions expiryDate w
  = (Ok signal, w') →
  InsertTradingSignal.confidence signal
  = AISignalsService.confidence_of indicators conditions
      (random host (2 + draws w)).
Proof.
  unfold AISignalsService.generate_one, bind, Math_random; simpl.
  destruct (AISignalsService.array_get strikes _); simpl; [|done].
  by intros [= <- _].
Qed.

Lemma generate_loop_confidence host n strikes indicators conditions expiryDate
    w signals w' :
  AISignalsService.generate_loop host n strikes indicators conditions
    expiryDate w = (Ok signals, w') →
  Forall (λ signal, (60 ≤ InsertTradingSignal.confidence signal ≤ 98)%Z) signals.
Proof.
  revert w signals w'. induction n as [|n IH]; intros w signals w'; simpl.
  - by intros [= <- _].
  - unfold bind at 1.
    destruct (AISignalsService.generate_one _ _ _ _ _ w)
      as [[signal|e] w1] eqn:Hone; [|done].
    unfold bind at 1.
    destruct (AISignalsService.generate_loop _ _ _ _ _ _ w1)
      as [[rest|e] w2] eqn:Hrest; [|done].
    intros [= <- _]. constructor; [|by eapply IH].
    rewrite (generate_one_confidence _ _ _ _ _ _ _ _ Hone).
    apply confidence_of_bounds.
Qed.

Lemma generateTradingSignals_confidence host strikes currentPrice indicators
    conditions w signals w' :
  AISignalsService.generateTradingSignals host strikes currentPrice indicators
    conditions w = (Ok signals, w') →
  Forall (λ signal, (60 ≤ InsertTradingSignal.confidence signal ≤ 98)%Z) signals.
Proof.
  unfold AISignalsService.generateTradingSignals,
    AISignalsService.getNextThursday, bind, new_Date, Math_random; simpl.
  apply generate_loop_confidence.
Qed.

(** *** The generator does produce records *)

#[local] Arguments Js.floor : simpl never.

Lemma floor_scaled_draw (r : Q) (k : Z) :
  (0 <= r)%Q → (r < 1)%Q → (0 < k)%Z →
  (0 ≤ Js.floor (r * inject_Z k)%Q < k)%Z.
Proof.
  intros Hlo Hhi Hk. unfold Js.floor. split.
  - change 0%Z with (Qfloor 0). apply Qfloor_resp_le.
    apply Qmult_le_0_compat; [done|]. change 0%Q with (inject_Z 0).
    rewrite <- Zle_Qle. lia.
  - assert (Hlt : (r * inject_Z k < inject_Z k)%Q).
    { rewrite <- (Qmult_1_l (inject_Z k)) at 2.
      apply Qmult_lt_compat_r; [|done].
      change 0%Q with (inject_Z 0). rewrite <- Zlt_Qlt. lia. }
    pose proof (Qfloor_le (r * inject_Z k)) as Hfloor.
    rewrite Zlt_Qlt. by eapply Qle_lt_trans.
Qed.

Lemma generate_one_returns host strikes indicators conditions expiryDate w :
  unit_draws host → length strikes = 5%nat →
  ∃ signal,
    AISignalsService.generate_one host strikes indicators conditions
      expiryDate w
    = (Ok signal,
       mkWorld (storage w) (trace w) (6 + draws w) (fetches w) (now w)).
Proof.
  intros Hdraws Hlen.
  unfold AISignalsService.generate_one, bind, Math_random; simpl.
  rewrite Hlen.
  destruct (Hdraws (S (draws w))) as [Hlo Hhi].
  pose proof (floor_scaled_draw _ 2 Hlo Hhi eq_refl) as Hfloor.
  change (inject_Z 2) with 2%Q in Hfloor.
  set (index := if _ : bool then _ else _).
  assert (Hindex : (1 ≤ index ≤ 4)%Z).
  { subst index. destruct (if AISignalsService.is_bullish _ then _ else _).
    - change (Js.floor (inject_Z (Z.of_nat 5) * (6 # 10))) with 3%Z. lia.
    - change (Js.floor (inject_Z (Z.of_nat 5) * (4 # 10))) with 2%Z. lia. }
  unfold AISignalsService.array_get.
  destruct (index <? 0)%Z eqn:Hneg; [lia|].
  destruct (strikes !! Z.to_nat index) as [strike|] eqn:Hstrike.
  - simpl. eauto.
  - apply lookup_ge_None in Hstrike. lia.
Qed.

Lemma generate_loop_returns host n strikes indicators conditions expiryDate w :
  unit_draws host → length strikes = 5%nat →
  ∃ signals w',
    AISignalsService.generate_loop host n strikes indicators conditions
      expiryDate w = (Ok signals, w')
    ∧ length signals = n.
Proof.
  intros Hdraws Hlen. revert w. induction n as [|n IH]; intros w; simpl.
  - by eexists _, _.
  - destruct (generate_one_returns host strikes indicators conditions
                expiryDate w Hdraws Hlen) as (signal & Hone).
    unfold bind. rewrite Hone. simpl.
    match goal with
    | |- context [AISignalsService.generate_loop _ _ _ _ _ _ ?w1] =>
        destruct (IH w1) as (rest & w2 & Hrest & Hlength)
    end.
    rewrite Hrest. simpl.
    eexists _, _. split; [done|]. simpl. by rewrite Hlength.
Qed.

(** With draws in [0, 1) and a ladder of five strikes, as [generateSignals]
    builds it, the generator returns between one and three records. *)
Lemma generateTradingSignals_returns host strikes currentPrice indicators
    conditions w :
  unit_draws host → length strikes = 5%nat →
  ∃ signals w',
    AISignalsService.generateTradingSignals host strikes currentPrice
      indicators conditions w = (Ok signals, w')
    ∧ (1 ≤ length signals ≤ 3)%nat.
Proof.
  intros Hdraws Hlen.
  unfold AISignalsService.generateTradingSignals,
    AISignalsService.getNextThursday, bind, new_Date, Math_random; simpl.
  destruct (Hdraws (draws w)) as [Hlo Hhi].
  pose proof (floor_scaled_draw _ 3 Hlo Hhi eq_refl) as Hfloor.
  change (inject_Z 3) with 3%Q in Hfloor.
  match goal with
  | |- context [AISignalsService.generate_loop _ ?n _ _ _ ?d ?w1] =>
      destruct (generate_loop_returns host n strikes indicators conditions
                  d w1 Hdraws Hlen) as (signals & w' & Hrun & Hlength)
  end.
  exists signals, w'. split; [done|]. rewrite Hlength. lia.
Qed.

(** ** The fan-out of a generation cycle *)

Section fan_out.
Context (host : Host).

(** The loop over the subscribers: one call each, nothing else moves but
    the count of fetches. *)
Lemma notify_all_returns (signal : TradingSignal.t)
    (users : list WhatsappUser.t) (w : World) :
  ∃ n,
    for_of users
      (λ user,
         WhatsAppService.sendTradingSignal host
           (WhatsappUser.phoneNumber user) (AISignalsService.payload_of signal) ;;
         ret tt) w
    = (Ok tt,
       mkWorld (storage w) (trace w ++ List.map (notification signal) users)
         (draws w) n (now w)).
Proof.
  revert w. induction users as [|user users IH]; intros w; simpl.
  - exists (fetches w). unfold ret. rewrite app_nil_r. by destruct w.
  - unfold bind at 1. unfold bind at 1.
    destruct (sendTradingSignal_returns host (WhatsappUser.phoneNumber user)
                (AISignalsService.payload_of signal) w) as (v & -> & _).
    simpl. destruct (IH (after_send host (WhatsappUser.phoneNumber user)
                           (AISignalsService.payload_of signal) w))
      as (n & ->).
    exists n. simpl. by rewrite <- app_assoc.
Qed.

(** One iteration of the loop of [generateSignals]. *)
Lemma save_and_notify_returns (signal : InsertTradingSignal.t) (w : World) :
  ∃ n,
    AISignalsService.save_and_notify host signal w
    = (Ok tt,
       mkWorld (store_one signal (now w) (storage w))
         (trace w
          ++ fanout (MemStorage.getAllWhatsappUsers (storage w)) signal
               (MemStorage.currentSignalId (storage w)) (now w))
         (draws w) n (now w)).
Proof.
  unfold AISignalsService.save_and_notify, AISignalsService.createTradingSignal,
    fanout, store_one, high_confidence.
  unfold bind at 1. unfold bind at 1. unfold new_Date, on_storage; simpl.
  set (id := MemStorage.currentSignalId (storage w)).
  destruct (90 <=? InsertTradingSignal.confidence signal)%Z.
  - unfold AISignalsService.sendWhatsAppNotifications, try_catch.
    unfold bind at 1. unfold read_storage at 1. simpl.
    unfold bind at 1.
    fold (stored_signal signal id (now w) false).
    match goal with
    | |- context [for_of ?users ?body ?w1] =>
        destruct (notify_all_returns (stored_signal signal id (now w) false)
                    users w1) as (n & Hloop)
    end.
    rewrite Hloop. simpl.
    unfold AISignalsService.updateSignalWhatsappSent, bind, on_storage,
      MemStorage.updateSignalWhatsappSent; simpl.
    rewrite JsMap_get_set_eq. simpl.
    exists n. rewrite <- app_assoc. subst id.
    destruct (storage w).
    unfold MemStorage.with_tradingSignals, MemStorage.getAllWhatsappUsers.
    simpl. by rewrite JsMap_set_set.
  - exists (fetches w). unfold ret. rewrite app_nil_r.
    by fold (stored_signal signal id (now w) false).
Qed.

Lemma store_one_subscribers signal t st :
  MemStorage.getAllWhatsappUsers (store_one signal t st)
  = MemStorage.getAllWhatsappUsers st.
Proof. by destruct st. Qed.

Lemma store_one_next_id signal t st :
  MemStorage.currentSignalId (store_one signal t st)
  = Z.succ (MemStorage.currentSignalId st).
Proof. by destruct st. Qed.

(** The whole loop. *)
Lemma save_and_notify_all_returns (signals : list InsertTradingSignal.t)
    (w : World) :
  ∃ n,
    for_of signals (AISignalsService.save_and_notify host) w
    = (Ok tt,
       mkWorld (store_all signals (now w) (storage w))
         (trace w
          ++ fanouts (MemStorage.getAllWhatsappUsers (storage w)) signals
               (MemStorage.currentSignalId (storage w)) (now w))
         (draws w) n (now w)).
Proof.
  revert w. induction signals as [|signal signals IH]; intros w; simpl.
  - exists (fetches w). unfold ret. rewrite app_nil_r. by destruct w.
  - unfold bind at 1.
    destruct (save_and_notify_returns signal w) as (n1 & ->).
    match goal with
    | |- context [for_of signals _ ?w1] => destruct (IH w1) as (n & ->)
    end.
    exists n. simpl.
    by rewrite store_one_subscribers, <- app_assoc.
Qed.

End fan_out.

Section cycle.
Context (host : Host) (w0 : World).

Lemma quiet_counters :
  (∀ st tr d f t d',
     quiet w0 (mkWorld st tr d f t) → quiet w0 (mkWorld st tr d' f t))
  ∧ (∀ st tr d f t f',
       quiet w0 (mkWorld st tr d f t) → quiet w0 (mkWorld st tr d f' t)).
Proof. by split. Qed.

Lemma quiet_refl : quiet w0 w0.
Proof. by repeat split. Qed.

(** A cycle that fails before its loop has stored and sent nothing. *)
Lemma quiet_outcome w :
  quiet w0 w →
  ∃ signals,
    Forall (λ signal, (60 ≤ InsertTradingSignal.confidence signal ≤ 98)%Z)
      signals
    ∧ cycle_outcome w0 signals (Ok tt) w.
Proof.
  intros (Hst & Htr & _). exists []. split; [done|].
  repeat split; simpl; [done|]. by rewrite app_nil_r.
Qed.

(** One step of the prefix of the cycle: it runs quietly, and a throw goes
    to the handler, which logs. *)
Ltac quiet_step lemma :=
  apply wp_bind;
  apply (invariant_wp (quiet w0)); [lemma | assumption || apply quiet_refl |];
  let r := fresh "r" in let w := fresh "w" in let Hq := fresh "Hq" in
  intros r w Hq; destruct r; [|by apply quiet_outcome].

(** The cycle: a quiet prefix that ends with the generator, then the loop
    over what the generator returned. *)
Lemma generateSignals_outcome :
  wp (AISignalsService.generateSignals host)
     (λ r w',
        ∃ signals,
          Forall (λ signal, (60 ≤ InsertTradingSignal.confidence signal ≤ 98)%Z)
            signals
          ∧ cycle_outcome w0 signals r w') w0.
Proof.
  destruct quiet_counters as [Hd Hf].
  unfold AISignalsService.generateSignals. apply wp_try_catch.
  quiet_step ltac:(by apply invariant_getNiftyQuote).
  quiet_step ltac:(by apply invariant_first_value).
  cbv zeta.
  quiet_step ltac:(by apply invariant_getOptionsChain).
  quiet_step ltac:(by apply invariant_calculateTechnicalIndicators).
  quiet_step ltac:(by apply invariant_analyzeMarketConditions).
  apply wp_bind. unfold wp at 1.
  match goal with
  | Hq : quiet w0 ?w |- context [AISignalsService.generateTradingSignals
                                   host ?strikes ?price ?ind ?cond ?w] =>
      pose proof (invariant_generateTradingSignals host (quiet w0) Hd
                    strikes price ind cond w Hq) as Hquiet;
      pose proof (generateTradingSignals_confidence host strikes price ind
                    cond w) as Hrange;
      destruct (AISignalsService.generateTradingSignals host strikes price
                  ind cond w) as [[signals|e] w'] eqn:Hrun
  end; simpl in *; [|by apply quiet_outcome].
  specialize (Hrange _ _ eq_refl). unfold wp.
  destruct (save_and_notify_all_returns host signals w') as (n & ->).
  destruct Hquiet as (Hst & Htr & Hnow).
  simpl. exists signals. rewrite Hst, Htr, Hnow. by repeat split.
Qed.

End cycle.

(** *** What the stored batch looks like *)

Lemma store_all_cons signal signals t st :
  store_all (signal :: signals) t st = store_all signals t (store_one signal t st).
Proof. done. Qed.

Lemma store_all_next_id signals t st :
  MemStorage.currentSignalId (store_all signals t st)
  = (MemStorage.currentSignalId st + Z.of_nat (length signals))%Z.
Proof.
  revert st. induction signals as [|signal signals IH]; intros st.
  - simpl. lia.
  - rewrite store_all_cons, IH, store_one_next_id. simpl length. lia.
Qed.

Lemma store_all_whatsappUsers signals t st :
  MemStorage.whatsappUsers (store_all signals t st) = MemStorage.whatsappUsers st.
Proof.
  revert st. induction signals as [|signal signals IH]; intros st; [done|].
  rewrite store_all_cons, IH. by destruct st.
Qed.

Lemma store_one_get signal t st :
  JsMap.get (MemStorage.currentSignalId st)
    (MemStorage.tradingSignals (store_one signal t st))
  = Some (stored_signal signal (MemStorage.currentSignalId st) t
            (high_confidence signal)).
Proof. destruct st; simpl. apply JsMap_get_set_eq. Qed.

Lemma store_one_get_other signal t st id :
  id ≠ MemStorage.currentSignalId st →
  JsMap.get id (MemStorage.tradingSignals (store_one signal t st))
  = JsMap.get id (MemStorage.tradingSignals st).
Proof. intros Hne. destruct st; simpl in *. by apply JsMap_get_set_ne. Qed.

(** Storing a batch leaves the records below the next identifier alone. *)
Lemma store_all_get_below signals t st id :
  (id < MemStorage.currentSignalId st)%Z →
  JsMap.get id (MemStorage.tradingSignals (store_all signals t st))
  = JsMap.get id (MemStorage.tradingSignals st).
Proof.
  revert st. induction signals as [|signal signals IH]; intros st Hlt; [done|].
  rewrite store_all_cons, IH.
  - apply store_one_get_other. lia.
  - rewrite store_one_next_id. lia.
Qed.

Lemma store_all_get signals t st k signal :
  signals !! k = Some signal →
  JsMap.get (MemStorage.currentSignalId st + Z.of_nat k)%Z
    (MemStorage.tradingSignals (store_all signals t st))
  = Some (stored_signal signal (MemStorage.currentSignalId st + Z.of_nat k)%Z t
            (high_confidence signal)).
Proof.
  revert st k. induction signals as [|s signals IH]; intros st k; [done|].
  rewrite store_all_cons. destruct k as [|k]; intros Hk; simpl in Hk.
  - injection Hk as ->. change (Z.of_nat 0) with 0%Z.
    rewrite Z.add_0_r, store_all_get_below.
    + apply store_one_get.
    + rewrite store_one_next_id. lia.
  - specialize (IH (store_one s t st) k Hk).
    rewrite store_one_next_id in IH.
    replace (MemStorage.currentSignalId st + Z.of_nat (S k))%Z
      with (Z.succ (MemStorage.currentSignalId st) + Z.of_nat k)%Z by lia.
    exact IH.
Qed.

(** *** The flag is written once for a notified signal, never otherwise *)

Lemma flag_writes_app id events events' :
  flag_writes id (events ++ events')
  = (flag_writes id events + flag_writes id events')%nat.
Proof. unfold flag_writes. by rewrite List.filter_app, length_app. Qed.

Lemma flag_writes_notifications id signal users :
  flag_writes id (List.map (notification signal) users) = 0%nat.
Proof. unfold flag_writes. by induction users. Qed.

Lemma flag_writes_fanout id subscribers signal id' t :
  flag_writes id (fanout subscribers signal id' t)
  = if high_confidence signal && (id' =? id)%Z then 1%nat else 0%nat.
Proof.
  unfold fanout. destruct (high_confidence signal); simpl; [|done].
  rewrite flag_writes_app, flag_writes_notifications.
  unfold flag_writes; simpl. by destruct (id' =? id)%Z.
Qed.

Lemma flag_writes_fanouts_below id subscribers signals first t :
  (id < first)%Z → flag_writes id (fanouts subscribers signals first t) = 0%nat.
Proof.
  revert first. induction signals as [|s signals IH]; intros first Hlt; [done|].
  simpl. rewrite flag_writes_app, flag_writes_fanout, IH by lia.
  rewrite (proj2 (Z.eqb_neq first id)) by lia. by rewrite andb_false_r.
Qed.

Lemma flag_writes_fanouts subscribers signals first t k signal :
  signals !! k = Some signal →
  flag_writes (first + Z.of_nat k) (fanouts subscribers signals first t)
  = if high_confidence signal then 1%nat else 0%nat.
Proof.
  revert first k. induction signals as [|s signals IH]; intros first k; [done|].
  simpl fanouts. rewrite flag_writes_app, flag_writes_fanout.
  destruct k as [|k]; intros Hk; simpl in Hk.
  - injection Hk as ->. change (Z.of_nat 0) with 0%Z.
    rewrite Z.add_0_r, Z.eqb_refl, andb_true_r.
    rewrite flag_writes_fanouts_below by lia.
    destruct (high_confidence signal); lia.
  - rewrite (proj2 (Z.eqb_neq first _)) by lia.
    rewrite andb_false_r.
    replace (first + Z.of_nat (S k))%Z
      with (Z.succ first + Z.of_nat k)%Z by lia.
    by rewrite (IH _ _ Hk).
Qed.

(** The calls of a fan-out are as many as the subscribers. *)
Lemma notifications_fanout subscribers signal id t :
  length (List.filter is_notification (fanout subscribers signal id t))
  = if high_confidence signal then length subscribers else 0%nat.
Proof.
  unfold fanout. destruct (high_confidence signal); [|done].
  rewrite List.filter_app, length_app; simpl. rewrite Nat.add_0_r.
  induction subscribers as [|user users IH]; simpl; [done|]. by rewrite IH.
Qed.

(** *** The cycle and its batch *)

Section cycle_batch.
Context (host : Host).

(** The cycle is its prefix, then one iteration of the loop for each
    record of the batch that the generator has returned, in order; when
    the prefix throws, nothing is stored and nothing is sent. *)
Lemma generateSignals_batch w :
  AISignalsService.generateSignals host w
  = match generated_batch host w with
    | (Ok signals, w1) =>
        for_of signals (AISignalsService.save_and_notify host) w1
    | (Throw _, w1) => (Ok tt, w1)
    end.
Proof.
  unfold AISignalsService.generateSignals, generated_batch, try_catch, bind.
  destruct (ZerodhaService.getNiftyQuote host w) as [[niftyData|e] wa];
    [|reflexivity].
  destruct (AISignalsService.first_value niftyData wa) as [[q|e] wb];
    [|reflexivity].
  cbv beta zeta.
  destruct (ZerodhaService.getOptionsChain host _ wb) as [[optionsData|e] wc];
    [|reflexivity].
  destruct (AISignalsService.calculateTechnicalIndicators host niftyData wc)
    as [[indicators|e] wd]; [|reflexivity].
  destruct (AISignalsService.analyzeMarketConditions host indicators wd)
    as [[conditions|e] we]; [|reflexivity].
  destruct (AISignalsService.generateTradingSignals host _ _ indicators
              conditions we) as [[signals|e] w1]; [|reflexivity].
  by destruct (save_and_notify_all_returns host signals w1) as (n & ->).
Qed.

Lemma generated_batch_quiet w : quiet w (generated_batch host w).2.
Proof.
  destruct (quiet_counters w) as [Hd Hf].
  assert (Hinv : invariant (quiet w) (generated_batch host)).
  { unfold generated_batch.
    apply invariant_bind; [by apply invariant_getNiftyQuote|intros niftyData].
    apply invariant_bind; [by apply invariant_first_value|intros q].
    cbv zeta.
    apply invariant_bind; [by apply invariant_getOptionsChain|intros _].
    apply invariant_bind;
      [by apply invariant_calculateTechnicalIndicators|intros indicators].
    apply invariant_bind;
      [by apply invariant_analyzeMarketConditions|intros conditions].
    by apply invariant_generateTradingSignals. }
  apply Hinv, quiet_refl.
Qed.

(** The fan-out of a stored signal, from any world: the subscribers are
    read from the store of that world. *)
Lemma sendWhatsAppNotifications_returns saved w :
  JsMap.get (TradingSignal.id saved) (MemStorage.tradingSignals (storage w))
  = Some saved →
  ∃ n,
    AISignalsService.sendWhatsAppNotifications host saved w
    = (Ok tt,
       mkWorld
         (MemStorage.updateSignalWhatsappSent (TradingSignal.id saved)
            (storage w)).2
         (trace w
          ++ List.map (notification saved)
               (MemStorage.getAllWhatsappUsers (storage w))
          ++ [SetWhatsappSent (TradingSignal.id saved)])
         (draws w) n (now w)).
Proof.
  intros Hget.
  unfold AISignalsService.sendWhatsAppNotifications, try_catch.
  unfold bind at 1. unfold read_storage at 1. cbn [fst snd].
  unfold bind at 1.
  destruct (notify_all_returns host saved
              (MemStorage.getAllWhatsappUsers (storage w)) w) as (n & ->).
  unfold AISignalsService.updateSignalWhatsappSent, bind, on_storage,
    MemStorage.updateSignalWhatsappSent.
  cbn [fst snd storage]. rewrite Hget. cbn [fst snd emit].
  exists n. unfold emit, ret. cbn. by rewrite <- app_assoc.
Qed.

End cycle_batch.

Lemma events_of_app {A} (m : M A) w events :
  trace (m w).2 = trace w ++ events → events_of m w = events.
Proof. unfold events_of. intros ->. by rewrite drop_app_length. Qed.



(** A cycle in a world with one removed and one active record of the same
    number, without credentials: the first and the third signal have a
    confidence of 98 and are sent to the active record only, the second
    has 85 and is not sent. *)
Example generateSignals_example :
  let w' := (AISignalsService.generateSignals offlineHost resubscribed).2 in
  List.map (λ e, (TradingSignal.confidence e.2, TradingSignal.whatsappSent e.2))
    (MemStorage.tradingSignals (storage w'))
  = [(98, true); (85, false); (98, true)]
  ∧ List.map
      (λ e, match e with
            | SendTradingSignal phoneNumber signal =>
                (phoneNumber, SignalPayload.confidence signal)
            | SendWelcomeMessage phoneNumber => (phoneNumber, 0)
            | SetWhatsappSent id => (EmptyString, id)
            end)
      (drop (length (trace resubscribed)) (trace w'))
    = [(subscriber, 98); (EmptyString, 1); (subscriber, 98); (EmptyString, 3)].
Proof. vm_compute. done. Qed.

(** ** Subscribing again after a removal *)

Lemma reachable_serve host requests w :
  reachable host w → reachable host (serve host requests w).
Proof.
  revert w. induction requests as [|req requests IH]; intros w Hw; [done|].
  apply IH. by apply reach_request.
Qed.

Lemma reachable_resubscribed : reachable offlineHost resubscribed.
Proof. apply reachable_serve, reach_initial. Qed.

Lemma reachable_removed_again : reachable offlineHost removed_again.
Proof. apply reachable_serve, reachable_resubscribed. Qed.

(** C8 (the code departs from it). A number that is added, removed and
    added again is held by two records of the store, an inactive and an
    active one: phone numbers are not unique across the records of a
    reachable store. *)
Theorem resubscribed_number_is_duplicated :
  reachable offlineHost resubscribed
  ∧ statuses offlineHost [subscribe; unsubscribe; subscribe] (initial 0)
    = [Some 200; Some 200; Some 200]
  ∧ MemStorage.whatsappUsers (storage resubscribed)
    = [(1, WhatsappUser.mk 1 subscriber false 0);
       (2, WhatsappUser.mk 2 subscriber true 0)]
  ∧ ¬ NoDup (List.map WhatsappUser.phoneNumber
               (JsMap.values (MemStorage.whatsappUsers (storage resubscribed)))).
Proof.
  split; [apply reachable_resubscribed|].
  split; [by vm_compute|]. split; [by vm_compute|].
  replace (List.map _ _) with [subscriber; subscriber] by (by vm_compute).
  intros Hnodup. apply NoDup_cons in Hnodup as [Hnotin _].
  apply Hnotin, elem_of_cons. by left.
Qed.

(** C9 (the code departs from it). With the number held by an inactive
    record 1 and an active record 2, removing record 2 by its number
    returns [true] and leaves the store as it is: the active flag of
    record 2 is still [true]. *)
Theorem shadowed_record_stays_active :
  let st := storage resubscribed in
  let user := WhatsappUser.mk 2 subscriber true 0 in
  reachable offlineHost resubscribed
  ∧ (2, user) ∈ MemStorage.whatsappUsers st
  ∧ MemStorage.removeWhatsappUser (WhatsappUser.phoneNumber user) st = (true, st)
  ∧ JsMap.get 2
      (MemStorage.whatsappUsers
         (MemStorage.removeWhatsappUser (WhatsappUser.phoneNumber user) st).2)
    = Some user.
Proof.
  split; [apply reachable_resubscribed|].
  split; [vm_compute; apply elem_of_cons; right; apply elem_of_cons; by left|].
  split; by vm_compute.
Qed.

(** C3 (the code departs from it). The number matches the validation
    pattern; it is added, removed, added again and removed again, each
    request answering 200; the list of subscribers then still contains
    it. *)
Theorem resubscribed_number_survives_removal :
  WhatsAppService.validatePhoneNumber subscriber = Js.Resolved true
  ∧ reachable offlineHost removed_again
  ∧ statuses offlineHost [subscribe; unsubscribe; subscribe; unsubscribe]
      (initial 0)
    = [Some 200; Some 200; Some 200; Some 200]
  ∧ (Routes.deleteWhatsappUser offlineHost subscriber resubscribed).1
    = Ok (Routes.json (Routes.Message "User removed successfully"))
  ∧ (Routes.getWhatsappUsers removed_again).1
    = Ok (Routes.json
            (Routes.WhatsappUsersBody [WhatsappUser.mk 2 subscriber true 0])).
Proof.
  split; [by vm_compute|]. split; [apply reachable_removed_again|].
  split_and!; by vm_compute.
Qed.

(** ** The options chain *)

Lemma includes_quote s : Js.includes "quote" ("/quote?i=" ++ s)%string = true.
Proof. done. Qed.

Lemma instruments_returns host strikes w :
  ∃ names, ZerodhaService.instruments host strikes w = (Ok names, w).
Proof.
  induction strikes as [|strike strikes (names & IH)]; simpl.
  - by eexists.
  - unfold bind, ZerodhaService.instrument, ZerodhaService.getExpiryString,
      new_Date, ret; simpl.
    rewrite IH. by eexists.
Qed.

Section options_chain.
Context (host : Host).

(** The request of the options chain goes to a [/quote] endpoint, for
    which the mock data is the index quote. *)
Lemma getMockData_quote s w :
  ZerodhaService.getMockData host ("/quote?i=" ++ s)%string w
  = (Ok ZerodhaService.mock_quote, w).
Proof. unfold ZerodhaService.getMockData. by rewrite includes_quote. Qed.

Lemma getOptionsChain_without_credentials strikes w :
  zerodha_credentials_absent host = true →
  ZerodhaService.getOptionsChain host strikes w
  = (Ok (Some ZerodhaService.mock_quote), w).
Proof.
  intros Habsent. unfold ZerodhaService.getOptionsChain, bind at 1.
  destruct (instruments_returns host strikes w) as (names & ->).
  unfold ZerodhaService.makeRequest. fold (zerodha_credentials_absent host).
  rewrite Habsent. cbv iota. unfold bind. rewrite getMockData_quote.
  reflexivity.
Qed.

(** With credentials: the body of an ok response is returned as it is;
    any failure of the call gives the index quote. *)
Lemma getOptionsChain_with_credentials strikes w :
  zerodha_credentials_absent host = false →
  ∃ url auth,
    (ZerodhaService.getOptionsChain host strikes w).1
    = match zerodhaFetch host (fetches w) url auth with
      | Response true _ (Ok data) => Ok data
      | _ => Ok (Some ZerodhaService.mock_quote)
      end.
Proof.
  intros Hpresent. unfold ZerodhaService.getOptionsChain, bind at 1.
  destruct (instruments_returns host strikes w) as (names & ->).
  unfold ZerodhaService.makeRequest. fold (zerodha_credentials_absent host).
  rewrite Hpresent. cbv iota.
  exists (ZerodhaConfig.baseUrl (zerodhaEnv host)
          ++ ("/quote?i=" ++ String.concat "&i=" names))%string,
         ("token " ++ ZerodhaConfig.apiKey (zerodhaEnv host) ++ ":"
          ++ ZerodhaConfig.accessToken (zerodhaEnv host))%string.
  unfold try_catch, await_fetch, bind at 1, next_fetch.
  cbn [fetches fst snd].
  destruct (zerodhaFetch host (fetches w) _ _) as [e | [] status [data|e]];
    cbn [negb fst snd]; unfold throw, ret, bind;
    try rewrite getMockData_quote; reflexivity.
Qed.

End options_chain.

(** A string that includes another has all its characters. *)
Lemma prefix_chars n h c :
  String.prefix n h = true →
  c ∈ list_ascii_of_string n → c ∈ list_ascii_of_string h.
Proof.
  revert h. induction n as [|a n IH]; intros h Hprefix Hc.
  - by apply elem_of_nil in Hc.
  - destruct h as [|b h]; simpl in *; [done|].
    destruct (Ascii.ascii_dec a b) as [->|]; [|done].
    apply elem_of_cons in Hc as [->|Hc]; apply elem_of_cons; [by left|].
    right. by apply IH.
Qed.

Lemma includes_chars n h c :
  Js.includes n h = true →
  c ∈ list_ascii_of_string n → c ∈ list_ascii_of_string h.
Proof.
  induction h as [|b h IH]; simpl; intros Hinc Hc.
  - apply orb_true_iff in Hinc as [Hprefix|]; [|done].
    by apply (prefix_chars n EmptyString c).
  - apply orb_true_iff in Hinc as [Hprefix|Hrest].
    + by apply (prefix_chars n (String b h) c).
    + apply elem_of_cons. right. by apply IH.
Qed.

Lemma chars_app s s' :
  list_ascii_of_string (s ++ s')%string
  = list_ascii_of_string s ++ list_ascii_of_string s'.
Proof. induction s as [|a s IH]; simpl; [done|]. by rewrite IH. Qed.

(** The key of the index quote includes no strike followed by CE or PE:
    it has no letter. *)
Lemma index_key_includes_no_option s suffix :
  "E"%char ∈ list_ascii_of_string suffix →
  Js.includes (s ++ suffix)%string "256265" = false.
Proof.
  intros HE. apply not_true_is_false. intros Hinc.
  apply (includes_chars _ _ "E"%char) in Hinc.
  - by repeat (apply elem_of_cons in Hinc as [|Hinc]; [done|]);
      apply elem_of_nil in Hinc.
  - rewrite chars_app. apply elem_of_app. by right.
Qed.

(** The index quote has no entry for any strike. *)
Lemma mock_quote_has_no_entry strike :
  has_entry strike (Some ZerodhaService.mock_quote) = false.
Proof.
  unfold has_entry.
  change (JsMap.keys ZerodhaService.mock_quote) with ["256265"%string].
  cbn [existsb].
  rewrite !index_key_includes_no_option; [done|..];
    simpl; apply elem_of_cons; right; apply elem_of_cons; by left.
Qed.

(** C5 (the code departs from it). Without credentials, and with
    credentials when the remote call fails, the options chain read returns
    the mock index quote whatever the strikes asked for: the request goes
    to a [/quote] endpoint, and the mock data of such an endpoint is the
    quote, not the mock chain. That response has no entry for any strike.
    The route asks for five strikes and gets none. *)
Theorem fallback_options_chain_is_the_index_quote :
  (∀ strikes w,
     (ZerodhaService.getOptionsChain offlineHost strikes w).1
     = Ok (Some ZerodhaService.mock_quote)
     ∧ (ZerodhaService.getOptionsChain unreachableHost strikes w).1
       = Ok (Some ZerodhaService.mock_quote))
  ∧ (∀ strike, has_entry strike (Some ZerodhaService.mock_quote) = false)
  ∧ (Routes.getOptionsChain offlineHost (initial 0)).1
    = Ok (Routes.json (Routes.MarketBody (Some ZerodhaService.mock_quote)))
  ∧ List.map (λ strike, has_entry strike (Some ZerodhaService.mock_quote))
      [19750; 19800; 19850; 19900; 19950]
    = [false; false; false; false; false].
Proof.
  split_and!.
  - intros strikes w. split.
    + by rewrite getOptionsChain_without_credentials.
    + destruct (getOptionsChain_with_credentials unreachableHost strikes w)
        as (url & auth & ->); done.
  - apply mock_quote_has_no_entry.
  - by vm_compute.
  - by vm_compute.
Qed.

(** ** The confidence of the stored signals *)

Lemma JsMap_set_Forall {K V} `{EqDecision K} (P : K * V → Prop) k v
    (m : list (K * V)) :
  Forall P m → P (k, v) → Forall P (JsMap.set k v m).
Proof.
  intros Hm Hkv. induction Hm as [|[k' v'] m Hhead Hm IH]; simpl.
  - by constructor.
  - destruct (decide (k' = k)); by constructor.
Qed.

Lemma store_all_in_range signals t st :
  Forall (λ signal, (60 ≤ InsertTradingSignal.confidence signal ≤ 98)%Z)
    signals →
  signals_in_range st → signals_in_range (store_all signals t st).
Proof.
  intros Hsignals. revert st.
  induction Hsignals as [|signal signals Hhead _ IH]; intros st Hst; [done|].
  rewrite store_all_cons. apply IH.
  unfold signals_in_range in *. destruct st; simpl in *.
  by apply JsMap_set_Forall.
Qed.

Lemma reachable_signals_in_range host w :
  reachable host w → signals_in_range (storage w).
Proof.
  induction 1 as [t|w req session _ IH|w _ IH| |]; try done.
  - by constructor.
  - apply (invariant_handle host signals_in_range); try done.
    intros phoneNumber st. unfold MemStorage.removeWhatsappUser.
    by destruct (list_find _ _) as [[i [k user]]|].
  - destruct (generateSignals_outcome host w)
      as (signals & Hrange & _ & -> & _).
    by apply store_all_in_range.
Qed.

(** C2. Whatever the strikes, the price, the indicators, the conditions
    and the random draws, every record that [generateTradingSignals]
    produces has an integer confidence between 60 and 98; and so has every
    signal in the store of a reachable world, that is, after any number of
    generation cycles. *)
Theorem generated_confidence_in_range (host : Host) :
  (∀ strikes currentPrice indicators conditions w signals w',
     AISignalsService.generateTradingSignals host strikes currentPrice
       indicators conditions w = (Ok signals, w') →
     Forall (λ signal, (60 ≤ InsertTradingSignal.confidence signal ≤ 98)%Z)
       signals)
  ∧ (∀ w id signal,
       reachable host w →
       (id, signal) ∈ MemStorage.tradingSignals (storage w) →
       (60 ≤ TradingSignal.confidence signal ≤ 98)%Z).
Proof.
  split.
  - intros strikes currentPrice indicators conditions w signals w'.
    apply generateTradingSignals_confidence.
  - intros w id signal Hreach Hin.
    pose proof (reachable_signals_in_range host w Hreach) as Hrange.
    unfold signals_in_range in Hrange. rewrite Forall_forall in Hrange.
    apply (Hrange _ Hin).
Qed.

(** Witness of C2: a run of the generator that produces three records,
    and the store after one cycle, which holds three signals. *)
Lemma generated_confidence_in_range_witness :
  let w := (AISignalsService.generateSignals offlineHost (initial 0)).2 in
  (∃ signals w',
     AISignalsService.generateTradingSignals offlineHost example_strikes
       (198453 # 10) example_indicators example_conditions (initial 0)
     = (Ok signals, w')
     ∧ length signals = 3%nat
     ∧ Forall (λ signal, (60 ≤ InsertTradingSignal.confidence signal ≤ 98)%Z)
         signals)
  ∧ reachable offlineHost w
  ∧ length (MemStorage.tradingSignals (storage w)) = 3%nat
  ∧ ∀ id signal,
      (id, signal) ∈ MemStorage.tradingSignals (storage w) →
      (60 ≤ TradingSignal.confidence signal ≤ 98)%Z.
Proof.
  intros w.
  assert (Hreach : reachable offlineHost w)
    by apply reach_cycle, reach_initial.
  split_and!.
  - eexists _, _. split; [vm_compute; reflexivity|]. split; [reflexivity|].
    eapply (proj1 (generated_confidence_in_range offlineHost) example_strikes
              (198453 # 10)%Q example_indicators example_conditions (initial 0)).
    vm_compute; reflexivity.
  - exact Hreach.
  - by vm_compute.
  - intros id signal.
    apply (proj2 (generated_confidence_in_range offlineHost) w id signal Hreach).
Defined.

(** ** The active subscribers have distinct numbers

    The handler that adds a subscriber looks for the number among the
    active records, so no number is active twice; a removed number can be
    added again, in a new record. *)

Lemma active_numbers_snoc (m : list (Z * WhatsappUser.t)) id user :
  WhatsappUser.isActive user = true →
  List.map WhatsappUser.phoneNumber
    (List.filter WhatsappUser.isActive (JsMap.values (m ++ [(id, user)])))
  = List.map WhatsappUser.phoneNumber
      (List.filter WhatsappUser.isActive (JsMap.values m))
    ++ [WhatsappUser.phoneNumber user].
Proof.
  intros Hactive. unfold JsMap.values.
  rewrite fmap_app, List.filter_app, List.map_app. simpl. by rewrite Hactive.
Qed.

(** Deactivating a record takes its number, if it was active, out of the
    active numbers and leaves the others in place. *)
Lemma active_numbers_deactivate (m : list (Z * WhatsappUser.t)) i id user :
  m !! i = Some (id, user) →
  List.map WhatsappUser.phoneNumber
    (List.filter WhatsappUser.isActive
       (JsMap.values (<[i := (id, WhatsappUser.set_isActive false user)]> m)))
  `sublist_of`
  List.map WhatsappUser.phoneNumber
    (List.filter WhatsappUser.isActive (JsMap.values m)).
Proof.
  unfold JsMap.values. revert i.
  induction m as [|[k u] m IH]; intros i Hi; [done|].
  destruct i as [|i]; simpl in *.
  - injection Hi as -> ->. destruct (WhatsappUser.isActive user); simpl.
    + by apply sublist_cons.
    + done.
  - destruct (WhatsappUser.isActive u); simpl.
    + apply sublist_skip. by apply IH.
    + by apply IH.
Qed.

Lemma keys_insert_same {V} (m : list (Z * V)) i id v v' :
  m !! i = Some (id, v) → JsMap.keys (<[i := (id, v')]> m) = JsMap.keys m.
Proof.
  intros Hi. unfold JsMap.keys. rewrite list_fmap_insert. simpl.
  apply list_insert_id. by rewrite list_lookup_fmap, Hi.
Qed.

Lemma subscribers_wf_remove phoneNumber st :
  subscribers_wf st →
  subscribers_wf (MemStorage.removeWhatsappUser phoneNumber st).2.
Proof.
  intros [Hkeys Hnodup]. unfold MemStorage.removeWhatsappUser.
  destruct (list_find _ _) as [[i [k user]]|] eqn:Hfind; [|done].
  apply list_find_Some in Hfind as (Hi & _ & _).
  destruct st; unfold subscribers_wf, active_numbers,
    MemStorage.getAllWhatsappUsers in *; simpl in *.
  split.
  - by rewrite (keys_insert_same _ _ _ _ _ Hi).
  - eapply sublist_NoDup; [exact Hnodup|].
    by apply active_numbers_deactivate.
Qed.

Lemma subscribers_wf_add phoneNumber t st :
  subscribers_wf st →
  existsb (λ user, String.eqb (WhatsappUser.phoneNumber user) phoneNumber)
    (MemStorage.getAllWhatsappUsers st) = false →
  subscribers_wf (MemStorage.addWhatsappUser phoneNumber t st).2.
Proof.
  intros [Hkeys Hnodup] Hnew.
  destruct st; unfold subscribers_wf, active_numbers,
    MemStorage.getAllWhatsappUsers in *; simpl in *.
  assert (Hfresh : currentWhatsappUserId ∉ JsMap.keys whatsappUsers).
  { intros Hin. rewrite Forall_forall in Hkeys. specialize (Hkeys _ Hin). lia. }
  rewrite (JsMap_set_fresh _ _ _ Hfresh). split.
  - unfold JsMap.keys in *. rewrite fmap_app. apply Forall_app. split.
    + eapply Forall_impl; [exact Hkeys|]. intros; simpl in *; lia.
    + repeat constructor. simpl. lia.
  - rewrite active_numbers_snoc by done. simpl.
    apply NoDup_app. split_and!; [done | | apply NoDup_singleton].
    intros x Hx Hxp. apply list_elem_of_singleton in Hxp as ->.
    apply list_elem_of_In, in_map_iff in Hx as (user & Hphone & Huser).
    assert (Hex : existsb
              (λ user, String.eqb (WhatsappUser.phoneNumber user) phoneNumber)
              (List.filter WhatsappUser.isActive (JsMap.values whatsappUsers))
            = true).
    { apply existsb_exists. exists user. split; [done|].
      by apply String.eqb_eq. }
    congruence.
Qed.

Lemma subscribers_wf_signals f g st :
  subscribers_wf st → subscribers_wf (MemStorage.with_tradingSignals f g st).
Proof. by destruct st. Qed.

Section active_subscribers.
Context (host : Host).

Let P : World → Prop := λ w, subscribers_wf (storage w).

(** The handler adds a record only when the number is not active. *)
Lemma subscribers_wf_post body : invariant P (Routes.postWhatsappUser host body).
Proof.
  intros w Hw. unfold Routes.postWhatsappUser, try_catch.
  destruct (Routes.safeParse body) as [phoneNumber|]; [|done].
  simpl. unfold bind at 1. unfold read_storage at 1. simpl.
  destruct (existsb _ _) eqn:Hnew; [done|].
  unfold bind at 1. unfold new_Date at 1.
  unfold bind at 1. unfold on_storage at 1. simpl.
  unfold bind at 1.
  match goal with
  | |- context [WhatsAppService.sendWelcomeMessage host ?p ?w1] =>
      destruct (sendWelcomeMessage_returns host p w1) as (v & ->)
  end.
  simpl. by apply subscribers_wf_add.
Qed.

Lemma reachable_subscribers_wf w :
  reachable host w → subscribers_wf (storage w).
Proof.
  induction 1 as [t|w req session _ IH|w _ IH| |]; try done.
  - split; [by constructor | apply NoDup_nil_2].
  - destruct req;
      try (apply (invariant_handle_but_post host subscribers_wf);
           [apply subscribers_wf_remove | done | done]).
    simpl. unfold Routes.keep_session, bind.
    pose proof (subscribers_wf_post body w IH) as Hpost.
    by destruct (Routes.postWhatsappUser host body w) as [[r|e] w'].
  - apply (invariant_generateSignals host subscribers_wf); [| |done].
    + intros signal t st. apply subscribers_wf_signals.
    + intros id st. unfold MemStorage.updateSignalWhatsappSent.
      destruct (JsMap.get _ _); [apply subscribers_wf_signals | done].
Qed.

(** In every reachable world the active subscribers have distinct
    numbers: listing them shows a number at most once. *)
Theorem active_numbers_distinct w :
  reachable host w → NoDup (active_numbers (storage w)).
Proof. intros Hreach. by apply reachable_subscribers_wf. Qed.

End active_subscribers.

(** ** A number that the store has never seen

    For such a number the round trip of the specification holds: it is
    listed once after it is added, and not listed after it is removed. *)

Lemma not_has_phone_not_active phoneNumber st :
  ¬ has_phone phoneNumber st →
  existsb (λ user, String.eqb (WhatsappUser.phoneNumber user) phoneNumber)
    (MemStorage.getAllWhatsappUsers st) = false.
Proof.
  intros Hnone. apply not_true_is_false. intros Hex.
  apply existsb_exists in Hex as (user & Hin & Heq).
  apply String.eqb_eq in Heq.
  unfold MemStorage.getAllWhatsappUsers in Hin.
  apply filter_In in Hin as [Hin _].
  apply list_elem_of_In, list_elem_of_fmap in Hin as ([id u] & -> & Hin).
  apply Hnone. by exists id, u.
Qed.

Lemma not_has_phone_not_listed phoneNumber st :
  ¬ has_phone phoneNumber st → phoneNumber ∉ active_numbers st.
Proof.
  intros Hnone Hin. unfold active_numbers in Hin.
  apply list_elem_of_In, in_map_iff in Hin as (user & Hphone & Hin).
  pose proof (not_has_phone_not_active _ _ Hnone) as Hex.
  assert (existsb
            (λ user, String.eqb (WhatsappUser.phoneNumber user) phoneNumber)
            (MemStorage.getAllWhatsappUsers st) = true); [|congruence].
  apply existsb_exists. exists user. split; [done|]. by apply String.eqb_eq.
Qed.

Lemma post_new_number host phoneNumber w :
  ¬ has_phone phoneNumber (storage w) →
  storage (Routes.postWhatsappUser host
             (Js.Obj [("phoneNumber", Js.Str phoneNumber)]) w).2
  = (MemStorage.addWhatsappUser phoneNumber (now w) (storage w)).2.
Proof.
  intros Hnone. unfold Routes.postWhatsappUser, try_catch.
  simpl. unfold bind at 1. unfold read_storage at 1. simpl.
  rewrite (not_has_phone_not_active _ _ Hnone).
  unfold bind at 1. unfold new_Date at 1.
  unfold bind at 1. unfold on_storage at 1. simpl.
  unfold bind at 1.
  match goal with
  | |- context [WhatsAppService.sendWelcomeMessage host ?p ?w1] =>
      destruct (sendWelcomeMessage_returns host p w1) as (v & ->)
  end.
  done.
Qed.

Lemma fresh_number_round_trip host w param phoneNumber :
  reachable host w →
  ¬ has_phone phoneNumber (storage w) →
  decodeURIComponent host param = Ok phoneNumber →
  let w1 := (Routes.postWhatsappUser host
               (Js.Obj [("phoneNumber", Js.Str phoneNumber)]) w).2 in
  let w2 := (Routes.deleteWhatsappUser host param w1).2 in
  active_numbers (storage w1) = active_numbers (storage w) ++ [phoneNumber]
  ∧ NoDup (active_numbers (storage w1))
  ∧ active_numbers (storage w2) = active_numbers (storage w)
  ∧ phoneNumber ∉ active_numbers (storage w2).
Proof.
  intros Hreach Hnone Hdecode w1 w2.
  assert (Hw1 : reachable host w1).
  { apply (reach_request host w
             (Routes.PostWhatsappUser (Js.Obj [("phoneNumber", Js.Str phoneNumber)]))
             None) in Hreach.
    simpl in Hreach. unfold Routes.keep_session, bind in Hreach.
    subst w1.
    by destruct (Routes.postWhatsappUser host _ w) as [[r|e] w']. }
  pose proof (post_new_number host phoneNumber w Hnone) as Hst1.
  fold w1 in Hst1.
  destruct (reachable_subscribers_wf host w Hreach) as [Hkeys _].
  assert (Hfresh : MemStorage.currentWhatsappUserId (storage w)
                   ∉ JsMap.keys (MemStorage.whatsappUsers (storage w))).
  { intros Hin. rewrite Forall_forall in Hkeys. specialize (Hkeys _ Hin). lia. }
  set (user := WhatsappUser.mk (MemStorage.currentWhatsappUserId (storage w))
                 phoneNumber true (now w)).
  assert (Hm1 : MemStorage.whatsappUsers (storage w1)
                = MemStorage.whatsappUsers (storage w)
                  ++ [(MemStorage.currentWhatsappUserId (storage w), user)]).
  { rewrite Hst1. destruct (storage w); simpl in *.
    by apply JsMap_set_fresh. }
  assert (Hlist1 : active_numbers (storage w1)
                   = active_numbers (storage w) ++ [phoneNumber]).
  { unfold active_numbers, MemStorage.getAllWhatsappUsers.
    rewrite Hm1. by apply active_numbers_snoc. }
  split; [exact Hlist1|]. split; [exact (active_numbers_distinct host w1 Hw1)|].
  assert (Hlist2 : active_numbers (storage w2) = active_numbers (storage w)).
  { subst w2. unfold Routes.deleteWhatsappUser, try_catch, bind, on_storage.
    rewrite Hdecode. simpl.
    destruct (removeWhatsappUser_known phoneNumber (storage w1))
      as (i & id & u & Hi & Hu & _ & ->).
    { exists (MemStorage.currentWhatsappUserId (storage w)), user.
      rewrite Hm1. split; [|done]. apply elem_of_app. right.
      apply elem_of_cons. by left. }
    simpl. rewrite Hm1 in Hi.
    apply lookup_app_Some in Hi as [Hi|[Hlen Hi]].
    { destruct Hnone. exists id, u. split; [|done].
      by eapply list_elem_of_lookup_2. }
    destruct (i - length (MemStorage.whatsappUsers (storage w)))%nat
      as [|n] eqn:Hdiff; [|done].
    injection Hi as <- <-.
    assert (i = length (MemStorage.whatsappUsers (storage w))) as -> by lia.
    unfold active_numbers, MemStorage.getAllWhatsappUsers.
    destruct (storage w1); simpl in *. subst.
    rewrite insert_app_r_alt, Nat.sub_diag by done. simpl.
    unfold JsMap.values.
    rewrite fmap_app, List.filter_app, List.map_app. simpl.
    by rewrite app_nil_r. }
  split; [exact Hlist2|]. rewrite Hlist2. by apply not_has_phone_not_listed.
Qed.

(** * Further properties of the handlers, the store and the services *)

(** ** Sessions *)

(** X1. In every reachable world the session that a login with the seeded
    credentials sets is the one [GET /api/auth/me] answers with: the user
    1, admin. A logout answers 200 and clears the session, after which,
    as without any session, [me] answers 401. No handler of the three
    touches the world. *)
Theorem session_round_trip (host : Host) (w : World) :
  reachable host w →
  ∃ session,
    Routes.login
      (Js.Obj [("username", Js.Str "admin"); ("password", Js.Str "admin")])
      None w
    = (Ok (Routes.json (Routes.UserBody 1 "admin"), Some session), w)
    ∧ Routes.me (Some session) w
      = (Ok (Routes.json (Routes.UserBody 1 "admin"), Some session), w)
    ∧ Routes.logout (Some session) w
      = (Ok (Routes.json (Routes.Message "Logged out successfully"), None), w)
    ∧ Routes.me None w
      = (Ok (Routes.fail 401 "Not authenticated", None), w).
Proof.
  intros Hreach. exists (Routes.Session.mk 1 "admin").
  split; [|by repeat split].
  unfold Routes.login, try_catch, bind, Routes.destructure, read_storage,
    MemStorage.getUserByUsername; simpl.
  by rewrite (reachable_users host w Hreach).
Qed.

Lemma session_round_trip_witness :
  reachable offlineHost resubscribed
  ∧ ∃ session,
      Routes.login
        (Js.Obj [("username", Js.Str "admin"); ("password", Js.Str "admin")])
        None resubscribed
      = (Ok (Routes.json (Routes.UserBody 1 "admin"), Some session),
         resubscribed)
      ∧ Routes.me (Some session) resubscribed
        = (Ok (Routes.json (Routes.UserBody 1 "admin"), Some session),
           resubscribed)
      ∧ Routes.logout (Some session) resubscribed
        = (Ok (Routes.json (Routes.Message "Logged out successfully"), None),
           resubscribed)
      ∧ Routes.me None resubscribed
        = (Ok (Routes.fail 401 "Not authenticated", None), resubscribed).
Proof.
  split; [apply reachable_resubscribed|].
  apply (session_round_trip offlineHost resubscribed), reachable_resubscribed.
Defined.

(** X2. A login whose body is not an object never succeeds, in any world:
    a missing body ([undefined], [null]) makes the destructuring throw,
    which the handler answers with 500; any other value that is not an
    object has no [username], and the answer is 401. The session and the
    world are left as they are. *)
Theorem login_without_object_body (body : Js.Value)
    (session : option Routes.Session.t) (w : World) :
  match body with
  | Js.Obj _ => True
  | Js.Undefined | Js.Null =>
      Routes.login body session w
      = (Ok (Routes.fail 500 "Login failed", session), w)
  | _ =>
      Routes.login body session w
      = (Ok (Routes.fail 401 "Invalid credentials", session), w)
  end.
Proof.
  destruct body; try done;
    unfold Routes.login, try_catch, bind, Routes.destructure, read_storage,
      MemStorage.getUserByUsername; simpl;
    by induction (JsMap.values (MemStorage.users (storage w))).
Qed.

(** ** Adding and removing subscribers *)


(** A string that the pattern rejects is stored all the same. *)
Example post_subscriber_rejected_by_pattern :
  WhatsAppService.validatePhoneNumber "call me" = Js.Resolved false
  ∧ (Routes.postWhatsappUser offlineHost
       (Js.Obj [("phoneNumber", Js.Str "call me")]) (initial 0)).1
    = Ok (Routes.json
            (Routes.WhatsappUserBody (WhatsappUser.mk 1 "call me" true 0))).
Proof. by split. Qed.

(** X4. A path parameter that [decodeURIComponent] rejects makes the
    handler that removes a subscriber answer 500, and nothing in the
    world changes. *)
Theorem delete_malformed_parameter_500 (host : Host) (w : World)
    (param : string) (e : Js.Error) :
  decodeURIComponent host param = Throw e →
  Routes.deleteWhatsappUser host param w
  = (Ok (Routes.fail 500 "Failed to remove WhatsApp user"), w).
Proof.
  intros Hdecode. unfold Routes.deleteWhatsappUser, try_catch, bind.
  by rewrite Hdecode.
Qed.

Lemma delete_malformed_parameter_500_witness :
  decodeURIComponent offlineHost "100%" = Throw (Js.URIError "URI malformed")
  ∧ Routes.deleteWhatsappUser offlineHost "100%" resubscribed
    = (Ok (Routes.fail 500 "Failed to remove WhatsApp user"), resubscribed).
Proof.
  split; [reflexivity|].
  by apply (delete_malformed_parameter_500 offlineHost resubscribed "100%"
              (Js.URIError "URI malformed")).
Defined.

(** ** Listing the signals *)

Section sort_facts.
Context {A : Type} (cmp : A → A → Z).

Lemma sort_insert_Permutation x l : Js.sort_insert cmp x l ≡ₚ x :: l.
Proof.
  induction l as [|y l IH]; simpl; [done|].
  destruct (0 <? cmp x y)%Z; [|done].
  rewrite IH. apply Permutation_swap.
Qed.

Lemma sort_Permutation l : Js.sort cmp l ≡ₚ l.
Proof.
  induction l as [|x l IH]; simpl; [done|].
  by rewrite sort_insert_Permutation, IH.
Qed.

(** The elements that a test selects keep their order, provided the
    comparator never puts an element after a later one that the test
    selects with it. *)
Lemma sort_insert_filter (p : A → bool) x l :
  (∀ y, p x = true → p y = true → (0 <? cmp x y)%Z = false) →
  List.filter p (Js.sort_insert cmp x l) = List.filter p (x :: l).
Proof.
  intros Hp. induction l as [|y l IH]; [done|].
  simpl in *. destruct (0 <? cmp x y)%Z eqn:Hcmp; [|done].
  simpl. rewrite IH.
  destruct (p x) eqn:Hx, (p y) eqn:Hy; try done.
  by rewrite (Hp y) in Hcmp.
Qed.

Lemma sort_filter (p : A → bool) l :
  (∀ x y, p x = true → p y = true → (0 <? cmp x y)%Z = false) →
  List.filter p (Js.sort cmp l) = List.filter p l.
Proof.
  intros Hp. induction l as [|x l IH]; [done|].
  simpl. rewrite sort_insert_filter by (intros; by apply Hp).
  simpl. by rewrite IH.
Qed.

End sort_facts.

Section sort_descending.
Context {A : Type} (key : A → Z).

Let cmp : A → A → Z := λ a b, (key b - key a)%Z.
Let newer_first : A → A → Prop := λ a b, (key b ≤ key a)%Z.

Lemma sort_insert_descending x l :
  StronglySorted newer_first l →
  StronglySorted newer_first (Js.sort_insert cmp x l).
Proof.
  induction 1 as [|y l Hl IH Hy]; simpl.
  - by repeat constructor.
  - unfold cmp at 1. destruct (0 <? key y - key x)%Z eqn:Hcmp.
    + constructor; [done|].
      rewrite sort_insert_Permutation. constructor; [|done].
      unfold newer_first. lia.
    + constructor; [by constructor|]. constructor; [unfold newer_first; lia|].
      eapply Forall_impl; [exact Hy|]. unfold newer_first. intros; simpl in *.
      lia.
Qed.

Lemma sort_descending l : StronglySorted newer_first (Js.sort cmp l).
Proof.
  induction l as [|x l IH]; simpl; [constructor|].
  by apply sort_insert_descending.
Qed.

End sort_descending.

(** X5. [GET /api/signals] answers with the active signals of the store,
    each once, the newest first; signals created at the same time stay in
    the order of their creation. The world is not touched. *)
Theorem getSignals_newest_first (w : World) :
  let active :=
    List.filter TradingSignal.isActive
      (JsMap.values (MemStorage.tradingSignals (storage w))) in
  ∃ listed,
    Routes.getSignals w = (Ok (Routes.Json listed), w)
    ∧ listed = MemStorage.getAllActiveSignals (storage w)
    ∧ listed ≡ₚ active
    ∧ StronglySorted
        (λ a b, (TradingSignal.createdAt b ≤ TradingSignal.createdAt a)%Z)
        listed
    ∧ ∀ t,
        List.filter (λ s, (TradingSignal.createdAt s =? t)%Z) listed
        = List.filter (λ s, (TradingSignal.createdAt s =? t)%Z) active.
Proof.
  cbv zeta. eexists. split; [reflexivity|]. split; [reflexivity|].
  unfold MemStorage.getAllActiveSignals. split_and!.
  - apply sort_Permutation.
  - apply (sort_descending TradingSignal.createdAt).
  - intros t. apply sort_filter. intros x y Hx Hy.
    apply Z.eqb_eq in Hx, Hy. apply Z.ltb_ge. lia.
Qed.

(** ** The dormant entities of the store: quotes, option legs, positions *)


Section JsMap_more.
Context {K V : Type} `{EqDecision K}.
Implicit Types (k : K) (v : V) (m : list (K * V)).

Lemma JsMap_get_None k m : JsMap.get k m = None ↔ k ∉ JsMap.keys m.
Proof.
  unfold JsMap.keys. induction m as [|[k' v'] m IH]; simpl.
  - split; [intros _; apply not_elem_of_nil | done].
  - rewrite not_elem_of_cons. destruct (decide (k' = k)) as [->|Hne].
    + split; [done | by intros [? _]].
    + rewrite IH. split; [by intros ? | by intros [_ ?]].
Qed.

(** [set] on a present key keeps the keys and their order; on an absent
    key it adds the key at the end. *)
Lemma JsMap_keys_set k v m :
  JsMap.keys (JsMap.set k v m)
  = if decide (k ∈ JsMap.keys m) then JsMap.keys m else JsMap.keys m ++ [k].
Proof.
  unfold JsMap.keys. induction m as [|[k' v'] m IH].
  - reflexivity.
  - cbn [JsMap.set]. destruct (decide (k' = k)) as [->|Hne].
    + rewrite !fmap_cons. cbn [fst]. rewrite decide_True; [done|].
      apply elem_of_cons. by left.
    + rewrite !fmap_cons, IH. cbn [fst].
      destruct (decide (k ∈ m.*1)) as [Hin|Hnotin].
      * rewrite decide_True; [done|]. apply elem_of_cons. by right.
      * rewrite decide_False; [done|]. apply not_elem_of_cons. by split.
Qed.

Lemma JsMap_set_same k v m : JsMap.get k m = Some v → JsMap.set k v m = m.
Proof.
  induction m as [|[k' v'] m IH]; simpl; [done|].
  destruct (decide (k' = k)) as [->|Hne]; [by intros [= ->]|].
  intros Hget. by rewrite IH.
Qed.

Lemma JsMap_keys_set_present k v m :
  is_Some (JsMap.get k m) → JsMap.keys (JsMap.set k v m) = JsMap.keys m.
Proof.
  intros Hsome. rewrite JsMap_keys_set.
  destruct (decide (k ∈ JsMap.keys m)) as [|Hnotin]; [done|].
  apply JsMap_get_None in Hnotin. rewrite Hnotin in Hsome. by destruct Hsome.
Qed.

Lemma JsMap_keys_set_absent k v m :
  JsMap.get k m = None → JsMap.keys (JsMap.set k v m) = JsMap.keys m ++ [k].
Proof.
  intros Hnone. rewrite JsMap_keys_set.
  apply JsMap_get_None in Hnone. by rewrite decide_False.
Qed.

End JsMap_more.

(** X6. A quote that is stored is the one read back for its symbol, and
    the quotes of the other symbols are as they were. The row of a symbol
    that was present keeps its place and is overwritten (the symbols, in
    order, are unchanged), a new symbol goes to the end; either way the
    row gets the next identifier. *)
Theorem updateMarketData_then_get (insertData : InsertMarketData.t) (t : Z)
    (st : MemStorage.t) :
  let r := MemStorage.updateMarketData insertData t st in
  let symbol := InsertMarketData.symbol insertData in
  MemStorage.getMarketData symbol r.2 = Some r.1
  ∧ MarketData.id r.1 = MemStorage.currentMarketDataId st
  ∧ MemStorage.currentMarketDataId r.2
    = Z.succ (MemStorage.currentMarketDataId st)
  ∧ (∀ other, other ≠ symbol →
       MemStorage.getMarketData other r.2 = MemStorage.getMarketData other st)
  ∧ JsMap.keys (MemStorage.marketData r.2)
    = match MemStorage.getMarketData symbol st with
      | Some _ => JsMap.keys (MemStorage.marketData st)
      | None => JsMap.keys (MemStorage.marketData st) ++ [symbol]
      end.
Proof.
  cbv zeta. destruct st; unfold MemStorage.getMarketData; simpl.
  split_and!; try done.
  - apply JsMap_get_set_eq.
  - intros other Hother. by apply JsMap_get_set_ne.
  - destruct (JsMap.get _ marketData) eqn:Hget.
    + by apply JsMap_keys_set_present.
    + by apply JsMap_keys_set_absent.
Qed.

(** X7. An update of a position that the store does not hold returns
    [undefined] and changes nothing. An update of a position it holds
    returns the merged record, which is then the one held under that
    identifier; the other positions are as they were, and an update
    without properties changes nothing. *)
Theorem updatePortfolioPosition_cases (id : Z)
    (updates : PartialPortfolioPosition.t) (st : MemStorage.t) :
  let r := MemStorage.updatePortfolioPosition id updates st in
  match JsMap.get id (MemStorage.portfolioPositions st) with
  | None => r = (None, st)
  | Some position =>
      r.1 = Some (PartialPortfolioPosition.assign position updates)
      ∧ JsMap.get id (MemStorage.portfolioPositions r.2) = r.1
      ∧ (∀ other, other ≠ id →
           JsMap.get other (MemStorage.portfolioPositions r.2)
           = JsMap.get other (MemStorage.portfolioPositions st))
      ∧ JsMap.keys (MemStorage.portfolioPositions r.2)
        = JsMap.keys (MemStorage.portfolioPositions st)
      ∧ (updates = PartialPortfolioPosition.empty → r.2 = st)
  end.
Proof.
  cbv zeta. unfold MemStorage.updatePortfolioPosition.
  destruct (JsMap.get id _) as [position|] eqn:Hget; [|done].
  destruct st; simpl in *. split_and!; try done.
  - by rewrite JsMap_get_set_eq.
  - intros other Hother. by apply JsMap_get_set_ne.
  - by apply JsMap_keys_set_present.
  - intros ->. unfold MemStorage.with_portfolioPositions; simpl.
    replace (PartialPortfolioPosition.assign position
               PartialPortfolioPosition.empty) with position
      by by destruct position.
    by rewrite JsMap_set_same.
Qed.

Lemma updateOptionsChain_other_fields insertData t st :
  let st' := (MemStorage.updateOptionsChain insertData t st).2 in
  MemStorage.users st' = MemStorage.users st
  ∧ MemStorage.whatsappUsers st' = MemStorage.whatsappUsers st
  ∧ MemStorage.tradingSignals st' = MemStorage.tradingSignals st
  ∧ MemStorage.portfolioPositions st' = MemStorage.portfolioPositions st
  ∧ MemStorage.marketData st' = MemStorage.marketData st.
Proof.
  cbv zeta. revert st. induction insertData as [|data rest IH]; intros st;
    [done|].
  cbn [MemStorage.updateOptionsChain].
  destruct (MemStorage.updateOptionsChain_one data t st) as [option st1] eqn:H1.
  specialize (IH st1).
  destruct (MemStorage.updateOptionsChain rest t st1) as [results st2].
  injection H1 as _ <-. destruct st. exact IH.
Qed.

Lemma updateOptionsChain_ids insertData t st :
  let r := MemStorage.updateOptionsChain insertData t st in
  List.map OptionsChain.id r.1
  = seqZ (MemStorage.currentOptionsChainId st) (Z.of_nat (length insertData))
  ∧ MemStorage.currentOptionsChainId r.2
    = (MemStorage.currentOptionsChainId st + Z.of_nat (length insertData))%Z.
Proof.
  cbv zeta. revert st. induction insertData as [|data rest IH]; intros st.
  - simpl. split; [done | lia].
  - cbn [MemStorage.updateOptionsChain].
    destruct (MemStorage.updateOptionsChain_one data t st)
      as [option st1] eqn:H1.
    specialize (IH st1).
    destruct (MemStorage.updateOptionsChain rest t st1) as [results st2].
    injection H1 as <- <-. destruct IH as [IHids IHnext].
    cbn [fst snd List.map length] in *.
    rewrite IHids, IHnext, Nat2Z.inj_succ. destruct st.
    cbn [MemStorage.with_optionsChain MemStorage.currentOptionsChainId
         OptionsChain.id].
    split; [|lia].
    rewrite (seqZ_cons _ (Z.succ _)) by lia.
    by rewrite Z.pred_succ.
Qed.

Lemma updateOptionsChain_frame insertData t st key :
  let r := MemStorage.updateOptionsChain insertData t st in
  Forall (λ option, leg_key option ≠ key) r.1 →
  JsMap.get key (MemStorage.optionsChain r.2)
  = JsMap.get key (MemStorage.optionsChain st).
Proof.
  cbv zeta. revert st. induction insertData as [|data rest IH]; intros st;
    [done|].
  cbn [MemStorage.updateOptionsChain].
  destruct (MemStorage.updateOptionsChain_one data t st)
    as [option st1] eqn:H1.
  specialize (IH st1).
  destruct (MemStorage.updateOptionsChain rest t st1) as [results st2].
  injection H1 as <- <-. simpl in *. intros Hall.
  apply Forall_cons in Hall as [Hhead Hrest].
  rewrite IH by done. destruct st; simpl.
  by apply JsMap_get_set_ne.
Qed.

(** X8. [updateOptionsChain] returns one leg for each leg given, in the
    order given, with consecutive identifiers from the next one on. A leg
    keeps the strike, the expiry, the volumes and the prices it was given,
    but a volume of zero and an empty price are stored as [null], like a
    missing one. A returned leg is the one held under its key of strike
    and expiry unless a later leg of the same call has the same key; the
    rest of the store is untouched. *)
Theorem updateOptionsChain_results (insertData : list InsertOptionsChain.t)
    (t : Z) (st : MemStorage.t) :
  let r := MemStorage.updateOptionsChain insertData t st in
  List.map OptionsChain.id r.1
  = seqZ (MemStorage.currentOptionsChainId st) (Z.of_nat (length insertData))
  ∧ MemStorage.currentOptionsChainId r.2
    = (MemStorage.currentOptionsChainId st + Z.of_nat (length insertData))%Z
  ∧ Forall2
      (λ data leg,
         let volume (given : option Z) : option Z :=
           match given with
           | Some 0%Z | None => None
           | Some n => Some n
           end in
         let price (given : option string) : option string :=
           match given with
           | Some EmptyString | None => None
           | Some s => Some s
           end in
         OptionsChain.strikePrice leg = InsertOptionsChain.strikePrice data
         ∧ OptionsChain.expiryDate leg = InsertOptionsChain.expiryDate data
         ∧ OptionsChain.lastUpdated leg = t
         ∧ OptionsChain.callVolume leg
           = volume (InsertOptionsChain.callVolume data)
         ∧ OptionsChain.putVolume leg
           = volume (InsertOptionsChain.putVolume data)
         ∧ OptionsChain.callLTP leg
           = price (InsertOptionsChain.callLTP data)
         ∧ OptionsChain.putLTP leg
           = price (InsertOptionsChain.putLTP data))
      insertData r.1
  ∧ (∀ i option,
       r.1 !! i = Some option →
       (∀ j later, (i < j)%nat → r.1 !! j = Some later →
          leg_key later ≠ leg_key option) →
       JsMap.get (leg_key option) (MemStorage.optionsChain r.2) = Some option)
  ∧ MemStorage.marketData r.2 = MemStorage.marketData st
  ∧ MemStorage.portfolioPositions r.2 = MemStorage.portfolioPositions st
  ∧ MemStorage.tradingSignals r.2 = MemStorage.tradingSignals st
  ∧ MemStorage.whatsappUsers r.2 = MemStorage.whatsappUsers st.
Proof.
  cbv zeta.
  destruct (updateOptionsChain_ids insertData t st) as [Hids Hnext].
  destruct (updateOptionsChain_other_fields insertData t st)
    as (_ & Hsubs & Hsignals & Hpositions & Hquotes).
  split_and!; try done.
  - clear. revert st. induction insertData as [|data rest IH]; intros st.
    + constructor.
    + cbn [MemStorage.updateOptionsChain].
      destruct (MemStorage.updateOptionsChain_one data t st)
        as [option st1] eqn:H1.
      specialize (IH st1).
      destruct (MemStorage.updateOptionsChain rest t st1) as [results st2].
      injection H1 as <- _. constructor; [|exact IH]. simpl.
      split_and!; try done.
      * by destruct (InsertOptionsChain.callVolume data) as [[| |]|].
      * by destruct (InsertOptionsChain.putVolume data) as [[| |]|].
      * by destruct (InsertOptionsChain.callLTP data) as [[|]|].
      * by destruct (InsertOptionsChain.putLTP data) as [[|]|].
  - clear. revert st. induction insertData as [|data rest IH];
      intros st i option; [done|].
    cbn [MemStorage.updateOptionsChain].
    destruct (MemStorage.updateOptionsChain_one data t st)
      as [first st1] eqn:H1.
    pose proof (updateOptionsChain_frame rest t st1) as Hframe.
    cbv zeta in Hframe. specialize (IH st1).
    destruct (MemStorage.updateOptionsChain rest t st1) as [results st2].
    cbn [fst snd] in *. destruct i as [|i]; intros Hi Hlater.
    + injection Hi as ->. rewrite Hframe.
      * injection H1 as <- <-. destruct st; simpl. apply JsMap_get_set_eq.
      * apply Forall_lookup. intros j later Hj.
        apply (Hlater (S j)); [lia | done].
    + apply IH with i; [done|].
      intros j later Hij Hj. apply (Hlater (S j)); [lia | done].
Qed.

(** ** Identifiers are allocated in order and never reused *)

Section filed_in_order_facts.
Context {V : Type} (id_of : V → Z).
Implicit Types (m : list (Z * V)) (next : Z).

Lemma filed_in_order_new m next v :
  filed_in_order id_of m next → id_of v = next →
  filed_in_order id_of (JsMap.set next v m) (Z.succ next).
Proof.
  intros (Hkeys & Hnext & Hids) Hv.
  assert (Hfresh : JsMap.get next m = None).
  { apply JsMap_get_None. rewrite Hkeys, elem_of_seqZ. lia. }
  split_and!; [|lia|].
  - rewrite JsMap_keys_set_absent, Hkeys by done.
    replace (Z.succ next - 1)%Z with ((next - 1) + 1)%Z by lia.
    rewrite seqZ_app by lia. f_equal.
    replace (1 + (next - 1))%Z with next by lia. done.
  - by apply JsMap_set_Forall.
Qed.

Lemma filed_in_order_set m next k v v' :
  filed_in_order id_of m next → JsMap.get k m = Some v → id_of v' = id_of v →
  filed_in_order id_of (JsMap.set k v' m) next.
Proof.
  intros (Hkeys & Hnext & Hids) Hget Hv. split_and!; [|done|].
  - by rewrite JsMap_keys_set_present.
  - apply JsMap_set_Forall; [done|]. simpl. rewrite Hv.
    apply JsMap_get_Some_elem_of in Hget.
    rewrite Forall_forall in Hids. by apply (Hids (k, v)).
Qed.

Lemma filed_in_order_insert m next i k v v' :
  filed_in_order id_of m next → m !! i = Some (k, v) → id_of v' = id_of v →
  filed_in_order id_of (<[i := (k, v')]> m) next.
Proof.
  intros (Hkeys & Hnext & Hids) Hi Hv. split_and!; [|done|].
  - by rewrite (keys_insert_same _ _ _ _ _ Hi).
  - apply Forall_insert; [done|]. simpl. rewrite Hv.
    rewrite Forall_lookup in Hids. by apply (Hids i (k, v)).
Qed.

(** A record that is held is held under its identifier, which lies below
    the next one; no two records share an identifier. *)
Lemma filed_in_order_lookup m next k v :
  filed_in_order id_of m next → (k, v) ∈ m →
  id_of v = k ∧ (1 ≤ k < next)%Z.
Proof.
  intros (Hkeys & Hnext & Hids) Hin. split.
  - rewrite Forall_forall in Hids. by apply (Hids (k, v)).
  - assert (Hk : k ∈ JsMap.keys m).
    { apply list_elem_of_fmap. by exists (k, v). }
    rewrite Hkeys, elem_of_seqZ in Hk. lia.
Qed.

Lemma filed_in_order_NoDup m next :
  filed_in_order id_of m next → NoDup (id_of <$> JsMap.values m).
Proof.
  intros (Hkeys & Hnext & Hids).
  replace (id_of <$> JsMap.values m) with (JsMap.keys m).
  - rewrite Hkeys. apply NoDup_seqZ.
  - unfold JsMap.keys, JsMap.values. clear Hkeys.
    induction Hids as [|[k v] m Hhead _ IH]; [done|].
    rewrite !fmap_cons. cbn [fst snd] in *. by rewrite IH, Hhead.
Qed.

End filed_in_order_facts.

Lemma identifiers_wf_new : identifiers_wf MemStorage.new.
Proof. split; (split_and!; [done | done | ]); by constructor. Qed.

Lemma identifiers_wf_reachable (host : Host) (w : World) :
  reachable host w → identifiers_wf (storage w).
Proof.
  apply (reachable_invariant host identifiers_wf);
    [| | | | exact identifiers_wf_new].
  - intros phoneNumber t st [Hsubs Hsignals]. destruct st.
    split; [|exact Hsignals]. by apply filed_in_order_new.
  - intros phoneNumber st [Hsubs Hsignals].
    unfold MemStorage.removeWhatsappUser.
    destruct (list_find _ _) as [[i [k user]]|] eqn:Hfind; [|done].
    apply list_find_Some in Hfind as (Hi & _ & _).
    destruct st. split; [|exact Hsignals].
    by apply (filed_in_order_insert _ _ _ _ _ user).
  - intros signal t st [Hsubs Hsignals]. destruct st.
    split; [exact Hsubs|]. by apply filed_in_order_new.
  - intros id st [Hsubs Hsignals].
    unfold MemStorage.updateSignalWhatsappSent.
    destruct (JsMap.get _ _) as [signal|] eqn:Hget; [|done].
    destruct st. split; [exact Hsubs|].
    by apply (filed_in_order_set _ _ _ _ signal).
Qed.

(** X9. In every reachable world the subscribers and the signals are
    filed under 1, 2, ... in the order of their creation, each under its
    own identifier, and the next identifier to allocate follows the last
    one: no request and no generation cycle removes a record, moves one
    or gives an identifier out twice. So a record that is held carries
    the identifier it is held under, which is below the next one, and the
    store holds as many records as identifiers were given out. *)
Theorem reachable_identifiers (host : Host) (w : World) :
  reachable host w →
  identifiers_wf (storage w)
  ∧ (∀ id user,
       JsMap.get id (MemStorage.whatsappUsers (storage w)) = Some user →
       WhatsappUser.id user = id
       ∧ (1 ≤ id < MemStorage.currentWhatsappUserId (storage w))%Z)
  ∧ (∀ id signal,
       JsMap.get id (MemStorage.tradingSignals (storage w)) = Some signal →
       TradingSignal.id signal = id
       ∧ (1 ≤ id < MemStorage.currentSignalId (storage w))%Z)
  ∧ Z.of_nat (length (MemStorage.whatsappUsers (storage w)))
    = (MemStorage.currentWhatsappUserId (storage w) - 1)%Z
  ∧ Z.of_nat (length (MemStorage.tradingSignals (storage w)))
    = (MemStorage.currentSignalId (storage w) - 1)%Z.
Proof.
  intros Hreach.
  pose proof (identifiers_wf_reachable host w Hreach) as Hwf.
  split; [exact Hwf|]. destruct Hwf as [Hsubs Hsignals]. split_and!.
  - intros id user Hget. apply JsMap_get_Some_elem_of in Hget.
    by apply (filed_in_order_lookup _ _ _ _ _ Hsubs).
  - intros id signal Hget. apply JsMap_get_Some_elem_of in Hget.
    by apply (filed_in_order_lookup _ _ _ _ _ Hsignals).
  - destruct Hsubs as (Hkeys & Hnext & _).
    apply (f_equal length) in Hkeys. unfold JsMap.keys in Hkeys.
    rewrite length_fmap, length_seqZ in Hkeys. lia.
  - destruct Hsignals as (Hkeys & Hnext & _).
    apply (f_equal length) in Hkeys. unfold JsMap.keys in Hkeys.
    rewrite length_fmap, length_seqZ in Hkeys. lia.
Qed.

Lemma reachable_identifiers_witness :
  identifiers_wf (storage resubscribed)
  ∧ (∀ id user,
       JsMap.get id (MemStorage.whatsappUsers (storage resubscribed))
       = Some user →
       WhatsappUser.id user = id
       ∧ (1 ≤ id < MemStorage.currentWhatsappUserId (storage resubscribed))%Z)
  ∧ (∀ id signal,
       JsMap.get id (MemStorage.tradingSignals (storage resubscribed))
       = Some signal →
       TradingSignal.id signal = id
       ∧ (1 ≤ id < MemStorage.currentSignalId (storage resubscribed))%Z)
  ∧ Z.of_nat (length (MemStorage.whatsappUsers (storage resubscribed)))
    = (MemStorage.currentWhatsappUserId (storage resubscribed) - 1)%Z
  ∧ Z.of_nat (length (MemStorage.tradingSignals (storage resubscribed)))
    = (MemStorage.currentSignalId (storage resubscribed) - 1)%Z.
Proof.
  apply (reachable_identifiers offlineHost). exact reachable_resubscribed.
Defined.

(** ** The flags of the stored signals *)

Lemma signals_wf_create signal t st :
  signals_wf st → signals_wf (MemStorage.createTradingSignal signal t st).2.
Proof.
  intros Hst. unfold signals_wf in *. destruct st; simpl in *.
  by apply JsMap_set_Forall.
Qed.

(** The flag may be set on a record of confidence 90 or more. *)
Lemma signals_wf_update id signal st :
  signals_wf st →
  JsMap.get id (MemStorage.tradingSignals st) = Some signal →
  (90 ≤ TradingSignal.confidence signal)%Z →
  signals_wf (MemStorage.updateSignalWhatsappSent id st).2.
Proof.
  intros Hst Hget Hhigh. unfold MemStorage.updateSignalWhatsappSent.
  rewrite Hget. unfold signals_wf in *.
  apply JsMap_get_Some_elem_of in Hget as Hin.
  rewrite Forall_forall in Hst. destruct (Hst _ Hin) as [Hactive _].
  rewrite <- Forall_forall in Hst.
  destruct st; simpl in *. apply JsMap_set_Forall; [done|].
  destruct signal; simpl in *. by split.
Qed.

Lemma signals_wf_handle host req session w :
  signals_wf (storage w) →
  signals_wf (storage (Routes.handle host req session w).2).
Proof.
  apply (invariant_handle host signals_wf); try done.
  intros phoneNumber st. unfold MemStorage.removeWhatsappUser.
  by destruct (list_find _ _) as [[i [k user]]|].
Qed.

(** No request writes a signal. *)
Lemma handle_tradingSignals host req session w :
  MemStorage.tradingSignals (storage (Routes.handle host req session w).2)
  = MemStorage.tradingSignals (storage w).
Proof.
  apply (invariant_handle host
           (λ st, MemStorage.tradingSignals st
                  = MemStorage.tradingSignals (storage w))); try done.
  - intros phoneNumber st. unfold MemStorage.removeWhatsappUser.
    by destruct (list_find _ _) as [[i [k user]]|].
Qed.

(** One iteration of the loop of a cycle: the flag is set, if at all, on
    the record that the iteration has created, of confidence 90 or more. *)
Lemma signals_wf_save_and_notify host signal w :
  signals_wf (storage w) →
  signals_wf (storage (AISignalsService.save_and_notify host signal w).2).
Proof.
  intros Hw. destruct (save_and_notify_returns host signal w) as (n & ->).
  cbn [snd storage]. unfold store_one, signals_wf in *.
  destruct (storage w); simpl in *. apply JsMap_set_Forall; [done|].
  split; [done|]. simpl. unfold high_confidence.
  intros Hsent. by apply Z.leb_le.
Qed.

Lemma store_all_signals_wf signals t st :
  signals_wf st → signals_wf (store_all signals t st).
Proof.
  revert st. induction signals as [|signal signals IH]; intros st Hst; [done|].
  rewrite store_all_cons. apply IH.
  unfold signals_wf in *. destruct st; simpl in *.
  apply JsMap_set_Forall; [done|].
  split; [done|]. simpl. unfold high_confidence.
  intros Hsent. by apply Z.leb_le.
Qed.

Lemma reachable_signals_wf host w :
  reachable host w → signals_wf (storage w).
Proof.
  induction 1 as [t|w req session _ IH|w _ IH| |]; try done.
  - by constructor.
  - by apply signals_wf_handle.
  - destruct (generateSignals_outcome host w)
      as (signals & _ & _ & -> & _).
    by apply store_all_signals_wf.
Qed.

(** X10. No step of the program deactivates a stored signal or marks as
    notified a signal of confidence below 90: not the creation of a
    signal, which gives the store as it is while the fan-out of the
    signal awaits the remote service; not the write of the flag of a
    record of confidence 90 or more; not an iteration of the loop of a
    cycle; not a request, which writes no signal at all. In any world
    whose signals are all active and marked only if their confidence is
    90 or more, in the middle of a fan-out as well as between cycles,
    [GET /api/signals] answers 200 with all the stored signals, of which
    the marked ones have a confidence of 90 or more. The worlds reached
    by whole requests and whole cycles are such worlds. The converse
    fails: a signal of confidence 90 or more is listed unmarked while its
    fan-out is running. *)
Theorem reachable_signal_flags (host : Host) (w : World) :
  (∀ signal t st,
     signals_wf st →
     signals_wf (MemStorage.createTradingSignal signal t st).2)
  ∧ (∀ id signal st,
       signals_wf st →
       JsMap.get id (MemStorage.tradingSignals st) = Some signal →
       (90 ≤ TradingSignal.confidence signal)%Z →
       signals_wf (MemStorage.updateSignalWhatsappSent id st).2)
  ∧ (∀ signal v,
       signals_wf (storage v) →
       signals_wf
         (storage (AISignalsService.save_and_notify host signal v).2))
  ∧ (∀ req session v,
       MemStorage.tradingSignals (storage (Routes.handle host req session v).2)
       = MemStorage.tradingSignals (storage v))
  ∧ (∀ v,
       signals_wf (storage v) →
       ∃ listed,
         Routes.getSignals v = (Ok (Routes.Json listed), v)
         ∧ listed ≡ₚ JsMap.values (MemStorage.tradingSignals (storage v))
         ∧ Forall (λ signal,
                     TradingSignal.whatsappSent signal = true →
                     (90 ≤ TradingSignal.confidence signal)%Z)
             listed)
  ∧ (reachable host w → signals_wf (storage w)).
Proof.
  split; [apply signals_wf_create|]. split; [apply signals_wf_update|].
  split; [apply signals_wf_save_and_notify|].
  split; [apply handle_tradingSignals|].
  split; [|apply reachable_signals_wf].
  clear w. intros w Hwf.
  exists (MemStorage.getAllActiveSignals (storage w)).
  assert (Hall : List.filter TradingSignal.isActive
                   (JsMap.values (MemStorage.tradingSignals (storage w)))
                 = JsMap.values (MemStorage.tradingSignals (storage w))).
  { unfold signals_wf, JsMap.values in *.
    induction Hwf as [|[id signal] m [Hactive _] _ IH]; [done|].
    rewrite fmap_cons. cbn [List.filter snd] in *.
    rewrite Hactive. f_equal. exact IH. }
  assert (Hlisted : MemStorage.getAllActiveSignals (storage w)
                    ≡ₚ JsMap.values (MemStorage.tradingSignals (storage w))).
  { unfold MemStorage.getAllActiveSignals. rewrite Hall.
    apply sort_Permutation. }
  split_and!; [done | exact Hlisted |].
  rewrite Hlisted. unfold signals_wf, JsMap.values in *.
  apply Forall_fmap. eapply Forall_impl; [exact Hwf|].
  by intros [id signal] [_ Hflag].
Qed.

(** After a cycle from the constructed store, and in the middle of the
    fan-out of a signal of confidence 95: the signal is listed, not yet
    marked. *)
Lemma reachable_signal_flags_witness :
  let w := (AISignalsService.generateSignals offlineHost (initial 0)).2 in
  let pending :=
    InsertTradingSignal.mk "CALL" "19900" "120.00" "40.00" 95 "Reason."
      0 true false in
  let v := (AISignalsService.createTradingSignal pending w).2 in
  signals_wf (storage w)
  ∧ signals_wf (storage v)
  ∧ (∃ listed,
       Routes.getSignals v = (Ok (Routes.Json listed), v)
       ∧ listed ≡ₚ JsMap.values (MemStorage.tradingSignals (storage v))
       ∧ Forall (λ signal,
                   TradingSignal.whatsappSent signal = true →
                   (90 ≤ TradingSignal.confidence signal)%Z)
           listed)
  ∧ List.map (λ signal, (TradingSignal.confidence signal,
                         TradingSignal.whatsappSent signal))
      (MemStorage.getAllActiveSignals (storage v))
    = [(98, true); (85, false); (98, true); (95, false)].
Proof.
  intros w pending v.
  pose proof (reachable_signal_flags offlineHost w)
    as (Hcreate & _ & _ & _ & Hlisted & Hreach).
  assert (Hw : signals_wf (storage w))
    by apply Hreach, reach_cycle, reach_initial.
  assert (Hv : signals_wf (storage v))
    by apply (Hcreate pending (now w) (storage w) Hw).
  split; [exact Hw|]. split; [exact Hv|].
  split; [by apply Hlisted | by vm_compute].
Defined.

(** ** Positions, quotes and option legs are never written *)

(** X11. In every reachable world the store holds no position, no quote
    and no option leg: the requests and the generation cycles never call
    the methods that write them. So [GET /api/portfolio/positions]
    answers with the empty list, and [GET /api/portfolio/summary] with no
    position and the two sums at their initial value, whatever the
    arithmetic of the host. *)
Theorem reachable_dormant (host : Host) (w : World) :
  reachable host w →
  dormant (storage w)
  ∧ Routes.getPortfolioPositions w = (Ok (Routes.Json []), w)
  ∧ ∀ arith,
      Routes.getPortfolioSummary arith w
      = (Ok (Routes.Json
               (Routes.PortfolioSummary.mk
                  (toFixed arith (literal arith 0))
                  (toFixed arith (literal arith 0))
                  0 [])), w).
Proof.
  intros Hreach.
  assert (Hdormant : dormant (storage w)).
  { revert Hreach. apply (reachable_invariant host dormant); try done.
    - intros phoneNumber st. unfold MemStorage.removeWhatsappUser.
      destruct (list_find _ _) as [[i [k user]]|]; [|done]. by destruct st.
    - intros id st. unfold MemStorage.updateSignalWhatsappSent.
      destruct (JsMap.get _ _); [|done]. by destruct st. }
  split; [exact Hdormant|]. destruct Hdormant as (Hpositions & _).
  unfold Routes.getPortfolioPositions, Routes.getPortfolioSummary,
    try_catch, bind, read_storage, MemStorage.getAllPortfolioPositions.
  rewrite Hpositions. split; [reflexivity|]. intros arith. reflexivity.
Qed.

Lemma reachable_dormant_witness :
  dormant (storage resubscribed)
  ∧ Routes.getPortfolioPositions resubscribed
    = (Ok (Routes.Json []), resubscribed)
  ∧ ∀ arith,
      Routes.getPortfolioSummary arith resubscribed
      = (Ok (Routes.Json
               (Routes.PortfolioSummary.mk
                  (toFixed arith (literal arith 0))
                  (toFixed arith (literal arith 0))
                  0 [])), resubscribed).
Proof.
  apply (reachable_dormant offlineHost). exact reachable_resubscribed.
Defined.

(** ** The index quote and the market overview *)

(** What [getNiftyQuote] returns: without credentials the mock quote, and
    no request is made; with credentials the body of an ok response, and
    the mock quote when the call fails in any way. Only the count of the
    requests moves. *)
Lemma getNiftyQuote_returns host w :
  let url := (ZerodhaConfig.baseUrl (zerodhaEnv host)
              ++ "/quote?i=NSE:NIFTY 50")%string in
  let auth := ("token " ++ ZerodhaConfig.apiKey (zerodhaEnv host) ++ ":"
               ++ ZerodhaConfig.accessToken (zerodhaEnv host))%string in
  ZerodhaService.getNiftyQuote host w
  = if zerodha_credentials_absent host
    then (Ok (Some ZerodhaService.mock_quote), w)
    else (Ok match zerodhaFetch host (fetches w) url auth with
             | Response true _ (Ok data) => data
             | _ => Some ZerodhaService.mock_quote
             end,
          mkWorld (storage w) (trace w) (draws w) (S (fetches w)) (now w)).
Proof.
  cbv zeta.
  assert (Hmock : ∀ w', ZerodhaService.getMockData host
                          "/quote?i=NSE:NIFTY 50" w'
                        = (Ok ZerodhaService.mock_quote, w'))
    by exact (getMockData_quote host "NSE:NIFTY 50").
  unfold ZerodhaService.getNiftyQuote, ZerodhaService.makeRequest.
  fold (zerodha_credentials_absent host).
  destruct (zerodha_credentials_absent host).
  - unfold bind. by rewrite Hmock.
  - unfold try_catch, await_fetch, bind at 1, next_fetch.
    cbn [fetches fst snd].
    destruct (zerodhaFetch host (fetches w) _ _) as [e | [] status [data|e]];
      cbn [negb fst snd]; unfold throw, ret, bind;
      try rewrite Hmock; reflexivity.
Qed.



(** ** The pattern of a phone number *)

Lemma list_ascii_of_string_of_list l :
  list_ascii_of_string (string_of_list_ascii l) = l.
Proof. induction l as [|c l IH]; simpl; [done | by rewrite IH]. Qed.

Lemma filter_filter_same {A} (p : A → bool) (l : list A) :
  List.filter p (List.filter p l) = List.filter p l.
Proof.
  induction l as [|x l IH]; [done|]. simpl.
  destruct (p x) eqn:Hp; [|done]. simpl. by rewrite Hp, IH.
Qed.

Lemma strip_non_digits_idempotent s :
  Js.strip_non_digits (Js.strip_non_digits s) = Js.strip_non_digits s.
Proof.
  unfold Js.strip_non_digits, Js.filter_chars.
  by rewrite list_ascii_of_string_of_list, filter_filter_same.
Qed.

(** A string of digits does not start with a plus sign. *)
Lemma strip_non_digits_no_plus s :
  String.prefix "+91" (Js.strip_non_digits s) = false.
Proof.
  unfold Js.strip_non_digits, Js.filter_chars.
  induction (list_ascii_of_string s) as [|c l IH]; [done|].
  cbn [List.filter]. destruct (Js.is_digit c) eqn:Hc; [|exact IH].
  cbn [string_of_list_ascii String.prefix].
  destruct (Ascii.ascii_dec "+" c) as [<-|Hne]; [done|].
  reflexivity.
Qed.


Example validatePhoneNumber_examples :
  WhatsAppService.validatePhoneNumber "+91 98765-43210" = Js.Resolved true
  ∧ WhatsAppService.validatePhoneNumber "call 9876543210 now"
    = Js.Resolved true
  ∧ WhatsAppService.validatePhoneNumber "5876543210" = Js.Resolved false
  ∧ WhatsAppService.validatePhoneNumber "+1 9876543210" = Js.Resolved false.
Proof. by split_and!. Qed.

(** ** Expiry dates *)

Section fixed_offset_zone.
Context (host : Host) (offset : Z) (Hzone : fixed_offset host offset).

Lemma LocalTime_fixed t : JsDate.LocalTime (localTZA host) t = (t + offset)%Z.
Proof. unfold JsDate.LocalTime. by rewrite Hzone. Qed.

Lemma UTC_fixed t : JsDate.UTC (localTZA host) t = (t - offset)%Z.
Proof. unfold JsDate.UTC. by rewrite Hzone. Qed.

Lemma LocalTime_addDays n t :
  JsDate.LocalTime (localTZA host) (JsDate.addDays (localTZA host) n t)
  = (JsDate.LocalTime (localTZA host) t + n * JsDate.msPerDay)%Z.
Proof.
  unfold JsDate.addDays. rewrite UTC_fixed, !LocalTime_fixed. lia.
Qed.

Lemma LocalTime_setHours h m t :
  JsDate.LocalTime (localTZA host) (JsDate.setHours (localTZA host) h m t)
  = (JsDate.dayNumber (JsDate.LocalTime (localTZA host) t) * JsDate.msPerDay
     + (h * 60 + m) * 60000)%Z.
Proof.
  unfold JsDate.setHours. rewrite UTC_fixed, !LocalTime_fixed. lia.
Qed.

(** The local time that [setHours] gives to a date moved by some days. *)
Lemma LocalTime_setHours_addDays h m n t :
  JsDate.LocalTime (localTZA host)
    (JsDate.setHours (localTZA host) h m (JsDate.addDays (localTZA host) n t))
  = ((JsDate.dayNumber (JsDate.LocalTime (localTZA host) t) + n)
     * JsDate.msPerDay + (h * 60 + m) * 60000)%Z.
Proof.
  rewrite LocalTime_setHours, LocalTime_addDays.
  unfold JsDate.dayNumber, JsDate.msPerDay. by rewrite Z.div_add.
Qed.

End fixed_offset_zone.

Lemma dayNumber_add_days n t :
  JsDate.dayNumber (t + n * JsDate.msPerDay) = (JsDate.dayNumber t + n)%Z.
Proof. unfold JsDate.dayNumber, JsDate.msPerDay. by rewrite Z.div_add. Qed.

Lemma dayNumber_at_time dn ms :
  (0 ≤ ms < JsDate.msPerDay)%Z →
  JsDate.dayNumber (dn * JsDate.msPerDay + ms) = dn.
Proof.
  unfold JsDate.dayNumber, JsDate.msPerDay. intros Hrange.
  rewrite Z.add_comm, Z.div_add by done.
  rewrite Z.div_small by done. lia.
Qed.

(** The days that [getNextThursday] adds to a day of number [dn]. *)
Lemma days_until_thursday (dn : Z) :
  let d := ((4 - (dn + 4) mod 7 + 7) mod 7)%Z in
  let days := (if (d =? 0)%Z then 7 else d)%Z in
  (1 ≤ days ≤ 7)%Z
  ∧ ((dn + days + 4) mod 7 = 4)%Z
  ∧ (if ((dn + 4) mod 7 =? 4)%Z then days = 7
     else days = (4 - (dn + 4) mod 7) mod 7)%Z.
Proof.
  cbv zeta.
  destruct (Z.eqb_spec ((dn + 4) mod 7) 4) as [H4|H4];
    destruct (Z.eqb_spec ((4 - (dn + 4) mod 7 + 7) mod 7) 0) as [Hz|Hz];
    revert H4 Hz; Z.div_mod_to_equations; lia.
Qed.

(** X15. In a time zone whose offset from UTC never changes, the expiry
    of a generated signal is, in local time, a Thursday at 15:30, one to
    seven days after the day of the call, and so later than the call; on
    a local Thursday it is the Thursday of the week after, also before
    15:30. *)
Theorem getNextThursday_is_a_later_thursday (host : Host) (offset : Z)
    (w : World) :
  fixed_offset host offset →
  let local := JsDate.LocalTime (localTZA host) in
  ∃ expiry,
    AISignalsService.getNextThursday host w = (Ok expiry, w)
    ∧ JsDate.getDay (localTZA host) expiry = 4%Z
    ∧ (local expiry mod JsDate.msPerDay = (15 * 60 + 30) * 60000)%Z
    ∧ (1 ≤ JsDate.dayNumber (local expiry) - JsDate.dayNumber (local (now w))
       ≤ 7)%Z
    ∧ (now w < expiry)%Z
    ∧ (if (JsDate.getDay (localTZA host) (now w) =? 4)%Z
       then JsDate.dayNumber (local expiry)
            = JsDate.dayNumber (local (now w)) + 7
       else JsDate.dayNumber (local expiry) - JsDate.dayNumber (local (now w))
            = (4 - JsDate.getDay (localTZA host) (now w)) mod 7)%Z.
Proof.
  intros Hzone local. eexists. split; [reflexivity|].
  set (today := now w).
  assert (Hlocal : ∀ t, local t = (t + offset)%Z)
    by apply (LocalTime_fixed host offset Hzone).
  unfold JsDate.getDay, JsDate.weekDay.
  change (JsDate.LocalTime (localTZA host)) with local.
  destruct (days_until_thursday (JsDate.dayNumber (local today)))
    as (Hdays & Hthursday & Hweek).
  set (days := if ((4 - (JsDate.dayNumber (local today) + 4) mod 7 + 7) mod 7
                   =? 0)%Z
               then 7%Z
               else ((4 - (JsDate.dayNumber (local today) + 4) mod 7 + 7)
                     mod 7)%Z) in *.
  assert (Hexpiry : local (JsDate.setHours (localTZA host) 15 30
                             (JsDate.addDays (localTZA host) days today))
                    = ((JsDate.dayNumber (local today) + days)
                       * JsDate.msPerDay + (15 * 60 + 30) * 60000)%Z).
  { apply (LocalTime_setHours_addDays host offset Hzone). }
  assert (Hday : JsDate.dayNumber
                   (local (JsDate.setHours (localTZA host) 15 30
                             (JsDate.addDays (localTZA host) days today)))
                 = (JsDate.dayNumber (local today) + days)%Z).
  { rewrite Hexpiry. apply dayNumber_at_time. unfold JsDate.msPerDay. lia. }
  rewrite Hday.
  split; [exact Hthursday|]. split.
  { rewrite Hexpiry. unfold JsDate.msPerDay.
    rewrite Z.add_comm, Z.mod_add by done. by apply Z.mod_small. }
  split; [lia|]. split.
  { apply (Z.add_lt_mono_r _ _ offset). rewrite <- !Hlocal, Hexpiry.
    unfold JsDate.dayNumber, JsDate.msPerDay in *.
    pose proof (Z.div_mod (local today) 86400000).
    pose proof (Z.mod_pos_bound (local today) 86400000). nia. }
  destruct (_ =? 4)%Z; lia.
Qed.

(** In Asia/Kolkata, on Wednesday 4 November 2026 at 20:00 UTC, which is
    Thursday 5 November there, the expiry is Thursday 12 November at 10:00
    UTC, 15:30 local time. *)
Lemma getNextThursday_is_a_later_thursday_witness :
  let w := initial 1793822400000 in
  let local := JsDate.LocalTime (localTZA kolkataHost) in
  ∃ expiry,
    AISignalsService.getNextThursday kolkataHost w = (Ok expiry, w)
    ∧ expiry = 1794477600000%Z
    ∧ JsDate.getDay (localTZA kolkataHost) expiry = 4%Z
    ∧ (local expiry mod JsDate.msPerDay = (15 * 60 + 30) * 60000)%Z
    ∧ (1 ≤ JsDate.dayNumber (local expiry) - JsDate.dayNumber (local (now w))
       ≤ 7)%Z
    ∧ (now w < expiry)%Z
    ∧ (if (JsDate.getDay (localTZA kolkataHost) (now w) =? 4)%Z
       then JsDate.dayNumber (local expiry)
            = JsDate.dayNumber (local (now w)) + 7
       else JsDate.dayNumber (local expiry) - JsDate.dayNumber (local (now w))
            = (4 - JsDate.getDay (localTZA kolkataHost) (now w)) mod 7)%Z.
Proof.
  intros w local.
  destruct (getNextThursday_is_a_later_thursday kolkataHost 19800000 w)
    as (expiry & Hrun & Hrest); [by intros t isUTC|].
  exists expiry. split; [exact Hrun|]. split; [|exact Hrest].
  assert (Hvalue : AISignalsService.getNextThursday kolkataHost w
                   = (Ok 1794477600000%Z, w)) by (vm_compute; reflexivity).
  rewrite Hvalue in Hrun. by injection Hrun as <-.
Defined.

(** The month and the day of the month of a date are in range. *)
Lemma civil_bounds (dn : Z) :
  (1 ≤ (JsDate.civil dn).1.2 ≤ 12)%Z ∧ (1 ≤ (JsDate.civil dn).2 ≤ 31)%Z.
Proof.
  unfold JsDate.civil. cbv zeta. cbn [fst snd].
  set (z := (dn + 719468)%Z).
  set (era := (z / 146097)%Z).
  set (doe := (z - era * 146097)%Z).
  assert (Hdoe : (0 ≤ doe < 146097)%Z).
  { subst doe era. pose proof (Z.div_mod z 146097).
    pose proof (Z.mod_pos_bound z 146097). lia. }
  clearbody doe. clear z era.
  set (yoe := ((doe - doe / 1460 + doe / 36524 - doe / 146096) / 365)%Z).
  set (doy := (doe - (365 * yoe + yoe / 4 - yoe / 100))%Z).
  assert (Hdoy : (0 ≤ doy ≤ 365)%Z).
  { subst doy yoe. Z.div_mod_to_equations. lia. }
  clearbody doy. clear yoe.
  set (mp := ((5 * doy + 2) / 153)%Z).
  assert (Hmp : (0 ≤ mp ≤ 11)%Z).
  { subst mp. Z.div_mod_to_equations. lia. }
  split.
  - destruct (Z.ltb_spec mp 10); lia.
  - subst mp. Z.div_mod_to_equations. lia.
Qed.

(** A number from 1 to 31, padded, has two characters. *)
Lemma padStart2_length (n : Z) :
  (1 ≤ n ≤ 31)%Z → String.length (Js.padStart2 (Js.show n)) = 2%nat.
Proof.
  intros Hn. assert (Hk : ∃ k : nat, n = Z.of_nat k ∧ (k ≤ 31)%nat).
  { exists (Z.to_nat n). lia. }
  destruct Hk as (k & -> & Hk).
  do 32 (destruct k as [|k]; [by vm_compute|]). lia.
Qed.

Lemma string_length_app (s s' : string) :
  String.length (s ++ s') = (String.length s + String.length s')%nat.
Proof. induction s as [|c s IH]; simpl; [done | by rewrite IH]. Qed.

(** X16. In a time zone whose offset from UTC never changes, the expiry
    in the name of an option instrument is the Thursday of the local week
    of the call, the week starting on Sunday, written as four characters,
    month then day. From Sunday to Wednesday it is the day on which the
    generated signals expire; from Thursday to Saturday it is a week
    before that day, and on Friday and Saturday it is a day that has
    passed. *)
Theorem getExpiryString_is_this_week (host : Host) (offset : Z) (w : World) :
  fixed_offset host offset →
  let local := JsDate.LocalTime (localTZA host) in
  let getDay := JsDate.getDay (localTZA host) in
  ∃ thursday expiry,
    ZerodhaService.getExpiryString host w
    = (Ok (Js.padStart2
             (Js.show (JsDate.getMonth (localTZA host) thursday + 1))
           ++ Js.padStart2
                (Js.show (JsDate.getDate (localTZA host) thursday)))%string,
       w)
    ∧ String.length
        (Js.padStart2 (Js.show (JsDate.getMonth (localTZA host) thursday + 1))
         ++ Js.padStart2
              (Js.show (JsDate.getDate (localTZA host) thursday)))%string
      = 4%nat
    ∧ getDay thursday = 4%Z
    ∧ (JsDate.dayNumber (local thursday) - JsDate.dayNumber (local (now w))
       = 4 - getDay (now w))%Z
    ∧ (0 ≤ getDay (now w) ≤ 6)%Z
    ∧ AISignalsService.getNextThursday host w = (Ok expiry, w)
    ∧ (JsDate.dayNumber (local expiry) - JsDate.dayNumber (local thursday)
       = if (getDay (now w) <? 4)%Z then 0 else 7)%Z.
Proof.
  intros Hzone local getDay.
  exists (JsDate.addDays (localTZA host) (4 - getDay (now w)) (now w)).
  eexists. split; [reflexivity|]. split.
  { rewrite string_length_app. unfold JsDate.getMonth, JsDate.getDate.
    match goal with
    | |- context [JsDate.civil ?dn] =>
        destruct (civil_bounds dn) as [Hmonth Hdate]
    end.
    rewrite !padStart2_length; [done | done | lia]. }
  assert (Hthursday : JsDate.dayNumber
                        (local (JsDate.addDays (localTZA host)
                                  (4 - getDay (now w)) (now w)))
                      = (JsDate.dayNumber (local (now w))
                         + (4 - getDay (now w)))%Z).
  { unfold local. rewrite (LocalTime_addDays host offset Hzone).
    apply dayNumber_add_days. }
  assert (Hday : (0 ≤ getDay (now w) ≤ 6)%Z).
  { unfold getDay, JsDate.getDay, JsDate.weekDay.
    match goal with
    | |- (0 ≤ ?a mod 7 ≤ 6)%Z => pose proof (Z.mod_pos_bound a 7)
    end.
    lia. }
  split.
  { unfold getDay at 1, JsDate.getDay, JsDate.weekDay.
    change (JsDate.LocalTime (localTZA host)) with local.
    rewrite Hthursday. unfold getDay, JsDate.getDay, JsDate.weekDay.
    change (JsDate.LocalTime (localTZA host)) with local.
    generalize (JsDate.dayNumber (local (now w))). intros dn.
    Z.div_mod_to_equations. lia. }
  rewrite Hthursday.
  split; [lia|]. split; [exact Hday|]. split; [reflexivity|].
  unfold local at 1.
  rewrite (LocalTime_setHours_addDays host offset Hzone).
  rewrite dayNumber_at_time by (unfold JsDate.msPerDay; lia).
  change (JsDate.LocalTime (localTZA host)) with local.
  destruct (days_until_thursday (JsDate.dayNumber (local (now w))))
    as (_ & _ & Hweek).
  change ((JsDate.dayNumber (local (now w)) + 4) mod 7)%Z
    with (getDay (now w)) in *.
  change (JsDate.getDay (localTZA host)) with getDay.
  destruct (Z.eqb_spec (getDay (now w)) 4) as [H4|H4];
    destruct (Z.ltb_spec (getDay (now w)) 4) as [Hlt|Hge];
    rewrite Hweek; try lia.
  - rewrite Z.mod_small; lia.
  - replace ((4 - getDay (now w)) mod 7)%Z
      with (4 - getDay (now w) + 7)%Z; [lia|].
    Z.div_mod_to_equations. lia.
Qed.

(** In Asia/Kolkata, on Friday 6 November 2026 at 20:00 UTC, which is
    Saturday 7 November there, the instruments are named after Thursday
    5 November, and the signals expire a week later. *)
Lemma getExpiryString_is_this_week_witness :
  let w := initial 1793995200000 in
  let local := JsDate.LocalTime (localTZA kolkataHost) in
  let getDay := JsDate.getDay (localTZA kolkataHost) in
  ZerodhaService.getExpiryString kolkataHost w = (Ok "1105", w)
  ∧ getDay (now w) = 6%Z
  ∧ ∃ thursday expiry,
      ZerodhaService.getExpiryString kolkataHost w
      = (Ok (Js.padStart2
               (Js.show (JsDate.getMonth (localTZA kolkataHost) thursday + 1))
             ++ Js.padStart2
                  (Js.show (JsDate.getDate (localTZA kolkataHost) thursday)))%string,
         w)
      ∧ String.length
          (Js.padStart2
             (Js.show (JsDate.getMonth (localTZA kolkataHost) thursday + 1))
           ++ Js.padStart2
                (Js.show (JsDate.getDate (localTZA kolkataHost) thursday)))%string
        = 4%nat
      ∧ getDay thursday = 4%Z
      ∧ (JsDate.dayNumber (local thursday) - JsDate.dayNumber (local (now w))
         = 4 - getDay (now w))%Z
      ∧ (0 ≤ getDay (now w) ≤ 6)%Z
      ∧ AISignalsService.getNextThursday kolkataHost w = (Ok expiry, w)
      ∧ (JsDate.dayNumber (local expiry) - JsDate.dayNumber (local thursday)
         = if (getDay (now w) <? 4)%Z then 0 else 7)%Z.
Proof.
  intros w local getDay.
  split; [vm_compute; reflexivity|]. split; [vm_compute; reflexivity|].
  apply (getExpiryString_is_this_week kolkataHost 19800000 w).
  by intros t isUTC.
Defined.

(** ** The analysis of the generator *)

Lemma offlineHost_unit_draws : unit_draws offlineHost.
Proof.
  intros n. simpl. unfold example_draw.
  destruct (bool_decide _); split; by vm_compute.
Qed.

Lemma gt_true x y : Js.gt x y = true ↔ (y < x)%Q.
Proof.
  unfold Js.gt. destruct (Qlt_le_dec y x) as [Hlt|Hle].
  - by split.
  - split; [done|]. intros Hlt. exfalso. by apply (Qlt_not_le _ _ Hlt).
Qed.

(** X17. With draws in [0, 1), the indicators that the generator computes
    have an RSI between 45 and 65 and a volatility between 15 and 25, so
    the analysis of them never finds a bearish trend: its test [rsi < 45]
    cannot hold. The trend is bullish, with a strength between 60 and 90
    and a momentum between 55 and 80, or sideways, with both between 40
    and 60. The bounds are closed: the sums are exact here, and the
    floating-point sums of the code can round up to the upper bound, not
    beyond it. *)
Theorem computed_trend_is_never_bearish (host : Host)
    (marketData : option (list (string * ZerodhaQuote.t)))
    (indicators : TechnicalIndicators.t) (conditions : MarketConditions.t)
    (w w1 w2 w3 : World) :
  unit_draws host →
  AISignalsService.calculateTechnicalIndicators host marketData w
  = (Ok indicators, w1) →
  AISignalsService.analyzeMarketConditions host indicators w2
  = (Ok conditions, w3) →
  (45 <= TechnicalIndicators.rsi indicators)%Q
  ∧ (TechnicalIndicators.rsi indicators <= 65)%Q
  ∧ (15 <= TechnicalIndicators.volatility indicators)%Q
  ∧ (TechnicalIndicators.volatility indicators <= 25)%Q
  ∧ match MarketConditions.trend conditions with
    | bullish =>
        (55 < TechnicalIndicators.rsi indicators)%Q
        ∧ (TechnicalIndicators.sma50 indicators
           < TechnicalIndicators.sma20 indicators)%Q
        ∧ (60 <= MarketConditions.strength conditions)%Q
        ∧ (MarketConditions.strength conditions <= 90)%Q
        ∧ (55 <= MarketConditions.momentum conditions)%Q
        ∧ (MarketConditions.momentum conditions <= 80)%Q
    | bearish => False
    | sideways =>
        (40 <= MarketConditions.strength conditions)%Q
        ∧ (MarketConditions.strength conditions <= 60)%Q
        ∧ (40 <= MarketConditions.momentum conditions)%Q
        ∧ (MarketConditions.momentum conditions <= 60)%Q
    end.
Proof.
  intros Hdraws Hcalc Hanalyze.
  assert (Hrsi : (45 <= TechnicalIndicators.rsi indicators)%Q
                 ∧ (TechnicalIndicators.rsi indicators <= 65)%Q
                 ∧ (15 <= TechnicalIndicators.volatility indicators)%Q
                 ∧ (TechnicalIndicators.volatility indicators <= 25)%Q).
  { unfold AISignalsService.calculateTechnicalIndicators in Hcalc.
    destruct marketData as [fields|]; [|done].
    unfold bind, AISignalsService.first_value, ret, Math_random in Hcalc.
    cbn [fst snd draws] in Hcalc. injection Hcalc as <- _.
    cbn [TechnicalIndicators.rsi TechnicalIndicators.volatility].
    destruct (Hdraws (draws w)) as [Hlo1 Hhi1].
    destruct (Hdraws (S (S (S (draws w))))) as [Hlo4 Hhi4].
    split_and!; lra. }
  destruct Hrsi as (Hrsi_lo & Hrsi_hi & Hvol_lo & Hvol_hi).
  split_and!; try done.
  unfold AISignalsService.analyzeMarketConditions in Hanalyze.
  destruct (Hdraws (draws w2)) as [Hlo1 Hhi1].
  destruct (Hdraws (S (draws w2))) as [Hlo2 Hhi2].
  destruct (Js.gt (TechnicalIndicators.rsi indicators) 55
            && Js.gt (TechnicalIndicators.sma20 indicators)
                 (TechnicalIndicators.sma50 indicators)) eqn:Hbull.
  - apply andb_true_iff in Hbull as [Hgt Hsma].
    apply gt_true in Hgt, Hsma.
    unfold bind, ret, Math_random in Hanalyze. cbn [fst snd draws] in Hanalyze.
    injection Hanalyze as <- _. cbn.
    split_and!; try done; lra.
  - destruct (Js.lt (TechnicalIndicators.rsi indicators) 45
              && Js.lt (TechnicalIndicators.sma20 indicators)
                   (TechnicalIndicators.sma50 indicators)) eqn:Hbear.
    + apply andb_true_iff in Hbear as [Hlt _].
      apply gt_true in Hlt. lra.
    + unfold bind, ret, Math_random in Hanalyze.
      cbn [fst snd draws] in Hanalyze.
      injection Hanalyze as <- _. cbn.
      split_and!; lra.
Qed.

Lemma computed_trend_is_never_bearish_witness :
  let w1 := mkWorld MemStorage.new [] 4 0 0 in
  let w3 := mkWorld MemStorage.new [] 6 0 0 in
  ∃ indicators conditions,
    AISignalsService.calculateTechnicalIndicators offlineHost
      (Some ZerodhaService.mock_quote) (initial 0) = (Ok indicators, w1)
    ∧ AISignalsService.analyzeMarketConditions offlineHost indicators w1
      = (Ok conditions, w3)
    ∧ MarketConditions.trend conditions = bullish
    ∧ (45 <= TechnicalIndicators.rsi indicators)%Q
    ∧ (TechnicalIndicators.rsi indicators <= 65)%Q
    ∧ (15 <= TechnicalIndicators.volatility indicators)%Q
    ∧ (TechnicalIndicators.volatility indicators <= 25)%Q
    ∧ match MarketConditions.trend conditions with
      | bullish =>
          (55 < TechnicalIndicators.rsi indicators)%Q
          ∧ (TechnicalIndicators.sma50 indicators
             < TechnicalIndicators.sma20 indicators)%Q
          ∧ (60 <= MarketConditions.strength conditions)%Q
          ∧ (MarketConditions.strength conditions <= 90)%Q
          ∧ (55 <= MarketConditions.momentum conditions)%Q
          ∧ (MarketConditions.momentum conditions <= 80)%Q
      | bearish => False
      | sideways =>
          (40 <= MarketConditions.strength conditions)%Q
          ∧ (MarketConditions.strength conditions <= 60)%Q
          ∧ (40 <= MarketConditions.momentum conditions)%Q
          ∧ (MarketConditions.momentum conditions <= 60)%Q
      end.
Proof.
  intros w1 w3. eexists _, _.
  split; [vm_compute; reflexivity|]. split; [vm_compute; reflexivity|].
  split; [reflexivity|].
  apply (computed_trend_is_never_bearish offlineHost
           (Some ZerodhaService.mock_quote) _ _ (initial 0) w1 w1 w3).
  - exact offlineHost_unit_draws.
  - vm_compute; reflexivity.
  - vm_compute; reflexivity.
Defined.

(** ** What the generated records look like *)

Section generated_records.
Context (host : Host) (strikes : list Z) (indicators : TechnicalIndicators.t)
  (conditions : MarketConditions.t) (P : Z → InsertTradingSignal.t → Prop).

(** A property of every record that one iteration builds, whatever the
    draws it starts from, is a property of every record of the batch. *)
Hypothesis P_one : ∀ expiryDate w signal w',
  AISignalsService.generate_one host strikes indicators conditions
    expiryDate w = (Ok signal, w') →
  P expiryDate signal.

Lemma generate_loop_Forall n expiryDate w signals w' :
  AISignalsService.generate_loop host n strikes indicators conditions
    expiryDate w = (Ok signals, w') →
  Forall (P expiryDate) signals.
Proof.
  revert w signals w'. induction n as [|n IH]; intros w signals w'; simpl.
  - by intros [= <- _].
  - unfold bind at 1.
    destruct (AISignalsService.generate_one _ _ _ _ _ w)
      as [[signal|e] w1] eqn:Hone; [|done].
    unfold bind at 1.
    destruct (AISignalsService.generate_loop _ _ _ _ _ _ w1)
      as [[rest|e] w2] eqn:Hrest; [|done].
    intros [= <- _]. constructor; [by eapply P_one | by eapply IH].
Qed.

Lemma generateTradingSignals_Forall currentPrice w signals w' :
  AISignalsService.generateTradingSignals host strikes currentPrice indicators
    conditions w = (Ok signals, w') →
  Forall (P (JsDate.setHours (localTZA host) 15 30
               (JsDate.addDays (localTZA host)
                  (if ((4 - JsDate.getDay (localTZA host) (now w) + 7) mod 7
                       =? 0)%Z
                   then 7
                   else (4 - JsDate.getDay (localTZA host) (now w) + 7)
                        mod 7)%Z
                  (now w))))
         signals.
Proof.
  unfold AISignalsService.generateTradingSignals,
    AISignalsService.getNextThursday, bind, new_Date, Math_random; simpl.
  apply generate_loop_Forall.
Qed.

End generated_records.

(** The jitter of the confidence is an integer from -10 to 9. *)
Lemma jitter_bounds (r : Q) :
  (0 <= r)%Q → (r < 1)%Q → (-10 ≤ Js.floor (r * 20)%Q - 10 ≤ 9)%Z.
Proof.
  intros Hlo Hhi. pose proof (floor_scaled_draw r 20 Hlo Hhi eq_refl) as H.
  change (inject_Z 20) with 20%Q in H. lia.
Qed.

Lemma gt_false x y : Js.gt x y = false ↔ (x <= y)%Q.
Proof.
  unfold Js.gt. destruct (Qlt_le_dec y x) as [Hlt|Hle].
  - split; [done|]. intros Hle. exfalso. by apply (Qlt_not_le _ _ Hlt).
  - by split.
Qed.

(** X18. The records generated under a sideways analysis stay below the
    threshold of a notification: with draws in [0, 1), strength and
    momentum are then below 60, the two largest bonuses of the confidence
    are not given, and every generated record has a confidence of 84 at
    most, below the 90 that a notification needs. *)
Theorem sideways_signals_stay_below_90 (host : Host) (strikes : list Z)
    (currentPrice : Q) (indicators : TechnicalIndicators.t)
    (conditions : MarketConditions.t) (w0 w1 w w' : World)
    (signals : list InsertTradingSignal.t) :
  unit_draws host →
  AISignalsService.analyzeMarketConditions host indicators w0
  = (Ok conditions, w1) →
  MarketConditions.trend conditions = sideways →
  AISignalsService.generateTradingSignals host strikes currentPrice indicators
    conditions w = (Ok signals, w') →
  Forall (λ signal,
            (60 ≤ InsertTradingSignal.confidence signal ≤ 84)%Z
            ∧ high_confidence signal = false)
         signals.
Proof.
  intros Hdraws Hanalyze Htrend Hrun.
  assert (Hweak : Js.gt (MarketConditions.strength conditions) 70 = false
                  ∧ Js.gt (MarketConditions.momentum conditions) 70 = false).
  { unfold AISignalsService.analyzeMarketConditions in Hanalyze.
    destruct (Hdraws (draws w0)) as [Hlo1 Hhi1].
    destruct (Hdraws (S (draws w0))) as [Hlo2 Hhi2].
    unfold bind, ret, Math_random in Hanalyze.
    cbn [fst snd draws] in Hanalyze.
    destruct (_ && _); [by injection Hanalyze as <- _|].
    destruct (_ && _); [by injection Hanalyze as <- _|].
    injection Hanalyze as <- _. cbn.
    split; apply gt_false; lra. }
  destruct Hweak as [Hstrength Hmomentum].
  apply (generateTradingSignals_Forall host strikes indicators conditions
           (λ _ signal,
              (60 ≤ InsertTradingSignal.confidence signal ≤ 84)%Z
              ∧ high_confidence signal = false)) in Hrun; [exact Hrun|].
  intros expiryDate v signal v' Hone.
  unfold high_confidence.
  rewrite (generate_one_confidence _ _ _ _ _ _ _ _ Hone).
  destruct (Hdraws (2 + draws v)%nat) as [Hlo Hhi].
  pose proof (jitter_bounds _ Hlo Hhi) as Hjitter.
  unfold AISignalsService.confidence_of, AISignalsService.clamp.
  rewrite Hstrength, Hmomentum.
  destruct (Js.gt (TechnicalIndicators.volume indicators) 2000000);
    destruct (Js.lt (TechnicalIndicators.volatility indicators) 20);
    (split; [lia | apply Z.leb_gt; lia]).
Qed.

Lemma sideways_signals_stay_below_90_witness :
  let indicators :=
    TechnicalIndicators.mk (50 # 1) (19000 # 1) (19100 # 1) (1234567 # 1)
      (18 # 1) in
  let conditions := MarketConditions.mk sideways (5900 # 100) (5900 # 100) in
  let w1 := mkWorld MemStorage.new [] 2 0 0 in
  ∃ signals w',
    AISignalsService.generateTradingSignals offlineHost example_strikes
      (198453 # 10) indicators conditions w1 = (Ok signals, w')
    ∧ length signals = 1%nat
    ∧ Forall (λ signal,
                (60 ≤ InsertTradingSignal.confidence signal ≤ 84)%Z
                ∧ high_confidence signal = false)
             signals.
Proof.
  intros indicators conditions w1. eexists _, _.
  split; [vm_compute; reflexivity|]. split; [reflexivity|].
  eapply (sideways_signals_stay_below_90 offlineHost example_strikes
            (198453 # 10) indicators conditions (initial 0) w1 w1).
  - exact offlineHost_unit_draws.
  - vm_compute; reflexivity.
  - reflexivity.
  - vm_compute; reflexivity.
Defined.

(** One iteration on a ladder of five strikes: a call takes the fourth or
    the fifth strike, a put the third or the second. *)
Lemma generate_one_shape host s0 s1 s2 s3 s4 indicators conditions expiryDate
    w signal w' :
  unit_draws host →
  AISignalsService.generate_one host [s0; s1; s2; s3; s4] indicators
    conditions expiryDate w = (Ok signal, w') →
  InsertTradingSignal.expiryDate signal = expiryDate
  ∧ InsertTradingSignal.isActive signal = true
  ∧ InsertTradingSignal.whatsappSent signal = false
  ∧ (InsertTradingSignal.type signal = "CALL"
     ∧ (InsertTradingSignal.strikePrice signal = Js.show s3
        ∨ InsertTradingSignal.strikePrice signal = Js.show s4)
     ∨ InsertTradingSignal.type signal = "PUT"
       ∧ (InsertTradingSignal.strikePrice signal = Js.show s2
          ∨ InsertTradingSignal.strikePrice signal = Js.show s1)).
Proof.
  intros Hdraws.
  unfold AISignalsService.generate_one, bind, Math_random; simpl.
  destruct (Hdraws (S (draws w))) as [Hlo Hhi].
  pose proof (floor_scaled_draw _ 2 Hlo Hhi eq_refl) as Hfloor.
  change (inject_Z 2) with 2%Q in Hfloor.
  change (Js.floor (inject_Z (Z.of_nat 5) * (6 # 10))) with 3%Z.
  change (Js.floor (inject_Z (Z.of_nat 5) * (4 # 10))) with 2%Z.
  assert (Hcases : Js.floor (random host (S (draws w)) * 2) = 0%Z
                   ∨ Js.floor (random host (S (draws w)) * 2) = 1%Z) by lia.
  destruct (if AISignalsService.is_bullish _ then _ else _);
    destruct Hcases as [-> | ->]; simpl;
    intros [= <- _]; simpl; split_and!; try done; auto.
Qed.

(** X19. On a ladder of five strikes and with draws in [0, 1) the
    generator returns one, two or three records. Each expires on the next
    Thursday, is active and not yet notified; a call is at the fourth or
    the fifth strike of the ladder, a put at the third or the second, and
    the first strike is never used. *)
Theorem generated_records_shape (host : Host) (s0 s1 s2 s3 s4 : Z)
    (currentPrice : Q) (indicators : TechnicalIndicators.t)
    (conditions : MarketConditions.t) (w : World) :
  unit_draws host →
  ∃ signals w' expiry,
    AISignalsService.generateTradingSignals host [s0; s1; s2; s3; s4]
      currentPrice indicators conditions w = (Ok signals, w')
    ∧ AISignalsService.getNextThursday host w = (Ok expiry, w)
    ∧ (1 ≤ length signals ≤ 3)%nat
    ∧ Forall
        (λ signal,
           InsertTradingSignal.expiryDate signal = expiry
           ∧ InsertTradingSignal.isActive signal = true
           ∧ InsertTradingSignal.whatsappSent signal = false
           ∧ (InsertTradingSignal.type signal = "CALL"
              ∧ (InsertTradingSignal.strikePrice signal = Js.show s3
                 ∨ InsertTradingSignal.strikePrice signal = Js.show s4)
              ∨ InsertTradingSignal.type signal = "PUT"
                ∧ (InsertTradingSignal.strikePrice signal = Js.show s2
                   ∨ InsertTradingSignal.strikePrice signal = Js.show s1)))
        signals.
Proof.
  intros Hdraws.
  destruct (generateTradingSignals_returns host [s0; s1; s2; s3; s4]
              currentPrice indicators conditions w Hdraws eq_refl)
    as (signals & w' & Hrun & Hlength).
  exists signals, w'. eexists. split; [exact Hrun|].
  split; [reflexivity|]. split; [exact Hlength|].
  apply (generateTradingSignals_Forall host [s0; s1; s2; s3; s4] indicators
           conditions
           (λ expiry signal,
              InsertTradingSignal.expiryDate signal = expiry
              ∧ InsertTradingSignal.isActive signal = true
              ∧ InsertTradingSignal.whatsappSent signal = false
              ∧ (InsertTradingSignal.type signal = "CALL"
                 ∧ (InsertTradingSignal.strikePrice signal = Js.show s3
                    ∨ InsertTradingSignal.strikePrice signal = Js.show s4)
                 ∨ InsertTradingSignal.type signal = "PUT"
                   ∧ (InsertTradingSignal.strikePrice signal = Js.show s2
                      ∨ InsertTradingSignal.strikePrice signal = Js.show s1))))
    in Hrun; [exact Hrun|].
  intros expiryDate v signal v'. by apply generate_one_shape.
Qed.

Lemma generated_records_shape_witness :
  ∃ signals w' expiry,
    AISignalsService.generateTradingSignals offlineHost
      [19750; 19800; 19850; 19900; 19950]%Z
      (198453 # 10) example_indicators example_conditions (initial 0)
    = (Ok signals, w')
    ∧ AISignalsService.getNextThursday offlineHost (initial 0)
      = (Ok expiry, initial 0)
    ∧ (1 ≤ length signals ≤ 3)%nat
    ∧ Forall
        (λ signal,
           InsertTradingSignal.expiryDate signal = expiry
           ∧ InsertTradingSignal.isActive signal = true
           ∧ InsertTradingSignal.whatsappSent signal = false
           ∧ (InsertTradingSignal.type signal = "CALL"
              ∧ (InsertTradingSignal.strikePrice signal = Js.show 19900
                 ∨ InsertTradingSignal.strikePrice signal = Js.show 19950)
              ∨ InsertTradingSignal.type signal = "PUT"
                ∧ (InsertTradingSignal.strikePrice signal = Js.show 19850
                   ∨ InsertTradingSignal.strikePrice signal = Js.show 19800)))
        signals.
Proof.
  apply (generated_records_shape offlineHost 19750 19800 19850 19900 19950
           (198453 # 10) example_indicators example_conditions (initial 0)).
  exact offlineHost_unit_draws.
Defined.

(** ** The mock options chain *)

Lemma Math_max_ge x y : (x <= ZerodhaService.Math_max x y)%Q.
Proof.
  unfold ZerodhaService.Math_max. destruct (Qlt_le_dec x y) as [Hlt|Hle].
  - by apply Qlt_le_weak.
  - apply Qle_refl.
Qed.

(** The two entries of one strike. *)
Lemma mock_entries_bounds host strike index data w :
  unit_draws host →
  ∃ call put,
    ZerodhaService.mock_entries host strike index data w
    = (Ok (JsMap.set (Js.show strike ++ "PE")%string put
             (JsMap.set (Js.show strike ++ "CE")%string call data)),
       mkWorld (storage w) (trace w) (8 + draws w) (fetches w) (now w))
    ∧ (5 <= ZerodhaQuote.last_price call)%Q
    ∧ (5 <= ZerodhaQuote.last_price put)%Q
    ∧ (∃ n, ZerodhaQuote.volume call = inject_Z n ∧ (50000 ≤ n < 550000)%Z)
    ∧ (∃ n, ZerodhaQuote.volume put = inject_Z n ∧ (40000 ≤ n < 440000)%Z).
Proof.
  intros Hdraws. eexists _, _. split.
  { unfold ZerodhaService.mock_entries, bind, Math_random, ret.
    cbn [fst snd draws storage trace fetches now]. reflexivity. }
  cbn [ZerodhaQuote.last_price ZerodhaQuote.volume].
  split; [apply Math_max_ge|]. split; [apply Math_max_ge|].
  split; eexists; (split; [reflexivity|]).
  - destruct (Hdraws (3 + draws w)%nat) as [Hlo Hhi].
    pose proof (floor_scaled_draw _ 500000 Hlo Hhi eq_refl) as Hfloor.
    change (inject_Z 500000) with 500000%Q in Hfloor. simpl in *. lia.
  - destruct (Hdraws (7 + draws w)%nat) as [Hlo Hhi].
    pose proof (floor_scaled_draw _ 400000 Hlo Hhi eq_refl) as Hfloor.
    change (inject_Z 400000) with 400000%Q in Hfloor. simpl in *. lia.
Qed.

(** One strike of the loop of [generateMockOptionsChain]. *)
Ltac mock_strike Hdraws call put Hcall Hput Hcv Hpv :=
  unfold bind at 1;
  match goal with
  | |- context [ZerodhaService.mock_entries ?host ?strike ?index ?data ?w] =>
      destruct (mock_entries_bounds host strike index data w Hdraws)
        as (call & put & -> & Hcall & Hput & Hcv & Hpv)
  end;
  cbn [ZerodhaService.mock_chain_loop].

(** X20. With draws in [0, 1), [generateMockOptionsChain] returns ten
    entries, a call and a put for each of its five strikes from 19750 to
    19950, in that order; every price is 5 at least and every volume is
    an integer from 40000 up to 550000; forty draws are consumed and
    nothing else of the world moves. There is an entry for each of the
    five strikes. *)
Theorem generateMockOptionsChain_entries (host : Host) (w : World) :
  unit_draws host →
  ∃ data,
    ZerodhaService.generateMockOptionsChain host w
    = (Ok data,
       mkWorld (storage w) (trace w) (40 + draws w) (fetches w) (now w))
    ∧ JsMap.keys data
      = ["19750CE"; "19750PE"; "19800CE"; "19800PE"; "19850CE"; "19850PE";
         "19900CE"; "19900PE"; "19950CE"; "19950PE"]
    ∧ Forall
        (λ e : string * ZerodhaQuote.t,
           (5 <= ZerodhaQuote.last_price e.2)%Q
           ∧ ∃ n, ZerodhaQuote.volume e.2 = inject_Z n
                  ∧ (40000 ≤ n < 550000)%Z)
        data
    ∧ Forall (λ strike, has_entry strike (Some data) = true)
        [19750; 19800; 19850; 19900; 19950]%Z.
Proof.
  intros Hdraws.
  unfold ZerodhaService.generateMockOptionsChain.
  cbn [ZerodhaService.mock_chain_loop].
  mock_strike Hdraws c0 p0 Hc0 Hp0 Hcv0 Hpv0.
  mock_strike Hdraws c1 p1 Hc1 Hp1 Hcv1 Hpv1.
  mock_strike Hdraws c2 p2 Hc2 Hp2 Hcv2 Hpv2.
  mock_strike Hdraws c3 p3 Hc3 Hp3 Hcv3 Hpv3.
  mock_strike Hdraws c4 p4 Hc4 Hp4 Hcv4 Hpv4.
  eexists. split; [reflexivity|].
  split; [by vm_compute|]. split.
  - assert (Hwiden : ∀ q : ZerodhaQuote.t,
              (∃ n, ZerodhaQuote.volume q = inject_Z n
                    ∧ ((50000 ≤ n < 550000)%Z ∨ (40000 ≤ n < 440000)%Z)) →
              ∃ n, ZerodhaQuote.volume q = inject_Z n
                   ∧ (40000 ≤ n < 550000)%Z).
    { intros q (n & Hn & Hrange). exists n. split; [done | lia]. }
    vm_compute JsMap.set.
    repeat constructor; simpl; try done; apply Hwiden;
      match goal with
      | H : ∃ n, ZerodhaQuote.volume ?q = _ ∧ _
        |- ∃ n, ZerodhaQuote.volume ?q = _ ∧ _ =>
          destruct H as (n & Hn & Hrange); exists n; split; [done | lia]
      end.
  - repeat constructor; by vm_compute.
Qed.

Lemma generateMockOptionsChain_entries_witness :
  ∃ data,
    ZerodhaService.generateMockOptionsChain offlineHost (initial 0)
    = (Ok data, mkWorld MemStorage.new [] 40 0 0)
    ∧ JsMap.keys data
      = ["19750CE"; "19750PE"; "19800CE"; "19800PE"; "19850CE"; "19850PE";
         "19900CE"; "19900PE"; "19950CE"; "19950PE"]
    ∧ Forall
        (λ e : string * ZerodhaQuote.t,
           (5 <= ZerodhaQuote.last_price e.2)%Q
           ∧ ∃ n, ZerodhaQuote.volume e.2 = inject_Z n
                  ∧ (40000 ≤ n < 550000)%Z)
        data
    ∧ Forall (λ strike, has_entry strike (Some data) = true)
        [19750; 19800; 19850; 19900; 19950]%Z.
Proof.
  apply (generateMockOptionsChain_entries offlineHost (initial 0)).
  exact offlineHost_unit_draws.
Defined.

(** ** The list of the subscribers *)

Lemma seq_fmap_sorted (m : Z) (start len : nat) :
  StronglySorted Z.lt ((λ i : nat, Z.of_nat i + m)%Z <$> seq start len).
Proof.
  revert start. induction len as [|len IH]; intros start; [constructor|].
  simpl. constructor; [apply IH|].
  apply Forall_fmap, Forall_forall. intros i Hi.
  apply elem_of_seq in Hi. simpl. lia.
Qed.

Lemma seqZ_sorted (m n : Z) : StronglySorted Z.lt (seqZ m n).
Proof. apply seq_fmap_sorted. Qed.

(** The identifiers of the records that a filter keeps are in the order
    of the keys. *)
Lemma filed_in_order_filter_sorted {V} (id_of : V → Z) (p : V → bool)
    (m : list (Z * V)) :
  Forall (λ e : Z * V, id_of e.2 = e.1) m →
  StronglySorted Z.lt (JsMap.keys m) →
  StronglySorted Z.lt (id_of <$> List.filter p (JsMap.values m)).
Proof.
  unfold JsMap.keys, JsMap.values.
  induction 1 as [|[k v] m Hhead Hids IH]; intros Hsorted; [constructor|].
  rewrite fmap_cons in Hsorted.
  apply StronglySorted_inv in Hsorted as [Hsorted Hbelow].
  rewrite fmap_cons. cbn [List.filter snd fst] in *.
  destruct (p v); [|by apply IH].
  rewrite fmap_cons. constructor; [by apply IH|].
  rewrite Hhead. clear IH Hsorted Hhead.
  induction Hids as [|[k' v'] m Hhead' _ IH]; [constructor|].
  rewrite fmap_cons in Hbelow. apply Forall_cons in Hbelow as [Hk Hbelow].
  rewrite fmap_cons. cbn [List.filter snd fst] in *.
  destruct (p v'); [|by apply IH].
  rewrite fmap_cons. constructor; [by rewrite Hhead' | by apply IH].
Qed.

(** X21. In every reachable world [GET /api/whatsapp/users] answers 200
    with the active records of the store, and with those only; no two of
    them have the same phone number, and they come in the order of their
    identifiers, that is, of their creation. *)
Theorem listed_subscribers_are_distinct (host : Host) (w : World) :
  reachable host w →
  ∃ users,
    Routes.getWhatsappUsers w
    = (Ok (Routes.json (Routes.WhatsappUsersBody users)), w)
    ∧ (∀ user,
         user ∈ users ↔
         user ∈ JsMap.values (MemStorage.whatsappUsers (storage w))
         ∧ WhatsappUser.isActive user = true)
    ∧ NoDup (WhatsappUser.phoneNumber <$> users)
    ∧ StronglySorted Z.lt (WhatsappUser.id <$> users).
Proof.
  intros Hreach. exists (MemStorage.getAllWhatsappUsers (storage w)).
  split; [reflexivity|]. split_and!.
  - intros user. unfold MemStorage.getAllWhatsappUsers.
    rewrite !list_elem_of_In, filter_In. done.
  - exact (active_numbers_distinct host w Hreach).
  - destruct (identifiers_wf_reachable host w Hreach)
      as [(Hkeys & _ & Hids) _].
    apply filed_in_order_filter_sorted; [exact Hids|].
    rewrite Hkeys. apply seqZ_sorted.
Qed.

Lemma listed_subscribers_are_distinct_witness :
  ∃ users,
    Routes.getWhatsappUsers resubscribed
    = (Ok (Routes.json (Routes.WhatsappUsersBody users)), resubscribed)
    ∧ (∀ user,
         user ∈ users ↔
         user ∈ JsMap.values (MemStorage.whatsappUsers (storage resubscribed))
         ∧ WhatsappUser.isActive user = true)
    ∧ NoDup (WhatsappUser.phoneNumber <$> users)
    ∧ StronglySorted Z.lt (WhatsappUser.id <$> users).
Proof.
  apply (listed_subscribers_are_distinct offlineHost).
  exact reachable_resubscribed.
Defined.

(** X22. The round trip of a number that no record of the store holds, in
    a reachable world: the POST answers 200 with a new active record,
    which the list then shows last; the DELETE of the same number answers
    200, and the list is again the one before the two requests. *)
Theorem new_subscriber_round_trip (host : Host) (w : World)
    (param phoneNumber : string) :
  reachable host w →
  ¬ has_phone phoneNumber (storage w) →
  decodeURIComponent host param = Ok phoneNumber →
  let user :=
    WhatsappUser.mk (MemStorage.currentWhatsappUserId (storage w))
      phoneNumber true (now w) in
  let posted :=
    Routes.postWhatsappUser host
      (Js.Obj [("phoneNumber", Js.Str phoneNumber)]) w in
  let deleted := Routes.deleteWhatsappUser host param posted.2 in
  posted.1 = Ok (Routes.json (Routes.WhatsappUserBody user))
  ∧ MemStorage.getAllWhatsappUsers (storage posted.2)
    = MemStorage.getAllWhatsappUsers (storage w) ++ [user]
  ∧ deleted.1 = Ok (Routes.json (Routes.Message "User removed successfully"))
  ∧ MemStorage.getAllWhatsappUsers (storage deleted.2)
    = MemStorage.getAllWhatsappUsers (storage w).
Proof.
  intros Hreach Hnone Hdecode user posted deleted.
  pose proof (post_new_number host phoneNumber w Hnone) as Hst1.
  fold posted in Hst1.
  destruct (reachable_subscribers_wf host w Hreach) as [Hkeys _].
  assert (Hfresh : MemStorage.currentWhatsappUserId (storage w)
                   ∉ JsMap.keys (MemStorage.whatsappUsers (storage w))).
  { intros Hin. rewrite Forall_forall in Hkeys. specialize (Hkeys _ Hin). lia. }
  assert (Hm1 : MemStorage.whatsappUsers (storage posted.2)
                = MemStorage.whatsappUsers (storage w)
                  ++ [(MemStorage.currentWhatsappUserId (storage w), user)]).
  { rewrite Hst1. destruct (storage w); simpl in *.
    by apply JsMap_set_fresh. }
  assert (Hresponse : posted.1
                      = Ok (Routes.json (Routes.WhatsappUserBody user))).
  { subst posted. unfold Routes.postWhatsappUser, try_catch.
    simpl. unfold bind at 1. unfold read_storage at 1. simpl.
    rewrite (not_has_phone_not_active _ _ Hnone).
    unfold bind at 1. unfold new_Date at 1.
    unfold bind at 1. unfold on_storage at 1. simpl.
    unfold bind at 1.
    match goal with
    | |- context [WhatsAppService.sendWelcomeMessage host ?p ?w1] =>
        destruct (sendWelcomeMessage_returns host p w1) as (v & ->)
    end.
    reflexivity. }
  split; [exact Hresponse|]. split.
  { unfold MemStorage.getAllWhatsappUsers. rewrite Hm1.
    unfold JsMap.values. rewrite fmap_app, List.filter_app. done. }
  destruct (removeWhatsappUser_known phoneNumber (storage posted.2))
    as (i & id & u & Hi & Hu & _ & Hremove).
  { exists (MemStorage.currentWhatsappUserId (storage w)), user.
    rewrite Hm1. split; [|done]. apply elem_of_app. right.
    apply elem_of_cons. by left. }
  assert (Hdeleted : deleted
            = (Ok (Routes.json (Routes.Message "User removed successfully")),
               mkWorld
                 (MemStorage.removeWhatsappUser phoneNumber
                    (storage posted.2)).2
                 (trace posted.2) (draws posted.2) (fetches posted.2)
                 (now posted.2))).
  { subst deleted. unfold Routes.deleteWhatsappUser, try_catch, bind,
      on_storage.
    rewrite Hdecode. cbn [ret fst snd]. by rewrite Hremove. }
  rewrite Hdeleted. split; [reflexivity|]. cbn [snd storage].
  rewrite Hremove. cbn [snd].
  rewrite Hm1 in Hi.
  apply lookup_app_Some in Hi as [Hi|[Hlen Hi]].
  { destruct Hnone. exists id, u. split; [|done].
    by eapply list_elem_of_lookup_2. }
  destruct (i - length (MemStorage.whatsappUsers (storage w)))%nat
    as [|n] eqn:Hdiff; [|done].
  injection Hi as <- <-.
  assert (i = length (MemStorage.whatsappUsers (storage w))) as -> by lia.
  unfold MemStorage.getAllWhatsappUsers.
  destruct (storage posted.2); simpl in *. subst.
  rewrite insert_app_r_alt, Nat.sub_diag by done. simpl.
  unfold JsMap.values.
  rewrite fmap_app, List.filter_app. simpl.
  by rewrite app_nil_r.
Qed.

Lemma new_subscriber_round_trip_witness :
  let user := WhatsappUser.mk 1 subscriber true 0 in
  let posted :=
    Routes.postWhatsappUser offlineHost
      (Js.Obj [("phoneNumber", Js.Str subscriber)]) (initial 0) in
  let deleted := Routes.deleteWhatsappUser offlineHost subscriber posted.2 in
  posted.1 = Ok (Routes.json (Routes.WhatsappUserBody user))
  ∧ MemStorage.getAllWhatsappUsers (storage posted.2) = [user]
  ∧ deleted.1 = Ok (Routes.json (Routes.Message "User removed successfully"))
  ∧ MemStorage.getAllWhatsappUsers (storage deleted.2) = [].
Proof.
  apply (new_subscriber_round_trip offlineHost (initial 0) subscriber
           subscriber).
  - apply reach_initial.
  - intros (id & user & Hin & _). simpl in Hin. by apply elem_of_nil in Hin.
  - reflexivity.
Defined.

(** ** The recipient of a message *)

(** X23. The message requests go to the digits of the phone number: two
    phone numbers with the same digits, which the store keeps as two
    subscribers, get the same request, with the same result. Only the
    argument of the call tells them apart. *)
Theorem sendTradingSignal_same_digits (host : Host)
    (phoneNumber phoneNumber' : string) (signal : SignalPayload.t)
    (w : World) :
  Js.strip_non_digits phoneNumber = Js.strip_non_digits phoneNumber' →
  let r := WhatsAppService.sendTradingSignal host phoneNumber signal w in
  let r' := WhatsAppService.sendTradingSignal host phoneNumber' signal w in
  r.1 = r'.1
  ∧ fetches r.2 = fetches r'.2
  ∧ storage r.2 = storage r'.2
  ∧ trace r.2 = trace w ++ [SendTradingSignal phoneNumber signal]
  ∧ trace r'.2 = trace w ++ [SendTradingSignal phoneNumber' signal].
Proof.
  intros Hdigits. cbv zeta.
  unfold WhatsAppService.sendTradingSignal, bind, emit.
  cbn [fst snd]. rewrite Hdigits.
  unfold WhatsAppService.makeRequest.
  destruct (_ || _); [done|].
  unfold try_catch, await_fetch, bind, next_fetch. cbn [fst snd fetches].
  destruct (whatsappFetch host _ _ _ _) as [e | [] status [v|e]]; done.
Qed.

Lemma sendTradingSignal_same_digits_witness :
  let signal :=
    SignalPayload.mk "CALL" "19900" 92 "120.00" "40.00" "Reason." in
  let r := WhatsAppService.sendTradingSignal unreachableHost
             "+91 98765-43210" signal (initial 0) in
  let r' := WhatsAppService.sendTradingSignal unreachableHost
              "919876543210" signal (initial 0) in
  r.1 = r'.1
  ∧ fetches r.2 = fetches r'.2
  ∧ storage r.2 = storage r'.2
  ∧ trace r.2 = [SendTradingSignal "+91 98765-43210" signal]
  ∧ trace r'.2 = [SendTradingSignal "919876543210" signal].
Proof.
  intros signal.
  apply (sendTradingSignal_same_digits unreachableHost "+91 98765-43210"
           "919876543210" signal (initial 0)).
  reflexivity.
Defined.

(** ** The rationale of a signal *)

(** X24. The rationale of a put can be without any reason: when the trend
    is not bearish, the RSI is 60 at most, the short average is not below
    the long one, the volatility is 25 at most, the confidence is 90 at
    most and the strength is 75 at most, then the text is the closing
    sentence alone, with its leading full stop. *)
Theorem put_rationale_without_reason (indicators : TechnicalIndicators.t)
    (conditions : MarketConditions.t) (confidence : Z) :
  MarketConditions.trend conditions ≠ bearish →
  (TechnicalIndicators.rsi indicators <= 60)%Q →
  (TechnicalIndicators.sma50 indicators
   <= TechnicalIndicators.sma20 indicators)%Q →
  (TechnicalIndicators.volatility indicators <= 25)%Q →
  (confidence ≤ 90)%Z →
  (MarketConditions.strength conditions <= 75)%Q →
  AISignalsService.generateReasoning "PUT" indicators conditions confidence
  = ". Trade with proper risk management.".
Proof.
  intros Htrend Hrsi Hsma Hvol Hconf Hstrength.
  unfold AISignalsService.generateReasoning. cbv zeta.
  change (String.eqb "PUT" "CALL") with false. cbv iota.
  replace (AISignalsService.is_bearish (MarketConditions.trend conditions))
    with false by by destruct (MarketConditions.trend conditions).
  apply gt_false in Hrsi, Hvol, Hstrength.
  rewrite Hrsi, Hvol, Hstrength.
  unfold Js.lt. apply gt_false in Hsma. rewrite Hsma.
  replace (90 <? confidence)%Z with false by (symmetry; apply Z.ltb_ge; lia).
  reflexivity.
Qed.

Lemma put_rationale_without_reason_witness :
  AISignalsService.generateReasoning "PUT"
    (TechnicalIndicators.mk (50 # 1) (19100 # 1) (19000 # 1) (1234567 # 1)
       (18 # 1))
    (MarketConditions.mk sideways (59 # 1) (59 # 1)) 84
  = ". Trade with proper risk management.".
Proof.
  apply put_rationale_without_reason; try done; by vm_compute.
Defined.

(** ** A cycle without market-data credentials *)

Lemma calculateTechnicalIndicators_returns host fields w :
  ∃ indicators,
    AISignalsService.calculateTechnicalIndicators host (Some fields) w
    = (Ok indicators,
       mkWorld (storage w) (trace w) (4 + draws w) (fetches w) (now w)).
Proof.
  unfold AISignalsService.calculateTechnicalIndicators,
    AISignalsService.first_value, bind, ret, Math_random.
  cbn [fst snd draws storage trace fetches now]. by eexists.
Qed.

Lemma analyzeMarketConditions_returns host indicators w :
  ∃ conditions,
    AISignalsService.analyzeMarketConditions host indicators w
    = (Ok conditions,
       mkWorld (storage w) (trace w) (2 + draws w) (fetches w) (now w)).
Proof.
  unfold AISignalsService.analyzeMarketConditions.
  unfold bind, ret, Math_random.
  cbn [fst snd draws storage trace fetches now].
  destruct (_ && _); [by eexists|]. destruct (_ && _); by eexists.
Qed.


